(** * SwarmSpawner: a shallow embedding of [dockerspawner/swarmspawner.py]

    The spawner is a JupyterHub [Spawner] subclass that keeps one docker
    swarm service per user.  The embedding follows the Python source method
    by method: traits that configuration sets are a record [Config], the
    attributes the methods assign are a record [State], engine calls go
    through an interface [Engine], and every method is a computation in a
    state-and-exception monad. *)

From Stdlib Require Import ZArith List Bool Ascii String Lia.
From Stdlib Require Import Floats.SpecFloat.
From stdpp Require Import gmap strings list fin_maps.

Local Open Scope Z_scope.
Local Open Scope string_scope.

(** ** Exceptions and results *)

(** The exceptions the modelled code can raise or let through. [APIError]
    carries [e.response.status_code]. *)
Inductive exn : Type :=
| APIError (status_code : Z)
| RuntimeError (msg : string)
| KeyError (key : string)
| ValueError
| OverflowError
| IndexError
| InvalidArgument
| OtherError (what : string).

#[global] Instance exn_eq_dec : EqDecision exn.
Proof. solve_decision. Defined.

Inductive result (A : Type) : Type :=
| Ok (a : A)
| Raise (e : exn).
Arguments Ok {A} a.
Arguments Raise {A} e.

(** ** Python floats

    [cpu_limit] and [cpu_guarantee] are [Float] traits: IEEE binary64
    values or [None].  They are modelled by [spec_float] with the binary64
    parameters. *)
Definition float : Type := spec_float.
Definition prec64 : Z := 53.
Definition emax64 : Z := 1024.

Definition float_mul (x y : float) : float := SFmul prec64 emax64 x y.

(** The literal [1e9]: 10^9 = 8388608000000000 * 2^-23. *)
Definition float_1e9 : float := S754_finite false 8388608000000000 (-23).

(** [bool(x)] for a float: everything but the two zeros is true. *)
Definition float_truthy (x : float) : bool :=
  match x with
  | S754_zero _ => false
  | _ => true
  end.

(** [int(x)] for a float: truncation toward zero; [OverflowError] on an
    infinity and [ValueError] on a NaN. *)
Definition float_to_int (x : float) : result Z :=
  match x with
  | S754_zero _ => Ok 0
  | S754_infinity _ => Raise OverflowError
  | S754_nan => Raise ValueError
  | S754_finite s m e => Ok (cond_Zopp s (Z.shiftl (Zpos m) e))
  end.

(** [int(v * 1e9) if v else None], the expression of lines 606 and 607 of
    [start]. *)
Definition cpu_nano (v : option float) : result (option Z) :=
  match v with
  | None => Ok None
  | Some x =>
      if float_truthy x then
        match float_to_int (float_mul x float_1e9) with
        | Ok n => Ok (Some n)
        | Raise e => Raise e
        end
      else Ok None
  end.

(** Numerator and denominator of the exact value of a finite float
    [m * 2^e], sign apart. *)
Definition mag_num (m : positive) (e : Z) : Z := Zpos m * 2 ^ Z.max 0 e.
Definition mag_den (e : Z) : Z := 2 ^ Z.max 0 (- e).

(** ** Strings

    A Python [str] is modelled by the bytes of its UTF-8 encoding, one
    [ascii] per byte.  All the patterns the source matches on are ASCII, so
    prefix tests, splitting and per-character replacement agree with their
    code-point versions. *)

Definition ascii_in (c : ascii) (cs : string) : bool :=
  existsb (Ascii.eqb c) (list_ascii_of_string cs).

(** [string.ascii_letters], [string.digits]. *)
Definition ascii_letters : string :=
  "abcdefghijklmnopqrstuvwxyzABCDEFGHIJKLMNOPQRSTUVWXYZ".
Definition digits : string := "0123456789".

(** [_service_safe_chars = set(string.ascii_letters + string.digits + '-')],
    [_service_escape_char = '_']. *)
Definition _service_safe_chars : string := ascii_letters ++ digits ++ "-".
Definition _service_escape_char : ascii := "_"%char.

(** ['%X' % n] for a byte: upper-case hexadecimal, no padding. *)
Definition hex_digit (n : N) : ascii :=
  match String.get (N.to_nat n) "0123456789ABCDEF" with
  | Some c => c
  | None => "0"%char
  end.

Definition format_X (n : N) : string :=
  if (n <? 16)%N then String (hex_digit n) ""
  else String (hex_digit (n / 16)) (String (hex_digit (n mod 16)) "").

(** Modelled from the spec: [escape] is the function of the [escapism]
    package that [escaped_name] calls; its code is not part of the
    repository.  Every byte outside the safe alphabet becomes a fixed
    sequence that starts with the escape character, here followed by the
    byte in upper-case hexadecimal as ['%X'] prints it; safe characters are
    copied. *)
Definition _escape_char (c : ascii) (escape_char : ascii) : string :=
  String escape_char (format_X (N_of_ascii c)).

Fixpoint escape (to_escape : string) (safe : string) (escape_char : ascii) : string :=
  match to_escape with
  | EmptyString => ""
  | String c rest =>
      (if ascii_in c safe then String c "" else _escape_char c escape_char)
        ++ escape rest safe escape_char
  end.

(** [s.replace(old, new)] for single characters. *)
Fixpoint replace_char (old new : ascii) (s : string) : string :=
  match s with
  | EmptyString => ""
  | String c rest =>
      String (if Ascii.eqb c old then new else c) (replace_char old new rest)
  end.

(** [line.startswith(p)]. *)
Definition startswith (line p : string) : bool := String.prefix p line.

(** [s.split(sep, 1)] for a non-empty [sep]: [None] when [sep] does not
    occur (Python returns the one-element list [[s]]), otherwise the parts
    before and after its first occurrence. *)
Fixpoint split_once (sep s : string) : option (string * string) :=
  if String.prefix sep s then
    Some ("", String.substring (String.length sep)
                (String.length s - String.length sep) s)
  else
    match s with
    | EmptyString => None
    | String c rest =>
        match split_once sep rest with
        | Some (h, t) => Some (String c h, t)
        | None => None
        end
    end.

(** ** Dictionaries whose order matters

    A Python [dict] iterates in insertion order; assigning to a key that is
    already there keeps its position. *)
Definition odict (V : Type) : Type := list (string * V).

Fixpoint dict_set {V : Type} (k : string) (v : V) (d : odict V) : odict V :=
  match d with
  | [] => [(k, v)]
  | (k', v') :: rest =>
      if String.eqb k' k then (k, v) :: rest else (k', v') :: dict_set k v rest
  end.

(** ** Volumes and mounts *)

(** A value of the [volumes] / [read_only_volumes] traits: a bare path, or a
    dict of which the keys ['bind'] and ['mode'] are read. *)
Inductive volval : Type :=
| VStr (bind : string)
| VDict (bind : option string) (mode : option string).

(** An entry of [volume_binds]: [{'bind': ..., 'mode': ...}]. *)
Record bindval : Type := { bind : string; mode : string }.

(** [docker.types.DriverConfig(name, options)]: a dict that always holds
    ['Name'], and ['Options'] when [options] is true. *)
Record DriverConfig : Type := {
  dc_name : string;
  dc_options : option (odict string)
}.

(** [len(d)] and [bool(d)] for a [DriverConfig]. *)
Definition DriverConfig_len (d : DriverConfig) : nat :=
  match dc_options d with
  | Some (_ :: _) => 2
  | _ => 1
  end.

Definition DriverConfig_truthy (d : DriverConfig) : bool :=
  negb (Nat.eqb (DriverConfig_len d) 0).

(** A [docker.types.Mount] of type ['bind']: the dict holds ['Target'],
    ['Source'], ['Type'] and ['ReadOnly'], and no volume options. *)
Record Mount : Type := {
  target : string;
  source : string;
  type : string;
  read_only : bool
}.

(** [Mount(target=..., source=..., type='bind', read_only=...,
    driver_config=...)].  For a bind mount the constructor of docker-py
    raises [InvalidArgument] when a volume option is true; [driver_config] is
    the only one the source passes. *)
Definition Mount_bind (target source : string) (read_only : bool)
    (driver_config : option DriverConfig) : result Mount :=
  let given := match driver_config with
               | Some d => DriverConfig_truthy d
               | None => false
               end in
  if given then Raise InvalidArgument
  else Ok {| target := target; source := source; type := "bind";
             read_only := read_only |}.

(** ** Keyword arguments of [create_service] *)
Inductive kwval : Type :=
| KNone
| KStr (s : string)
| KInt (n : Z)
| KStrList (l : list string)
| KEnv (env : odict string)
| KMounts (ms : list Mount)
| KOther (repr : string).

(** ** Configuration

    The traits and inherited values the modelled methods read and never
    assign. *)
Record Config : Type := {
  user_name : string;                       (* self.user.name *)
  image : string;
  name : option string;                     (* getattr(self, 'name', '') *)
  service_prefix : string;
  service_name_template : string;
  remove_services : bool;
  _user_set_cmd : bool;
  cmd : list string;
  mem_limit : option Z;
  mem_guarantee : option Z;
  cpu_limit : option float;
  cpu_guarantee : option float;
  network_name : string;
  port : Z;
  volumes : odict volval;
  read_only_volumes : odict volval;
  format_volume_name : string -> result string;  (* format_volume_name(v, self) *)
  volume_driver : string;
  volume_driver_options : odict string;
  extra_create_kwargs : gmap string kwval;
  hub_ip_connect : string;
  hub_api_url : string;                     (* self.hub.api_url *)
  inherited_env : odict string;             (* Spawner.get_env() *)
  inherited_args : list string;             (* Spawner.get_args() *)
  inherited_state : gmap string string      (* Spawner.get_state() *)
}.

(** Pure computations that can raise. *)
Definition rbind {A B : Type} (r : result A) (k : A -> result B) : result B :=
  match r with
  | Ok a => k a
  | Raise e => Raise e
  end.

(** [_volumes_to_binds(volumes, binds, mode)].  In
    [binds[_fmt(k)] = {'bind': _fmt(v), 'mode': m}] the right-hand side is
    evaluated before the subscript. *)
Fixpoint _volumes_to_binds (_fmt : string -> result string)
    (volumes : odict volval) (binds : odict bindval) (mode : string)
  : result (odict bindval) :=
  match volumes with
  | [] => Ok binds
  | (k, v) :: rest =>
      rbind (match v with
             | VStr b => Ok (b, mode)
             | VDict b m =>
                 let m' := match m with Some m1 => m1 | None => mode end in
                 match b with
                 | Some b1 => Ok (b1, m')
                 | None => Raise (KeyError "bind")
                 end
             end) (fun '(v', m) =>
      rbind (_fmt v') (fun fv =>
      rbind (_fmt k) (fun fk =>
      _volumes_to_binds _fmt rest (dict_set fk {| bind := fv; mode := m |} binds) mode)))
  end.

(** The property [volume_binds]. *)
Definition volume_binds (c : Config) : result (odict bindval) :=
  rbind (_volumes_to_binds (format_volume_name c) (volumes c) [] "rw") (fun binds =>
  _volumes_to_binds (format_volume_name c) (read_only_volumes c) binds "ro").

(** The property [mount_driver_config]; [options or None]. *)
Definition mount_driver_config (c : Config) : DriverConfig :=
  {| dc_name := volume_driver c;
     dc_options := match volume_driver_options c with
                   | [] => None
                   | o => Some o
                   end |}.

(** One element of the comprehension of [mounts]. *)
Definition mount_of (driver : DriverConfig) (item : string * bindval)
  : result Mount :=
  let '(host_loc, vol) := item in
  Mount_bind (bind vol) host_loc (String.eqb (mode vol) "ro") (Some driver).

(** [[f(x) for x in l]]: the elements are built in order, and the first
    exception ends the comprehension. *)
Fixpoint comprehension {A B : Type} (f : A -> result B) (l : list A)
  : result (list B) :=
  match l with
  | [] => Ok []
  | x :: rest =>
      rbind (f x) (fun y =>
      rbind (comprehension f rest) (fun ys => Ok (y :: ys)))
  end.

(** The property [mounts]; [volume_binds] is evaluated for [len] and again
    for the comprehension. *)
Definition mounts (c : Config) : result (list Mount) :=
  rbind (volume_binds c) (fun vb =>
  if negb (Nat.eqb (List.length vb) 0) then
    let driver := mount_driver_config c in
    rbind (volume_binds c) (fun vb' => comprehension (mount_of driver) vb')
  else Ok []).

(** [d[k]] on a dict, [None] standing for the [KeyError]. *)
Fixpoint dict_get {V : Type} (k : string) (d : odict V) : option V :=
  match d with
  | [] => None
  | (k', v) :: rest => if String.eqb k' k then Some v else dict_get k rest
  end.

(** [sorted(l)] on strings: the ordered arrangement of [l], built by
    insertion; strings compare byte by byte, as code points do. *)
Fixpoint insert_sorted (x : string) (l : list string) : list string :=
  match l with
  | [] => [x]
  | y :: rest => if String.leb x y then x :: l else y :: insert_sorted x rest
  end.

Definition py_sorted (l : list string) : list string :=
  fold_right insert_sorted [] l.

(** The property [volume_mount_points]. *)
Definition volume_mount_points (c : Config) : result (list string) :=
  rbind (volume_binds c) (fun vb =>
  Ok (py_sorted (List.map (fun kv => bind kv.2) vb))).

(** ** Engine objects *)

(** What [inspect_service] returns: the keys the source reads are ['ID'] and
    ['Config'], and ['Env'] of the latter ([None] when the dict has no such
    key). *)
Record ServiceConfig : Type := {
  Env : option (list string)
}.

Record Service : Type := {
  ID : string;
  Service_Config : option ServiceConfig     (* service['Config'] *)
}.

(** The lines [service['Config']['Env']] evaluates to, when both keys are
    there. *)
Definition Config_Env (service : Service) : option (list string) :=
  match Service_Config service with
  | Some config => Env config
  | None => None
  end.

Record Task : Type := {
  task_ID : string;
  Status_State : string
}.

(** [ContainerSpec], [Resources], [TaskTemplate] and [EndpointSpec] of
    [docker.types], as the keyword arguments they are built from. *)
Record TaskTemplate : Type := {
  container_spec : gmap string kwval;
  resources : gmap string kwval;
  force_update : Z;
  task_kwargs : gmap string kwval
}.

(** Calls that leave the spawner: the four engine methods reached through
    [self.docker(...)], the inherited [clear_state], and the one log message
    that reports data, "Unused configuration keys". *)
Inductive Call : Type :=
| CallInspectService (name : string)
| CallTasks (service : string)
| CallRemoveService (id : string)
| CallCreateService (task_template : TaskTemplate)
    (endpoint_spec : gmap string kwval) (name : kwval)
| CallClearState
| LogUnusedKeys (remaining_keys : gmap string kwval).

(** The docker engine behind [self.client]: every method answers from the
    engine's own state and may change it. *)
Class Engine (E : Type) : Type := {
  inspect_service : string -> E -> result Service * E;
  tasks : string -> E -> result (list Task) * E;
  remove_service : string -> E -> result unit * E;
  create_service : TaskTemplate -> gmap string kwval -> kwval -> E -> result string * E
}.

(** Python's [str.format] called with keyword arguments only. *)
Class StrFormat : Type :=
  str_format : string -> odict string -> result string.

(** ** Spawner state

    The attributes the methods assign, the engine, and the log of calls. *)
Record State (E : Type) : Type := {
  service_id : string;
  api_token : string;
  _escaped_name : option string;
  engine : E;
  calls : list Call
}.
Arguments service_id {E} _.
Arguments api_token {E} _.
Arguments _escaped_name {E} _.
Arguments engine {E} _.
Arguments calls {E} _.

(** What calling a [gen.coroutine] method evaluates to.  The decorator
    always hands back a future; an exception of the body is stored in it.
    The body's engine call is queued on the single-worker executor ahead of
    any later call, so its effects are sequenced before what follows. *)
Inductive pyobj (A : Type) : Type :=
| PyNone
| PyFuture (outcome : result A).
Arguments PyNone {A}.
Arguments PyFuture {A} outcome.

Definition is_None {A : Type} (o : pyobj A) : bool :=
  match o with
  | PyNone => true
  | PyFuture _ => false
  end.

Section Spawner.
Context {E : Type} {Eng : Engine E} {Fmt : StrFormat}.

Definition set_service_id (v : string) (s : State E) : State E :=
  {| service_id := v; api_token := api_token s; _escaped_name := _escaped_name s;
     engine := engine s; calls := calls s |}.

Definition set_api_token (v : string) (s : State E) : State E :=
  {| service_id := service_id s; api_token := v; _escaped_name := _escaped_name s;
     engine := engine s; calls := calls s |}.

Definition set_escaped_name (v : option string) (s : State E) : State E :=
  {| service_id := service_id s; api_token := api_token s; _escaped_name := v;
     engine := engine s; calls := calls s |}.

Definition set_engine (e : E) (s : State E) : State E :=
  {| service_id := service_id s; api_token := api_token s;
     _escaped_name := _escaped_name s; engine := e; calls := calls s |}.

Definition log_call (c : Call) (s : State E) : State E :=
  {| service_id := service_id s; api_token := api_token s;
     _escaped_name := _escaped_name s; engine := engine s;
     calls := calls s ++ [c] |}.

(** *** The monad of methods: state that survives a raised exception. *)
Definition M (A : Type) : Type := State E -> result A * State E.

Definition ret {A : Type} (a : A) : M A := fun s => (Ok a, s).
Definition raise {A : Type} (e : exn) : M A := fun s => (Raise e, s).
Definition bindM {A B : Type} (m : M A) (k : A -> M B) : M B :=
  fun s => match m s with
           | (Ok a, s') => k a s'
           | (Raise e, s') => (Raise e, s')
           end.
Definition lift {A : Type} (r : result A) : M A := fun s => (r, s).
Definition get {A : Type} (f : State E -> A) : M A := fun s => (Ok (f s), s).
Definition modify (f : State E -> State E) : M unit := fun s => (Ok tt, f s).

(** [try: m except ...: handler], the handler re-raising what it does not
    catch. *)
Definition try_except {A : Type} (m : M A) (handler : exn -> M A) : M A :=
  fun s => match m s with
           | (Ok a, s') => (Ok a, s')
           | (Raise e, s') => handler e s'
           end.

(** [yield self.docker(method, ...)]: the call is logged, the engine
    answers. *)
Definition docker {A : Type} (c : Call) (method : E -> result A * E) : M A :=
  fun s => let '(r, e') := method (engine s) in
           (r, set_engine e' (log_call c s)).

Notation "'let*' x ':=' m 'in' k" := (bindM m (fun x => k))
  (at level 10, x name, m at level 100, k at level 200, only parsing).

(** *** Identity *)

(** The property [escaped_name], with its cache [_escaped_name]. *)
Definition escaped_name (c : Config) : M string :=
  let* cached := get _escaped_name in
  match cached with
  | None =>
      let e := escape (user_name c) _service_safe_chars _service_escape_char in
      let* _ := modify (set_escaped_name (Some e)) in ret e
  | Some e => ret e
  end.

(** The property [service_name]. *)
Definition service_name (c : Config) : M string :=
  let escaped_service_image := replace_char "/" "_" (image c) in
  let server_name := match name c with Some n => n | None => "" end in
  let* username := escaped_name c in
  lift (str_format (service_name_template c)
          [("username", username); ("imagename", escaped_service_image);
           ("servername", server_name); ("prefix", service_prefix c)]).

(** What [service_name] evaluates to in a state. *)
Definition name_in (c : Config) (s : State E) : result string :=
  fst (service_name c s).

(** *** Persisted state *)

(** [load_state(state)]. *)
Definition load_state (state : gmap string string) : M unit :=
  modify (set_service_id (default "" (state !! "service_id"))).

(** [get_state()]. *)
Definition get_state (c : Config) : M (gmap string string) :=
  let state := inherited_state c in
  let* sid := get service_id in
  if negb (String.eqb sid "") then ret (<["service_id" := sid]> state)
  else ret state.

(** *** Arguments *)

(** [_public_hub_api_url()]; unpacking a split that found no separator
    raises [ValueError]. *)
Definition _public_hub_api_url (c : Config) : result string :=
  match split_once "://" (hub_api_url c) with
  | None => Raise ValueError
  | Some (proto, path) =>
      match split_once ":" path with
      | None => Raise ValueError
      | Some (_, rest) => Ok (proto ++ "://" ++ hub_ip_connect c ++ ":" ++ rest)
      end
  end.

(** The loop of [get_args]: drop the first argument that starts with
    [--hub-api-url=]. *)
Fixpoint pop_hub_api_url (args : list string) : list string :=
  match args with
  | [] => []
  | arg :: rest =>
      if startswith arg "--hub-api-url=" then rest
      else arg :: pop_hub_api_url rest
  end.

(** [get_args()]. *)
Definition get_args (c : Config) : result (list string) :=
  let args := inherited_args c in
  if negb (String.eqb (hub_ip_connect c) "") then
    rbind (_public_hub_api_url c) (fun url =>
    Ok (List.app (pop_hub_api_url args) [String.append "--hub-api-url=" url]))
  else Ok args.

(** *** Discovery *)

Definition call_coroutine {A : Type} (m : M A) : M (pyobj A) :=
  fun s => let '(r, s') := m s in (Ok (PyFuture r), s').

(** [get_service()]. *)
Definition get_service (c : Config) : M (option Service) :=
  let* _ := service_name c in                         (* log.debug *)
  try_except
    (let* n := service_name c in
     let* service := docker (CallInspectService n) (inspect_service n) in
     let* _ := modify (set_service_id (ID service)) in
     ret (Some service))
    (fun e =>
       match e with
       | APIError code =>
           if Z.eqb code 404 then
             let* _ := service_name c in              (* log.info *)
             let* _ := modify (set_service_id "") in
             ret None
           else if Z.eqb code 500 then
             let* _ := service_name c in              (* log.info *)
             let* _ := modify (set_service_id "") in
             ret None
           else raise e
       | _ => raise e
       end).

Definition more_than_one_msg (n : string) : string :=
  "Found more than one running notebook task for service '" ++ n ++ "'".

(** The [try] statement of [get_task]: the task query and what is made of
    its answer. *)
Definition list_tasks (c : Config) : M (option Task) :=
  try_except
    (let* n := service_name c in
     let* ts := docker (CallTasks n) (tasks n) in
     match ts with
     | [] => ret None
     | [task] => ret (Some task)
     | _ :: _ :: _ =>
         let* n' := service_name c in
         raise (RuntimeError (more_than_one_msg n'))
     end)
    (fun e =>
       match e with
       | APIError code =>
           if Z.eqb code 404 then
             let* _ := service_name c in              (* log.info *)
             ret None
           else raise e
       | _ => raise e
       end).

(** [get_task()].  [self.get_service()] is called without [yield]. *)
Definition get_task (c : Config) : M (option Task) :=
  let* _ := service_name c in                         (* log.debug *)
  let* fut := call_coroutine (get_service c) in
  if is_None fut then ret None
  else list_tasks c.

(** *** Building the service specification *)

(** [s.split(',')] and [s.strip()] (the literals below hold no other white
    space than blanks). *)
Fixpoint split_comma (s : string) : list string :=
  match s with
  | EmptyString => [""]
  | String c rest =>
      if Ascii.eqb c ","%char then "" :: split_comma rest
      else match split_comma rest with
           | [] => [String c ""]
           | h :: t => String c h :: t
           end
  end.

Fixpoint lstrip (s : string) : string :=
  match s with
  | String c rest => if Ascii.eqb c " "%char then lstrip rest else s
  | EmptyString => ""
  end.

Fixpoint rstrip (s : string) : string :=
  match s with
  | EmptyString => ""
  | String c rest =>
      match rstrip rest with
      | EmptyString => if Ascii.eqb c " "%char then "" else String c ""
      | r => String c r
      end
  end.

Definition strip (s : string) : string := rstrip (lstrip s).

Definition _container_spec_keys : list string :=
  List.map strip (split_comma
    ("image, command, args, hostname, env, workdir, user, labels, mounts, "
     ++ "stop_grace_period, secrets, tty, groups, open_stdin, read_only, stop_signal, "
     ++ "healthcheck, hosts, dns_config, configs, privileges")).

Definition _resource_spec_keys : list string :=
  List.map strip (split_comma "cpu_limit, mem_limit, cpu_reservation, mem_reservation").

Definition _task_spec_keys : list string := ["networks"].

Definition _endpoint_spec_keys : list string := ["ports"].

(** [{k: v for k, v in create_kwargs.items() if k in keys}]. *)
Definition slice (keys : list string) (create_kwargs : gmap string kwval)
  : gmap string kwval :=
  filter (fun kv => kv.1 ∈ keys) create_kwargs.

(** [set(create_kwargs.keys()) - set().union(..., {"name"})]. *)
Definition remaining_keys (create_kwargs : gmap string kwval) : gset string :=
  dom create_kwargs ∖
    (list_to_set _container_spec_keys ∪ list_to_set _resource_spec_keys
     ∪ list_to_set _task_spec_keys ∪ list_to_set _endpoint_spec_keys
     ∪ {["name"]}).

(** [{k: create_kwargs[k] for k in remaining_keys}]. *)
Definition remaining (create_kwargs : gmap string kwval) : gmap string kwval :=
  filter (fun kv => kv.1 ∈ remaining_keys create_kwargs) create_kwargs.

(** Where a key of [create_kwargs] ends up: in the container, resource,
    task and endpoint slices and in [remaining_keys], in this order. *)
Definition placements (create_kwargs : gmap string kwval) (k : string) : list bool :=
  [bool_decide (k ∈ dom (slice _container_spec_keys create_kwargs));
   bool_decide (k ∈ dom (slice _resource_spec_keys create_kwargs));
   bool_decide (k ∈ dom (slice _task_spec_keys create_kwargs));
   bool_decide (k ∈ dom (slice _endpoint_spec_keys create_kwargs));
   bool_decide (k ∈ remaining_keys create_kwargs)].

Definition count_true (l : list bool) : nat :=
  List.length (List.filter (fun b : bool => b) l).

Definition kw_of_option_int (v : option Z) : kwval :=
  match v with
  | Some n => KInt n
  | None => KNone
  end.

(** The [dict(...)] of [start], its keyword values evaluated in order, then
    the optional [command] and the two [update]s. *)
Definition build_create_kwargs (c : Config) (image_arg : option string)
    (extra_arg : option (gmap string kwval)) : M (gmap string kwval) :=
  let image1 := match image_arg with
                | Some i => if String.eqb i "" then image c else i
                | None => image c
                end in
  let cmd1 := if _user_set_cmd c then Some (cmd c) else None in
  let* ms := lift (mounts c) in
  let* n := service_name c in
  let* args := lift (get_args c) in
  let* cl := lift (cpu_nano (cpu_limit c)) in
  let* cr := lift (cpu_nano (cpu_guarantee c)) in
  let create_kwargs : gmap string kwval :=
    <["networks" := KStrList (if String.eqb (network_name c) "" then []
                              else [network_name c])]>
    (<["cpu_reservation" := kw_of_option_int cr]>
    (<["cpu_limit" := kw_of_option_int cl]>
    (<["mem_reservation" := kw_of_option_int (mem_guarantee c)]>
    (<["mem_limit" := kw_of_option_int (mem_limit c)]>
    (<["args" := KStrList args]>
    (<["name" := KStr n]>
    (<["mounts" := KMounts ms]>
    (<["env" := KEnv (inherited_env c)]>
    (<["image" := KStr image1]> ∅))))))))) in
  let create_kwargs :=
    match cmd1 with
    | Some (x :: l) => <["command" := KStrList (x :: l)]> create_kwargs
    | _ => create_kwargs
    end in
  let create_kwargs := extra_create_kwargs c ∪ create_kwargs in
  let create_kwargs :=
    match extra_arg with
    | Some extra => if decide (extra = ∅) then create_kwargs else extra ∪ create_kwargs
    | None => create_kwargs
    end in
  ret create_kwargs.

(** The loop of the reuse branch of [start]: the first line that starts
    with one of the two prefixes sets [api_token] and ends the loop. *)
Fixpoint reuse_api_token (env : list string) : M unit :=
  match env with
  | [] => ret tt
  | line :: rest =>
      if startswith line "JPY_API_TOKEN=" || startswith line "JUPYTERHUB_API_TOKEN="
      then match split_once "=" line with
           | Some (_, v) => modify (set_api_token v)
           | None => raise IndexError
           end
      else reuse_api_token rest
  end.

(** The first environment line that carries a token, as the specification
    words it. *)
Definition has_token_prefix (line : string) : bool :=
  startswith line "JPY_API_TOKEN=" || startswith line "JUPYTERHUB_API_TOKEN=".

Definition token_line (env : list string) : option string :=
  List.find has_token_prefix env.

(** [get_ip_and_port()]. *)
Definition get_ip_and_port (c : Config) : M (string * Z) :=
  let* ip := service_name c in
  ret (ip, port c).

(** The create branch of [start], from the partition of [create_kwargs] to
    the assignment of [service_id]. *)
Definition create_branch (c : Config) (image_arg : option string)
    (extra_arg : option (gmap string kwval)) : M unit :=
  let* create_kwargs := build_create_kwargs c image_arg extra_arg in
  let container_spec1 := slice _container_spec_keys create_kwargs in
  let resource_spec := slice _resource_spec_keys create_kwargs in
  let task_spec :=
    {| container_spec := container_spec1;
       resources := resource_spec;
       force_update := 1;
       task_kwargs := slice _task_spec_keys create_kwargs |} in
  let endpoint_spec := slice _endpoint_spec_keys create_kwargs in
  let* _ := if decide (remaining_keys create_kwargs = ∅) then ret tt
            else modify (log_call (LogUnusedKeys (remaining create_kwargs))) in
  let* n := match create_kwargs !! "name" with
            | Some n => ret n
            | None => raise (KeyError "name")
            end in
  let* resp := docker (CallCreateService task_spec endpoint_spec n)
                 (create_service task_spec endpoint_spec n) in
  let* _ := modify (set_service_id resp) in
  let* _ := service_name c in                         (* log.info *)
  ret tt.

(** [start(image, extra_create_kwargs)].  [extra_start_kwargs] only feeds a
    dict that is never used, and the assignment to [self.user.server] for
    JupyterHub before 0.7 touches no attribute kept here. *)
Definition start (c : Config) (image_arg : option string)
    (extra_arg : option (gmap string kwval)) : M (string * Z) :=
  let* service := get_service c in
  let* service :=
    match service with
    | Some svc =>
        if remove_services c then
          let* _ := service_name c in                 (* log.warning *)
          let* sid := get service_id in
          let* _ := docker (CallRemoveService sid) (remove_service sid) in
          ret None
        else ret (Some svc)
    | None => ret None
    end in
  let* _ :=
    match service with
    | None => create_branch c image_arg extra_arg
    | Some svc =>
        let* _ := service_name c in                   (* log.info *)
        match Service_Config svc with
        | Some config =>
            match Env config with
            | Some env => reuse_api_token env
            | None => raise (KeyError "Env")
            end
        | None => raise (KeyError "Config")
        end
    end in
  let* _ := service_name c in                         (* log.info *)
  let* ip_port := get_ip_and_port c in
  ret ip_port.

(** The inherited [clear_state()], which [SwarmSpawner] does not override:
    JupyterHub's [Spawner.clear_state] assigns [self.api_token = '']; the
    call is recorded as well. *)
Definition clear_state : M unit :=
  let* _ := modify (log_call CallClearState) in
  modify (set_api_token "").

(** [stop(now)]. *)
Definition stop (c : Config) : M unit :=
  let* _ := service_name c in                         (* log.info *)
  let* sid := get service_id in
  let* _ := docker (CallRemoveService sid) (remove_service sid) in
  clear_state.

End Spawner.

(** ** Polling *)

(** What [poll] returns: [None] for a running task, [0] when there is no
    task, otherwise the task's items, each value printed by [pformat]. *)
Inductive poll_status : Type :=
| PollNone
| PollInt (n : Z)
| PollItems (items : odict string).

Section Polling.
Context {E : Type} {Eng : Engine E} {Fmt : StrFormat}.

(** [{k: pformat(v) for k, v in task.items()}], the printer being
    [pprint.pformat]. *)
Variable pformat_items : Task -> odict string.

Notation "'let*' x ':=' m 'in' k" := (bindM m (fun x => k))
  (at level 10, x name, m at level 100, k at level 200, only parsing).

(** [poll()]. *)
Definition poll (c : Config) : M poll_status :=
  let* service := get_task c in
  match service with
  | None => ret (PollInt 0)
  | Some task =>
      if String.eqb (Status_State task) "running" then ret PollNone
      else ret (PollItems (pformat_items task))
  end.

End Polling.

(** ** Vocabulary of the statements *)

(** [all(p(ch) for ch in s)]. *)
Fixpoint all_chars (p : ascii -> bool) (s : string) : bool :=
  match s with
  | EmptyString => true
  | String ch rest => p ch && all_chars p rest
  end.

Definition is_safe (ch : ascii) : bool := ascii_in ch _service_safe_chars.

(** The byte two hexadecimal digits stand for. *)
Definition hex_value (ch : ascii) : option N :=
  let n := N_of_ascii ch in
  if ((48 <=? n) && (n <=? 57))%N then Some (n - 48)%N
  else if ((65 <=? n) && (n <=? 70))%N then Some (n - 55)%N
  else None.

Definition byte_of_hex (h l : ascii) : option ascii :=
  match hex_value h, hex_value l with
  | Some a, Some b => Some (ascii_of_N (16 * a + b))
  | _, _ => None
  end.

(** A user name none of whose bytes is below 0x10. *)
Definition no_low_bytes (u : string) : bool :=
  all_chars (fun ch => (16 <=? N_of_ascii ch)%N) u.

(** The shape of an escape sequence: the escape character, then one
    hexadecimal digit for a byte below 0x10, or two digits that give the byte
    back. *)
Definition escape_char_shape (ch : ascii) : bool :=
  match _escape_char ch _service_escape_char with
  | String e (String h EmptyString) =>
      Ascii.eqb e "_" && is_safe h && (N_of_ascii ch <? 16)%N
  | String e (String h (String l EmptyString)) =>
      Ascii.eqb e "_" && is_safe h && is_safe l
      && match byte_of_hex h l with
         | Some ch' => Ascii.eqb ch' ch
         | None => false
         end
  | _ => false
  end.

(** The order in which a dict comes to hold keys assigned one after the
    other: a key keeps the place of its first assignment. *)
Definition add_key (acc : list string) (k : string) : list string :=
  if bool_decide (k ∈ acc) then acc else (acc ++ [k])%list.

Definition insertion_order (ks : list string) : list string :=
  fold_left add_key ks [].

Fixpoint is_sorted (l : list string) : bool :=
  match l with
  | a :: (b :: _) as rest => String.leb a b && is_sorted rest
  | _ => true
  end.

(** The container path and the mode an entry of [volumes] asks for, the
    latter given the default mode of its map. *)
Definition entry_path (v : volval) : option string :=
  match v with
  | VStr p => Some p
  | VDict p _ => p
  end.

Definition entry_mode (v : volval) (default_mode : string) : string :=
  match v with
  | VDict _ (Some m) => m
  | _ => default_mode
  end.

Section Keeps.
Context {E : Type}.

(** A computation keeps an observation [f] of the state when [f] is the
    same before and after it, whether it returns or raises. *)
Definition keeps {A B : Type} (f : State E -> B)
    (m : State E -> result A * State E) : Prop :=
  forall s, f (snd (m s)) = f s.

End Keeps.

(** The keyword arguments [start] builds when no extra keyword is
    configured or passed and [image] is left to the configuration; [n] is the
    service name, [ms] the mounts, [args] the arguments, [cl] and [cr] the
    CPU values in nano-units. *)
Definition default_create_kwargs (c : Config) (n : string) (ms : list Mount)
    (args : list string) (cl cr : option Z) : gmap string kwval :=
  let base : gmap string kwval :=
    <["networks" := KStrList (if String.eqb (network_name c) "" then []
                              else [network_name c])]>
    (<["cpu_reservation" := kw_of_option_int cr]>
    (<["cpu_limit" := kw_of_option_int cl]>
    (<["mem_reservation" := kw_of_option_int (mem_guarantee c)]>
    (<["mem_limit" := kw_of_option_int (mem_limit c)]>
    (<["args" := KStrList args]>
    (<["name" := KStr n]>
    (<["mounts" := KMounts ms]>
    (<["env" := KEnv (inherited_env c)]>
    (<["image" := KStr (image c)]> ∅))))))))) in
  if _user_set_cmd c then
    match cmd c with
    | [] => base
    | x :: l => <["command" := KStrList (x :: l)]> base
    end
  else base.

(** The task template [start] hands to [create_service] for such keyword
    arguments. *)
Definition task_template_of (create_kwargs : gmap string kwval) : TaskTemplate :=
  {| container_spec := slice _container_spec_keys create_kwargs;
     resources := slice _resource_spec_keys create_kwargs;
     force_update := 1;
     task_kwargs := slice _task_spec_keys create_kwargs |}.

(** ** Concrete collaborators

    Instances on which the methods can be run: a formatter for templates
    made of text and [{field}] placeholders, an engine that answers every
    call from a fixed script, and the default configuration. *)

Fixpoint lookup_kw (k : string) (kw : odict string) : option string :=
  match kw with
  | [] => None
  | (k', v) :: rest => if String.eqb k' k then Some v else lookup_kw k rest
  end.

Fixpoint placeholder_format (template : string) (field : option string)
    (kw : odict string) : result string :=
  match template with
  | EmptyString =>
      match field with
      | None => Ok ""
      | Some _ => Raise ValueError
      end
  | String ch rest =>
      match field with
      | None =>
          if Ascii.eqb ch "{"%char then placeholder_format rest (Some "") kw
          else if Ascii.eqb ch "}"%char then Raise ValueError
          else rbind (placeholder_format rest None kw) (fun o => Ok (String ch o))
      | Some f =>
          if Ascii.eqb ch "}"%char then
            match lookup_kw f kw with
            | Some v => rbind (placeholder_format rest None kw) (fun o => Ok (v ++ o))
            | None => Raise (KeyError f)
            end
          else placeholder_format rest (Some (f ++ String ch "")) kw
      end
  end.

Definition placeholder_StrFormat : StrFormat :=
  fun template kw => placeholder_format template None kw.

Record Script : Type := {
  on_inspect_service : result Service;
  on_tasks : result (list Task);
  on_remove_service : result unit;
  on_create_service : result string
}.

Definition scripted_Engine : Engine Script :=
  {| inspect_service := fun _ e => (on_inspect_service e, e);
     tasks := fun _ e => (on_tasks e, e);
     remove_service := fun _ e => (on_remove_service e, e);
     create_service := fun _ _ _ e => (on_create_service e, e) |}.

(** [default_format_volume_name]: [template.format(username=...)]. *)
Definition default_format_volume_name (username : string) (template : string)
  : result string :=
  placeholder_format template None [("username", username)].

Definition default_config (username : string) : Config :=
  {| user_name := username;
     image := "jupyterhub/singleuser:1.0";
     name := None;
     service_prefix := "jupyter";
     service_name_template := "{prefix}-{username}";
     remove_services := false;
     _user_set_cmd := false;
     cmd := [];
     mem_limit := None;
     mem_guarantee := None;
     cpu_limit := None;
     cpu_guarantee := None;
     network_name := "bridge";
     port := 8888;
     volumes := [];
     read_only_volumes := [];
     format_volume_name := default_format_volume_name username;
     volume_driver := "";
     volume_driver_options := [];
     extra_create_kwargs := ∅;
     hub_ip_connect := "";
     hub_api_url := "http://127.0.0.1:8081/hub/api";
     inherited_env := [];
     inherited_args := [];
     inherited_state := ∅ |}.

Definition with_volumes (vols ro_vols : odict volval) (c : Config) : Config :=
  {| user_name := user_name c; image := image c; name := name c;
     service_prefix := service_prefix c;
     service_name_template := service_name_template c;
     remove_services := remove_services c; _user_set_cmd := _user_set_cmd c;
     cmd := cmd c; mem_limit := mem_limit c; mem_guarantee := mem_guarantee c;
     cpu_limit := cpu_limit c; cpu_guarantee := cpu_guarantee c;
     network_name := network_name c; port := port c;
     volumes := vols; read_only_volumes := ro_vols;
     format_volume_name := format_volume_name c;
     volume_driver := volume_driver c;
     volume_driver_options := volume_driver_options c;
     extra_create_kwargs := extra_create_kwargs c;
     hub_ip_connect := hub_ip_connect c; hub_api_url := hub_api_url c;
     inherited_env := inherited_env c; inherited_args := inherited_args c;
     inherited_state := inherited_state c |}.

Definition initial_state (sid : string) (e : Script) : State Script :=
  {| service_id := sid; api_token := "hub-token"; _escaped_name := None;
     engine := e; calls := [] |}.

Definition a_service (env : list string) : Service :=
  {| ID := "svc0123456789"; Service_Config := Some {| Env := Some env |} |}.

Definition a_task (tid : string) : Task :=
  {| task_ID := tid; Status_State := "running" |}.

Definition token_env : list string :=
  ["PATH=/usr/bin"; "JUPYTERHUB_API_TOKEN=abc123"; "JPY_API_TOKEN=old"].

(** An engine that knows the service and its one task. *)
Definition script_running : Script :=
  {| on_inspect_service := Ok (a_service token_env);
     on_tasks := Ok [a_task "t1"];
     on_remove_service := Ok tt;
     on_create_service := Ok "svc-new" |}.

(** An engine on which the service is gone: inspect and remove answer 404,
    while the task query still lists one task. *)
Definition script_gone : Script :=
  {| on_inspect_service := Raise (APIError 404);
     on_tasks := Ok [a_task "t1"];
     on_remove_service := Raise (APIError 404);
     on_create_service := Ok "svc-new" |}.

(** An engine that lists two running tasks, and one that refuses the
    inspect call with status 403. *)
Definition script_two_tasks : Script :=
  {| on_inspect_service := Ok (a_service token_env);
     on_tasks := Ok [a_task "t1"; a_task "t2"];
     on_remove_service := Ok tt;
     on_create_service := Ok "svc-new" |}.

Definition script_forbidden : Script :=
  {| on_inspect_service := Raise (APIError 403);
     on_tasks := Ok [];
     on_remove_service := Ok tt;
     on_create_service := Ok "svc-new" |}.

Definition alice : Config := default_config "alice".

(** [volumes = {'/a': '/z', '/b': '/y'}]. *)
Definition alice_two_volumes : Config :=
  with_volumes [("/a", VStr "/z"); ("/b", VStr "/y")] [] alice.

(** Two user names: form feed, ['2'], line feed, ['0']; and U+00A0, whose
    UTF-8 bytes are C2 A0. *)
Definition username_control : string :=
  String (ascii_of_N 12) (String "2" (String (ascii_of_N 10) (String "0" ""))).
Definition username_nbsp : string :=
  String (ascii_of_N 194) (String (ascii_of_N 160) "").

(** 0.5 as a binary64 value. *)
Definition float_half : float := S754_finite false 4503599627370496 (-53).

Definition only_name : gmap string kwval := {["name" := KStr "jupyter-alice"]}.
Definition name_and_ulimits : gmap string kwval :=
  <["ulimits" := KOther "[]"]> (<["image" := KStr "img:1"]> only_name).
(** More configurations and engines to run the methods on. *)
Definition custom_config (username template hub_ip : string) (rm user_cmd : bool)
    (command args : list string) (vols ro_vols : odict volval)
    (naming : string -> result string) (extra : gmap string kwval) : Config :=
  {| user_name := username;
     image := "jupyterhub/singleuser:1.0";
     name := None;
     service_prefix := "jupyter";
     service_name_template := template;
     remove_services := rm;
     _user_set_cmd := user_cmd;
     cmd := command;
     mem_limit := Some 1073741824;
     mem_guarantee := None;
     cpu_limit := Some float_half;
     cpu_guarantee := None;
     network_name := "net1";
     port := 8888;
     volumes := vols;
     read_only_volumes := ro_vols;
     format_volume_name := naming;
     volume_driver := "";
     volume_driver_options := [];
     extra_create_kwargs := extra;
     hub_ip_connect := hub_ip;
     hub_api_url := "http://127.0.0.1:8081/hub/api";
     inherited_env := [("JUPYTERHUB_API_TOKEN", "hub-token")];
     inherited_args := args;
     inherited_state := {["pid" := "0"]} |}.

Definition plain_naming (t : string) : result string := Ok t.

(** [/data] is in both maps; [/work] asks for mode [z]. *)
Definition bob_layered : Config :=
  custom_config "bob" "{prefix}-{username}" "" false false [] []
    [("/data", VStr "/d"); ("/work", VDict (Some "/w") (Some "z"))]
    [("/data", VStr "/ro")] plain_naming ∅.

Definition bob_no_bind : Config :=
  custom_config "bob" "{prefix}-{username}" "" false false [] []
    [("/data", VStr "/d"); ("/x", VDict None (Some "rw"))] [] plain_naming ∅.

Definition bob_hub : Config :=
  custom_config "bob" "{prefix}-{username}" "hub.internal" false false []
    ["--port=8888"; "--hub-api-url=http://127.0.0.1:8081/hub/api"; "--debug"]
    [] [] plain_naming ∅.

Definition bob_bad_template : Config :=
  custom_config "bob" "{prefix}-{user}" "" false false [] [] [] [] plain_naming ∅.

Definition bob : Config :=
  custom_config "bob" "{prefix}-{username}" "" false false [] ["--port=8888"]
    [("/data", VStr "/d")] [] plain_naming ∅.

Definition bob_no_volumes : Config :=
  custom_config "bob" "{prefix}-{username}" "" false false [] ["--port=8888"]
    [] [] plain_naming ∅.

Definition bob_removing : Config :=
  custom_config "bob" "{prefix}-{username}" "" true false [] ["--port=8888"]
    [] [] plain_naming ∅.

Definition bob_extra : Config :=
  custom_config "bob" "{prefix}-{username}" "" false true ["start.sh"] []
    [] [] plain_naming {["image" := KStr "other:2"]}.

Definition script_tasks_gone : Script :=
  {| on_inspect_service := Ok (a_service token_env);
     on_tasks := Raise (APIError 404);
     on_remove_service := Ok tt;
     on_create_service := Ok "svc-new" |}.

Definition script_stopped_task : Script :=
  {| on_inspect_service := Ok (a_service token_env);
     on_tasks := Ok [{| task_ID := "t1"; Status_State := "shutdown" |}];
     on_remove_service := Ok tt;
     on_create_service := Ok "svc-new" |}.

(** A service whose ['Config'] has no ['Env'], and one with no ['Config']. *)
Definition service_no_env : Service :=
  {| ID := "svc0123456789"; Service_Config := Some {| Env := None |} |}.

Definition service_no_config : Service :=
  {| ID := "svc0123456789"; Service_Config := None |}.

Definition script_no_env : Script :=
  {| on_inspect_service := Ok service_no_env;
     on_tasks := Ok [];
     on_remove_service := Raise (APIError 500);
     on_create_service := Ok "svc-new" |}.

Definition script_no_config : Script :=
  {| on_inspect_service := Ok service_no_config;
     on_tasks := Ok [];
     on_remove_service := Raise (APIError 500);
     on_create_service := Ok "svc-new" |}.

Definition script_create_fails : Script :=
  {| on_inspect_service := Raise (APIError 404);
     on_tasks := Ok [];
     on_remove_service := Ok tt;
     on_create_service := Raise (APIError 409) |}.

Definition print_state (t : Task) : odict string :=
  [("ID", task_ID t); ("Status", Status_State t)].

Example float_1e9_canonical :
  binary_normalize prec64 emax64 1000000000 0 false = float_1e9.
Proof. vm_compute. reflexivity. Qed.

(* 0.5 * 1e9 *)
Example cpu_nano_half :
  cpu_nano (Some (S754_finite false 4503599627370496 (-53))) = Ok (Some 500000000).
Proof. vm_compute. reflexivity. Qed.

(* 0.1 (nearest double) * 1e9 *)
Example cpu_nano_tenth :
  cpu_nano (Some (S754_finite false 7205759403792794 (-56))) = Ok (Some 100000000).
Proof. vm_compute. reflexivity. Qed.

(* 15 * 2^-10 * 1e9 = 14648437.5, truncated *)
Example cpu_nano_truncates :
  cpu_nano (Some (binary_normalize prec64 emax64 15 (-10) false)) = Ok (Some 14648437).
Proof. vm_compute. reflexivity. Qed.

Example cpu_nano_truncates_neg :
  cpu_nano (Some (binary_normalize prec64 emax64 (-15) (-10) false)) = Ok (Some (-14648437)).
Proof. vm_compute. reflexivity. Qed.

Example escape_dot : escape "a.b" _service_safe_chars _service_escape_char = "a_2Eb".
Proof. reflexivity. Qed.

Example escape_at :
  escape "Jo@x-1" _service_safe_chars _service_escape_char = "Jo_40x-1".
Proof. reflexivity. Qed.

Example split_once_token :
  split_once "=" "JUPYTERHUB_API_TOKEN=abc=123" = Some ("JUPYTERHUB_API_TOKEN", "abc=123").
Proof. reflexivity. Qed.

Example split_once_url :
  split_once "://" "http://10.0.0.1:8081/hub/api" = Some ("http", "10.0.0.1:8081/hub/api").
Proof. reflexivity. Qed.

Example service_name_default :
  fst (service_name (Fmt := placeholder_StrFormat) (default_config "a.b")
         (initial_state "" {| on_inspect_service := Raise (APIError 404);
                              on_tasks := Ok []; on_remove_service := Ok tt;
                              on_create_service := Ok "id1" |}))
  = Ok "jupyter-a_2Eb".
Proof. vm_compute. reflexivity. Qed.

(** ** Discovery: [get_service] and [get_task] *)

Ltac start_from s :=
  destruct s as [sid tok cache eng log]; destruct cache as [cached|];
  unfold name_in in *; cbn in *.

Ltac step :=
  match goal with
  | H : ?x = _ |- context [?x] => rewrite H; cbn
  | |- context [Z.eqb ?a ?b] => destruct (Z.eqb_spec a b); try lia; cbn
  | |- context [match ?x with _ => _ end] =>
      match type of x with
      | result _ => let Hx := fresh "Hx" in destruct x eqn:Hx; cbn in *; try discriminate
      end
  end.

Ltac unfold_methods :=
  unfold list_tasks, get_service, try_except, bindM, service_name,
    escaped_name, bindM, get, modify, lift, ret, raise, docker; cbn.

Section Discovery.
Context {E : Type} {Eng : Engine E} {Fmt : StrFormat}.

Lemma get_service_found (c : Config) (s : State E) (n : string) (svc : Service) (e' : E) :
  name_in c s = Ok n ->
  inspect_service n (engine s) = (Ok svc, e') ->
  exists s', get_service c s = (Ok (Some svc), s')
             /\ service_id s' = ID svc /\ engine s' = e'
             /\ calls s' = (calls s ++ [CallInspectService n])%list
             /\ api_token s' = api_token s
             /\ name_in c s' = Ok n.
Proof.
  intros Hn Hi. start_from s.
  all: unfold_methods; repeat step.
  all: eexists; split; [reflexivity|]; cbn; repeat split; try reflexivity.
  all: unfold_methods; rewrite Hn; reflexivity.
Qed.

Lemma get_service_gone (c : Config) (s : State E) (n : string) (code : Z) (e' : E) :
  name_in c s = Ok n ->
  inspect_service n (engine s) = (Raise (APIError code), e') ->
  code = 404 \/ code = 500 ->
  exists s', get_service c s = (Ok None, s')
             /\ service_id s' = "" /\ engine s' = e'
             /\ calls s' = (calls s ++ [CallInspectService n])%list
             /\ api_token s' = api_token s
             /\ name_in c s' = Ok n.
Proof.
  intros Hn Hi Hcode. start_from s.
  all: unfold_methods; repeat step.
  all: destruct Hcode; subst; cbn; repeat step.
  all: eexists; split; [reflexivity|]; cbn; repeat split; try reflexivity.
  all: unfold_methods; rewrite Hn; reflexivity.
Qed.

Lemma get_service_raises (c : Config) (s : State E) (n : string) (e : exn) (e' : E) :
  name_in c s = Ok n ->
  inspect_service n (engine s) = (Raise e, e') ->
  e <> APIError 404 -> e <> APIError 500 ->
  exists s', get_service c s = (Raise e, s')
             /\ service_id s' = service_id s /\ engine s' = e'
             /\ calls s' = (calls s ++ [CallInspectService n])%list
             /\ api_token s' = api_token s
             /\ name_in c s' = Ok n.
Proof.
  intros Hn Hi H404 H500. start_from s.
  all: unfold_methods; repeat step.
  all: destruct e as [code| | | | | | |]; cbn.
  all: try (destruct (Z.eqb_spec code 404); [congruence|];
            destruct (Z.eqb_spec code 500); [congruence|]; cbn).
  all: eexists; split; [reflexivity|]; cbn; repeat split; try reflexivity.
  all: unfold_methods; rewrite Hn; reflexivity.
Qed.

(** Whatever the engine answers, [get_service] issues exactly the inspect
    call and leaves the name and the token as they are. *)
Lemma get_service_frame (c : Config) (s : State E) (n : string) :
  name_in c s = Ok n ->
  exists r s', get_service c s = (r, s')
               /\ engine s' = snd (inspect_service n (engine s))
               /\ calls s' = (calls s ++ [CallInspectService n])%list
               /\ api_token s' = api_token s
               /\ name_in c s' = Ok n.
Proof.
  intros Hn.
  destruct (inspect_service n (engine s)) as [[svc|e] e'] eqn:Hi.
  - destruct (get_service_found c s n svc e' Hn Hi) as (s' & -> & _ & He & Hc & Ht & Hn').
    exists (Ok (Some svc)), s'. cbn. auto.
  - destruct (decide (e = APIError 404 \/ e = APIError 500)) as [Hcode|Hcode].
    + assert (exists code, e = APIError code /\ (code = 404 \/ code = 500)) as (code & -> & Hc')
        by (destruct Hcode as [->| ->]; eexists; split; eauto).
      destruct (get_service_gone c s n code e' Hn Hi Hc') as (s' & -> & _ & He & Hc & Ht & Hn').
      exists (Ok None), s'. cbn. auto.
    + assert (e <> APIError 404) as H404 by tauto.
      assert (e <> APIError 500) as H500 by tauto.
      destruct (get_service_raises c s n e e' Hn Hi H404 H500)
        as (s' & -> & _ & He & Hc & Ht & Hn').
      exists (Raise e), s'. cbn. auto.
Qed.

Lemma service_name_run (c : Config) (s : State E) (n : string) :
  name_in c s = Ok n ->
  exists s0, service_name c s = (Ok n, s0)
             /\ service_id s0 = service_id s /\ engine s0 = engine s
             /\ calls s0 = calls s /\ api_token s0 = api_token s
             /\ name_in c s0 = Ok n.
Proof.
  intros Hn. start_from s.
  all: unfold_methods; rewrite Hn.
  all: eexists; split; [reflexivity|]; cbn; repeat split; try reflexivity.
  all: unfold_methods; rewrite Hn; reflexivity.
Qed.

(** [get_task] always goes on to the task query: the state it starts the
    query from is the one the detached [get_service] leaves. *)
Lemma get_task_run (c : Config) (s : State E) (n : string) :
  name_in c s = Ok n ->
  exists s1, get_task c s = list_tasks c s1
             /\ engine s1 = snd (inspect_service n (engine s))
             /\ calls s1 = (calls s ++ [CallInspectService n])%list
             /\ api_token s1 = api_token s
             /\ name_in c s1 = Ok n.
Proof.
  intros Hn.
  destruct (service_name_run c s n Hn) as (s0 & Hs0 & _ & He0 & Hc0 & Ht0 & Hn0).
  destruct (get_service_frame c s0 n Hn0) as (r & s1 & Hg & He1 & Hc1 & Ht1 & Hn1).
  exists s1. unfold get_task, bindM, call_coroutine. rewrite Hs0, Hg. cbn.
  rewrite He1, Hc1, Ht1, He0, Hc0, Ht0. auto.
Qed.

Lemma list_tasks_answer (c : Config) (s : State E) (n : string)
    (ts : list Task) (e' : E) :
  name_in c s = Ok n ->
  tasks n (engine s) = (Ok ts, e') ->
  exists s', calls s' = (calls s ++ [CallTasks n])%list /\
    list_tasks c s =
      (match ts with
       | [] => Ok None
       | [task] => Ok (Some task)
       | _ :: _ :: _ => Raise (RuntimeError (more_than_one_msg n))
       end, s').
Proof.
  intros Hn Ht. start_from s.
  all: unfold_methods; rewrite Hn; cbn; rewrite Ht; cbn.
  all: destruct ts as [|t [|t' ts]]; cbn; try rewrite Hn; cbn.
  all: eexists; split; [|reflexivity]; reflexivity.
Qed.

Lemma list_tasks_calls (c : Config) (s : State E) (n : string) :
  name_in c s = Ok n ->
  exists r s', list_tasks c s = (r, s')
               /\ calls s' = (calls s ++ [CallTasks n])%list.
Proof.
  intros Hn.
  destruct (tasks n (engine s)) as [[ts|e] e'] eqn:Ht.
  - destruct (list_tasks_answer c s n ts e' Hn Ht) as (s' & Hc & ->). eauto.
  - start_from s.
    all: unfold_methods; rewrite Hn; cbn; rewrite Ht; cbn.
    all: destruct e as [code| | | | | | |]; cbn;
      try destruct (Z.eqb_spec code 404); cbn; try rewrite Hn; cbn.
    all: do 2 eexists; split; reflexivity.
Qed.

(** C7: when the inspect call fails with status 404 or 500, [get_service]
    returns no service and leaves [service_id] empty; any other failure is
    raised to the caller as the engine raised it. *)
Theorem get_service_on_engine_failure (c : Config) (s : State E) (n : string)
    (e : exn) (e' : E) :
  name_in c s = Ok n ->
  inspect_service n (engine s) = (Raise e, e') ->
  (e = APIError 404 \/ e = APIError 500 ->
     exists s', get_service c s = (Ok None, s') /\ service_id s' = "")
  /\ (e <> APIError 404 -> e <> APIError 500 ->
     exists s', get_service c s = (Raise e, s')).
Proof.
  intros Hn Hi. split.
  - intros Hcode.
    assert (exists code, e = APIError code /\ (code = 404 \/ code = 500)) as (code & -> & Hc)
      by (destruct Hcode as [->| ->]; eexists; split; eauto).
    destruct (get_service_gone c s n code e' Hn Hi Hc) as (s' & Hg & Hid & _).
    eauto.
  - intros H404 H500.
    destruct (get_service_raises c s n e e' Hn Hi H404 H500) as (s' & Hg & _).
    eauto.
Qed.

(** C6: with more than one running task [get_task] raises a [RuntimeError],
    which no [APIError] equals, and returns no task; with exactly one task it
    returns that task; with none it returns [None]. *)
Theorem get_task_by_number_of_tasks (c : Config) (s : State E) (n : string)
    (ts : list Task) (e2 : E) :
  name_in c s = Ok n ->
  tasks n (snd (inspect_service n (engine s))) = (Ok ts, e2) ->
  ((1 < List.length ts)%nat ->
     fst (get_task c s) = Raise (RuntimeError (more_than_one_msg n))
     /\ forall code, RuntimeError (more_than_one_msg n) <> APIError code)
  /\ (forall task, ts = [task] -> fst (get_task c s) = Ok (Some task))
  /\ (ts = [] -> fst (get_task c s) = Ok None).
Proof.
  intros Hn Ht.
  destruct (get_task_run c s n Hn) as (s1 & -> & He1 & _ & _ & Hn1).
  rewrite <- He1 in Ht.
  destruct (list_tasks_answer c s1 n ts e2 Hn1 Ht) as (s' & _ & ->).
  repeat split.
  - destruct ts as [|t [|t' ts]]; cbn in *; [lia | lia | reflexivity].
  - discriminate.
  - intros task ->. reflexivity.
  - intros ->. reflexivity.
Qed.

(** C8: the call [self.get_service()] that [get_task] does not yield
    evaluates to a future, never to [None], so the early return is not taken:
    in every state where the service name resolves, [get_task] issues the
    inspect call and then the task query, whatever the inspect call
    answers. *)
Theorem get_task_always_lists_tasks (c : Config) (s : State E) :
  (exists fut s1, call_coroutine (get_service c) s = (Ok fut, s1)
                  /\ is_None fut = false)
  /\ (forall n, name_in c s = Ok n ->
        exists r s', get_task c s = (r, s')
          /\ calls s' = (calls s ++ [CallInspectService n; CallTasks n])%list).
Proof.
  split.
  - unfold call_coroutine. destruct (get_service c s) as [r s1].
    exists (PyFuture r), s1. split; reflexivity.
  - intros n Hn.
    destruct (get_task_run c s n Hn) as (s1 & -> & _ & Hc1 & _ & Hn1).
    destruct (list_tasks_calls c s1 n Hn1) as (r & s' & -> & Hc).
    exists r, s'. split; [reflexivity|].
    rewrite Hc, Hc1, <- app_assoc. reflexivity.
Qed.

End Discovery.

(** ** Lifecycle: [start] on an existing service, and [stop] *)

Section Lifecycle.
Context {E : Type} {Eng : Engine E} {Fmt : StrFormat}.

Lemma name_in_ext (c : Config) (s s' : State E) :
  _escaped_name s' = _escaped_name s -> name_in c s' = name_in c s.
Proof.
  intros Hc. unfold name_in. unfold_methods. rewrite Hc.
  destruct (_escaped_name s); reflexivity.
Qed.

Lemma substring_all (v : string) : String.substring 0 (String.length v) v = v.
Proof. induction v as [|ch v IH]; cbn; [reflexivity | now rewrite IH]. Qed.

Lemma prefix_split (p line : string) :
  String.prefix p line = true -> exists v, line = p ++ v.
Proof.
  revert line. induction p as [|a p IH]; intros line Hp.
  - exists line. reflexivity.
  - destruct line as [|b line]; cbn in Hp; [discriminate|].
    destruct (ascii_dec a b) as [->|]; [|discriminate].
    destruct (IH line Hp) as (v & ->). exists v. reflexivity.
Qed.

Lemma prefix_empty (v : string) : String.prefix "" v = true.
Proof. destruct v; reflexivity. Qed.

Lemma split_once_cons (sep : string) (ch : ascii) (rest : string) :
  split_once sep (String ch rest) =
  if String.prefix sep (String ch rest) then
    Some ("", String.substring (String.length sep)
                (String.length (String ch rest) - String.length sep) (String ch rest))
  else match split_once sep rest with
       | Some (h, t) => Some (String ch h, t)
       | None => None
       end.
Proof. reflexivity. Qed.

Lemma prefix_cons (a b : ascii) (p l : string) :
  String.prefix (String a p) (String b l) =
  if ascii_dec a b then String.prefix p l else false.
Proof. reflexivity. Qed.

Lemma split_once_eq (k v : string) :
  ascii_in "=" k = false -> split_once "=" (k ++ String "=" v) = Some (k, v).
Proof.
  induction k as [|ch k IH]; intros Hk.
  - change ("" ++ String "="%char v) with (String "="%char v).
    rewrite split_once_cons, prefix_cons.
    destruct (ascii_dec "=" "=") as [_|Hne]; [|congruence].
    rewrite prefix_empty.
    change (String.length (String "=" v) - String.length "=")%nat
      with (String.length v - 0)%nat.
    rewrite Nat.sub_0_r.
    change (String.substring (String.length "=") (String.length v) (String "=" v))
      with (String.substring 0 (String.length v) v).
    rewrite substring_all. reflexivity.
  - change (String ch k ++ String "="%char v) with (String ch (k ++ String "="%char v)).
    change (ascii_in "=" (String ch k)) with (Ascii.eqb "=" ch || ascii_in "=" k) in Hk.
    apply orb_false_iff in Hk as [Hne Hk].
    rewrite split_once_cons, prefix_cons.
    destruct (ascii_dec "=" ch) as [<-|_]; [discriminate|].
    rewrite (IH Hk). reflexivity.
Qed.

Lemma has_token_prefix_split (line : string) :
  has_token_prefix line = true ->
  exists v, (line = "JPY_API_TOKEN=" ++ v \/ line = "JUPYTERHUB_API_TOKEN=" ++ v)
            /\ exists k, split_once "=" line = Some (k, v).
Proof.
  unfold has_token_prefix, startswith. intros Hp.
  apply orb_true_iff in Hp as [Hp|Hp]; apply prefix_split in Hp as (v & ->);
    exists v; (split; [auto|]).
  - exists "JPY_API_TOKEN". apply (split_once_eq "JPY_API_TOKEN" v). reflexivity.
  - exists "JUPYTERHUB_API_TOKEN". apply (split_once_eq "JUPYTERHUB_API_TOKEN" v).
    reflexivity.
Qed.

Lemma reuse_api_token_run (env : list string) (s : State E) :
  exists s', reuse_api_token env s = (Ok tt, s')
    /\ service_id s' = service_id s /\ engine s' = engine s
    /\ calls s' = calls s /\ _escaped_name s' = _escaped_name s
    /\ (forall line, token_line env = Some line ->
          exists v, (line = "JPY_API_TOKEN=" ++ v \/ line = "JUPYTERHUB_API_TOKEN=" ++ v)
                    /\ api_token s' = v)
    /\ (token_line env = None -> api_token s' = api_token s).
Proof.
  induction env as [|line env IH]; cbn.
  - exists s. repeat split; auto. discriminate.
  - fold (has_token_prefix line). destruct (has_token_prefix line) eqn:Hp.
    + destruct (has_token_prefix_split line Hp) as (v & Hv & k & ->).
      eexists. split; [reflexivity|]. cbn. repeat split; auto.
      * intros l [= <-]. eauto.
      * discriminate.
    + exact IH.
Qed.

(** C9: when [start] finds a service and [remove_services] is off, it
    returns the service name and the port, issues the inspect call and no
    other call, and leaves in [api_token] what follows the prefix in the
    first environment line that starts with [JPY_API_TOKEN=] or
    [JUPYTERHUB_API_TOKEN=] (the token is unchanged when no line does). *)
Theorem start_reuses_api_token (c : Config) (image_arg : option string)
    (extra_arg : option (gmap string kwval)) (s : State E) (n : string)
    (svc : Service) (e' : E) (env : list string) :
  name_in c s = Ok n ->
  inspect_service n (engine s) = (Ok svc, e') ->
  remove_services c = false ->
  Config_Env svc = Some env ->
  exists s', start c image_arg extra_arg s = (Ok (n, port c), s')
    /\ calls s' = (calls s ++ [CallInspectService n])%list
    /\ (forall line, token_line env = Some line ->
          exists v, (line = "JPY_API_TOKEN=" ++ v \/ line = "JUPYTERHUB_API_TOKEN=" ++ v)
                    /\ api_token s' = v)
    /\ (token_line env = None -> api_token s' = api_token s).
Proof.
  intros Hn Hi Hrm Henv.
  destruct (get_service_found c s n svc e' Hn Hi)
    as (s1 & Hg & _ & _ & Hc1 & Ht1 & Hn1).
  destruct (service_name_run c s1 n Hn1) as (s2 & Hs2 & _ & _ & Hc2 & Ht2 & Hn2).
  destruct (reuse_api_token_run env s2)
    as (s3 & Hr & _ & _ & Hc3 & Hcache3 & Hsome & Hnone).
  assert (name_in c s3 = Ok n) as Hn3 by (rewrite (name_in_ext c s2 s3 Hcache3); exact Hn2).
  destruct (service_name_run c s3 n Hn3) as (s4 & Hs4 & _ & _ & Hc4 & Ht4 & Hn4).
  destruct (service_name_run c s4 n Hn4) as (s5 & Hs5 & _ & _ & Hc5 & Ht5 & Hn5).
  exists s5. split; [|split; [|split]].
  - unfold Config_Env in Henv.
    destruct (Service_Config svc) as [config|] eqn:Hconfig; [|discriminate].
    unfold start, get_ip_and_port, bindM. rewrite Hg, Hrm. cbn.
    rewrite Hs2, Hconfig, Henv, Hr, Hs4, Hs5. reflexivity.
  - rewrite Hc5, Hc4, Hc3, Hc2, Hc1. reflexivity.
  - intros line Hl. destruct (Hsome line Hl) as (v & Hv & Htok).
    exists v. split; [exact Hv|]. rewrite Ht5, Ht4. exact Htok.
  - intros Hl. rewrite Ht5, Ht4, (Hnone Hl), Ht2, Ht1. reflexivity.
Qed.

(** C1 as the code has it: [stop] reaches [clear_state] when the remove
    call returns; when the remove call raises, [stop] raises the same
    exception, [clear_state] is not reached and [service_id] keeps its
    value. *)
Theorem stop_clears_after_remove_returns (c : Config) (s : State E) (n : string)
    (r : result unit) (e' : E) :
  name_in c s = Ok n ->
  remove_service (service_id s) (engine s) = (r, e') ->
  exists s', stop c s = (r, s')
    /\ service_id s' = service_id s
    /\ calls s' = (calls s ++ CallRemoveService (service_id s) ::
                     match r with
                     | Ok _ => [CallClearState]
                     | Raise _ => []
                     end)%list.
Proof.
  intros Hn Hr.
  destruct (service_name_run c s n Hn) as (s0 & Hs0 & Hid0 & He0 & Hc0 & _ & _).
  unfold stop, bindM, get, docker, clear_state, modify. rewrite Hs0, Hid0, He0, Hr.
  destruct r as [[]|e]; cbn; eexists; (split; [reflexivity|]); cbn;
    rewrite Hc0, Hid0; split; try reflexivity.
  rewrite <- app_assoc. reflexivity.
Qed.

End Lifecycle.

(** ** CPU limits in nano-units *)

Lemma shiftl_truncates (m : positive) (e : Z) :
  let q := Z.shiftl (Zpos m) e in
  0 <= q /\ q * mag_den e <= mag_num m e < (q + 1) * mag_den e.
Proof.
  unfold mag_den, mag_num. destruct (Z.le_gt_cases 0 e) as [He|He].
  - rewrite Z.shiftl_mul_pow2 by lia.
    rewrite (Z.max_r 0 e) by lia. rewrite (Z.max_l 0 (- e)) by lia.
    change (2 ^ 0) with 1.
    assert (0 < 2 ^ e) by (apply Z.pow_pos_nonneg; lia). nia.
  - rewrite Z.shiftl_div_pow2 by lia.
    rewrite (Z.max_l 0 e) by lia. rewrite (Z.max_r 0 (- e)) by lia.
    change (2 ^ 0) with 1.
    assert (0 < 2 ^ (- e)) as Hd by (apply Z.pow_pos_nonneg; lia).
    pose proof (Z.div_mod (Z.pos m) (2 ^ (- e)) ltac:(lia)) as Hdm.
    pose proof (Z.mod_pos_bound (Z.pos m) (2 ^ (- e)) Hd) as Hmod.
    assert (0 <= Z.pos m / 2 ^ (- e)) by (apply Z.div_pos; lia).
    nia.
Qed.

Lemma cpu_nano_truncation (x : float) (sgn : bool) (m : positive) (e : Z) :
  float_truthy x = true ->
  float_mul x float_1e9 = S754_finite sgn m e ->
  exists n, cpu_nano (Some x) = Ok (Some n)
    /\ Z.abs n * mag_den e <= mag_num m e < (Z.abs n + 1) * mag_den e
    /\ (n < 0 -> sgn = true) /\ (0 < n -> sgn = false).
Proof.
  intros Hx Hmul. unfold cpu_nano. rewrite Hx, Hmul. cbn.
  eexists. split; [reflexivity|].
  destruct (shiftl_truncates m e) as [Hq Hb]. cbn in Hq, Hb.
  destruct sgn; cbn.
  - rewrite Z.abs_opp, Z.abs_eq by lia. repeat split; try tauto; lia.
  - rewrite Z.abs_eq by lia. repeat split; try tauto; lia.
Qed.

Section CreateKwargs.
Context {E : Type} {Eng : Engine E} {Fmt : StrFormat}.

Lemma slice_lookup (keys : list string) (ck : gmap string kwval) (k : string) (v : kwval) :
  slice keys ck !! k = Some v <-> ck !! k = Some v /\ k ∈ keys.
Proof. unfold slice. rewrite map_lookup_filter_Some. reflexivity. Qed.

Lemma lookup_after_updates (k : string) (v : kwval)
    (extra_arg : option (gmap string kwval)) (base : gmap string kwval) :
  (forall extra, extra_arg = Some extra -> extra !! k = None) ->
  base !! k = Some v ->
  match extra_arg with
  | Some extra => if decide (extra = ∅) then base else extra ∪ base
  | None => base
  end !! k = Some v.
Proof.
  intros Hy Hbase. destruct extra_arg as [extra|]; [|exact Hbase].
  destruct (decide (extra = ∅)); [exact Hbase|].
  rewrite lookup_union_r; [exact Hbase | apply Hy; reflexivity].
Qed.

(** In the create branch the two CPU values reach the resource slice as
    [cpu_nano] made them, unless an extra keyword overrides them. *)
Lemma build_create_kwargs_cpu (c : Config) (image_arg : option string)
    (extra_arg : option (gmap string kwval)) (s s' : State E)
    (ck : gmap string kwval) :
  build_create_kwargs c image_arg extra_arg s = (Ok ck, s') ->
  (forall k, k = "cpu_limit" \/ k = "cpu_reservation" ->
     extra_create_kwargs c !! k = None
     /\ forall extra, extra_arg = Some extra -> extra !! k = None) ->
  exists cl cr,
    cpu_nano (cpu_limit c) = Ok cl /\ cpu_nano (cpu_guarantee c) = Ok cr
    /\ slice _resource_spec_keys ck !! "cpu_limit" = Some (kw_of_option_int cl)
    /\ slice _resource_spec_keys ck !! "cpu_reservation" = Some (kw_of_option_int cr).
Proof.
  unfold build_create_kwargs, bindM, lift, ret. intros Hb Hx.
  destruct (mounts c) as [ms|]; [|discriminate].
  destruct (service_name c s) as [[n|] s1]; [|discriminate].
  destruct (get_args c) as [args|]; [|discriminate].
  destruct (cpu_nano (cpu_limit c)) as [cl|]; [|discriminate].
  destruct (cpu_nano (cpu_guarantee c)) as [cr|]; [|discriminate].
  injection Hb as <- _. exists cl, cr. split; [reflexivity|]. split; [reflexivity|].
  pose proof (Hx "cpu_limit" (or_introl eq_refl)) as Hl. destruct Hl as [Hl1 Hl2].
  pose proof (Hx "cpu_reservation" (or_intror eq_refl)) as Hr. destruct Hr as [Hr1 Hr2].
  split; apply slice_lookup;
    (split; [|apply (bool_decide_unpack _); vm_compute; exact I]).
  - apply lookup_after_updates; [exact Hl2|]. rewrite lookup_union_r by exact Hl1.
    destruct (if _user_set_cmd c then Some (cmd c) else None) as [[|x l]|];
      simplify_map_eq; reflexivity.
  - apply lookup_after_updates; [exact Hr2|]. rewrite lookup_union_r by exact Hr1.
    destruct (if _user_set_cmd c then Some (cmd c) else None) as [[|x l]|];
      simplify_map_eq; reflexivity.
Qed.

(** C2 as the code has it: an absent CPU limit or guarantee stays absent, a
    zero one is turned into absent as well, and any other value whose
    product with [1e9] is finite becomes the integer obtained by truncating
    that product toward zero; the create branch of [start] hands both
    results to the resource slice. *)
Theorem cpu_nano_absent_zero_truncated :
  cpu_nano None = Ok None
  /\ (forall sgn, cpu_nano (Some (S754_zero sgn)) = Ok None)
  /\ (forall x sgn m e,
        float_truthy x = true ->
        float_mul x float_1e9 = S754_finite sgn m e ->
        exists n, cpu_nano (Some x) = Ok (Some n)
          /\ Z.abs n * mag_den e <= mag_num m e < (Z.abs n + 1) * mag_den e
          /\ (n < 0 -> sgn = true) /\ (0 < n -> sgn = false))
  /\ (forall c image_arg extra_arg (s s' : State E) ck,
        build_create_kwargs c image_arg extra_arg s = (Ok ck, s') ->
        (forall k, k = "cpu_limit" \/ k = "cpu_reservation" ->
           extra_create_kwargs c !! k = None
           /\ forall extra, extra_arg = Some extra -> extra !! k = None) ->
        exists cl cr,
          cpu_nano (cpu_limit c) = Ok cl /\ cpu_nano (cpu_guarantee c) = Ok cr
          /\ slice _resource_spec_keys ck !! "cpu_limit" = Some (kw_of_option_int cl)
          /\ slice _resource_spec_keys ck !! "cpu_reservation"
             = Some (kw_of_option_int cr)).
Proof.
  split; [reflexivity|]. split; [reflexivity|]. split.
  - exact cpu_nano_truncation.
  - exact build_create_kwargs_cpu.
Qed.

End CreateKwargs.

(** ** The partition of [create_kwargs] *)

Lemma elem_of_dom_slice (keys : list string) (ck : gmap string kwval) (k : string) :
  k ∈ dom (slice keys ck) <-> k ∈ dom ck /\ k ∈ keys.
Proof.
  rewrite !elem_of_dom. unfold is_Some. split.
  - intros (v & Hv). apply slice_lookup in Hv as [Hv Hk]. eauto.
  - intros ((v & Hv) & Hk). exists v. apply slice_lookup. auto.
Qed.

Lemma elem_of_remaining_keys (ck : gmap string kwval) (k : string) :
  k ∈ remaining_keys ck <->
  k ∈ dom ck /\ (k ∉ _container_spec_keys) /\ (k ∉ _resource_spec_keys)
  /\ (k ∉ _task_spec_keys) /\ (k ∉ _endpoint_spec_keys) /\ k <> "name".
Proof.
  unfold remaining_keys.
  rewrite elem_of_difference, !not_elem_of_union, !elem_of_list_to_set, elem_of_singleton.
  tauto.
Qed.

Lemma disjoint_by_check (l1 l2 : list string) :
  forallb (fun x => bool_decide (x ∉ l2)) l1 = true ->
  forall k, k ∈ l1 -> k ∉ l2.
Proof.
  intros Hall k Hk. rewrite forallb_forall in Hall.
  apply list_elem_of_In in Hk. apply Hall in Hk.
  apply bool_decide_eq_true in Hk. exact Hk.
Qed.

Ltac checked_disjoint l1 l2 k H :=
  pose proof (disjoint_by_check l1 l2 ltac:(vm_compute; reflexivity) k) as H.

Lemma placements_count (ck : gmap string kwval) (k : string) :
  k ∈ dom ck ->
  count_true (placements ck k) = if decide (k = "name") then 0%nat else 1%nat.
Proof.
  intros Hdom.
  checked_disjoint _container_spec_keys _resource_spec_keys k HCR.
  checked_disjoint _container_spec_keys _task_spec_keys k HCT.
  checked_disjoint _container_spec_keys _endpoint_spec_keys k HCE.
  checked_disjoint _container_spec_keys ["name"] k HCN.
  checked_disjoint _resource_spec_keys _task_spec_keys k HRT.
  checked_disjoint _resource_spec_keys _endpoint_spec_keys k HRE.
  checked_disjoint _resource_spec_keys ["name"] k HRN.
  checked_disjoint _task_spec_keys _endpoint_spec_keys k HTE.
  checked_disjoint _task_spec_keys ["name"] k HTN.
  checked_disjoint _endpoint_spec_keys ["name"] k HEN.
  assert (k ∈ ["name"] <-> k = "name") as Hname
    by (rewrite elem_of_cons, elem_of_nil; tauto).
  unfold placements, count_true.
  pose proof (elem_of_dom_slice _container_spec_keys ck k) as HC.
  pose proof (elem_of_dom_slice _resource_spec_keys ck k) as HR.
  pose proof (elem_of_dom_slice _task_spec_keys ck k) as HT.
  pose proof (elem_of_dom_slice _endpoint_spec_keys ck k) as HE.
  pose proof (elem_of_remaining_keys ck k) as HU.
  generalize dependent _container_spec_keys; intros C; intros.
  generalize dependent _resource_spec_keys; intros R; intros.
  generalize dependent _task_spec_keys; intros T; intros.
  generalize dependent _endpoint_spec_keys; intros En; intros.
  destruct (decide (k ∈ C)); destruct (decide (k ∈ R));
    destruct (decide (k ∈ T)); destruct (decide (k ∈ En));
    destruct (decide (k = "name"));
    try tauto;
    repeat match goal with
           | |- context [bool_decide ?P] =>
               first [ rewrite (bool_decide_eq_true_2 P) by tauto
                     | rewrite (bool_decide_eq_false_2 P) by tauto ]
           end;
    reflexivity.
Qed.

Section Partition.
Context {E : Type} {Eng : Engine E} {Fmt : StrFormat}.

Lemma service_name_calls (c : Config) (s : State E) :
  calls (snd (service_name c s)) = calls s.
Proof.
  unfold_methods. destruct (_escaped_name s); reflexivity.
Qed.

Lemma build_create_kwargs_name (c : Config) (image_arg : option string)
    (extra_arg : option (gmap string kwval)) (s s' : State E)
    (ck : gmap string kwval) :
  build_create_kwargs c image_arg extra_arg s = (Ok ck, s') ->
  is_Some (ck !! "name").
Proof.
  unfold build_create_kwargs, bindM, lift, ret. intros Hb.
  destruct (mounts c) as [ms|]; [|discriminate].
  destruct (service_name c s) as [[n|] s1]; [|discriminate].
  destruct (get_args c) as [args|]; [|discriminate].
  destruct (cpu_nano (cpu_limit c)) as [cl|]; [|discriminate].
  destruct (cpu_nano (cpu_guarantee c)) as [cr|]; [|discriminate].
  injection Hb as <- _.
  assert (forall base : gmap string kwval, is_Some (base !! "name") ->
          is_Some (match extra_arg with
                   | Some extra => if decide (extra = ∅) then base else extra ∪ base
                   | None => base
                   end !! "name")) as Hextra.
  { intros base Hbase. destruct extra_arg as [extra|]; [|exact Hbase].
    destruct (decide (extra = ∅)); [exact Hbase|].
    apply lookup_union_is_Some. right. exact Hbase. }
  apply Hextra. apply lookup_union_is_Some. right.
  exists (KStr n).
  destruct (if _user_set_cmd c then Some (cmd c) else None) as [[|x l]|];
    simplify_map_eq; reflexivity.
Qed.

(** C5 as the code has it: every key of [create_kwargs] other than ["name"]
    is in exactly one of the four slices and [remaining_keys]; ["name"] is in
    none of them; and once [create_kwargs] is built, the create branch goes
    on to the create call with the four slices, whatever the keys are, after
    logging the remaining keys when there are any. *)
Theorem partition_places_each_key_once (ck : gmap string kwval) :
  (forall k, k ∈ dom ck ->
     (k <> "name" -> count_true (placements ck k) = 1%nat)
     /\ (k = "name" -> count_true (placements ck k) = 0%nat))
  /\ (forall c image_arg extra_arg (s s1 : State E),
        build_create_kwargs c image_arg extra_arg s = (Ok ck, s1) ->
        exists r s2 n,
          create_branch c image_arg extra_arg s = (r, s2)
          /\ ck !! "name" = Some n
          /\ calls s2 =
             (calls s1
              ++ (if decide (remaining_keys ck = ∅) then []
                  else [LogUnusedKeys (remaining ck)])
              ++ [CallCreateService
                    {| container_spec := slice _container_spec_keys ck;
                       resources := slice _resource_spec_keys ck;
                       force_update := 1;
                       task_kwargs := slice _task_spec_keys ck |}
                    (slice _endpoint_spec_keys ck) n])%list).
Proof.
  split.
  - intros k Hk. rewrite (placements_count ck k Hk).
    destruct (decide (k = "name")); split; intros; congruence.
  - intros c image_arg extra_arg s s1 Hb.
    destruct (build_create_kwargs_name c image_arg extra_arg s s1 ck Hb) as (n & Hn).
    unfold create_branch, bindM at 1. rewrite Hb.
    unfold bindM, modify, ret, docker, raise. rewrite Hn.
    destruct (decide (remaining_keys ck = ∅)) as [Hr|Hr]; cbn.
    + destruct (create_service _ _ _ (engine s1)) as [[resp|e] e']; cbn.
      * match goal with
        | |- context [service_name c ?st] =>
            pose proof (service_name_calls c st) as Hc;
            destruct (service_name c st) as [[n1|e1] s2]
        end; cbn in Hc; do 3 eexists; (split; [reflexivity|]); split; auto.
      * do 3 eexists; (split; [reflexivity|]); split; auto.
    + destruct (create_service _ _ _ (engine s1)) as [[resp|e] e']; cbn.
      * match goal with
        | |- context [service_name c ?st] =>
            pose proof (service_name_calls c st) as Hc;
            destruct (service_name c st) as [[n1|e1] s2]
        end; cbn in Hc; do 3 eexists; (split; [reflexivity|]); split; auto;
          rewrite Hc, <- app_assoc; reflexivity.
      * do 3 eexists; (split; [reflexivity|]); split; auto.
        cbn. rewrite <- app_assoc. reflexivity.
Qed.

End Partition.

(** ** Escaping of user names *)

Lemma append_cons (ch : ascii) (a b : string) : String ch a ++ b = String ch (a ++ b).
Proof. reflexivity. Qed.

Lemma append_nil (b : string) : "" ++ b = b.
Proof. reflexivity. Qed.

Lemma escape_cons (ch : ascii) (rest safe : string) (esc : ascii) :
  escape (String ch rest) safe esc =
  (if ascii_in ch safe then String ch "" else _escape_char ch esc) ++ escape rest safe esc.
Proof. reflexivity. Qed.

Lemma escape_char_shape_ok (ch : ascii) : escape_char_shape ch = true.
Proof.
  destruct ch as [[] [] [] [] [] [] [] []]; vm_compute; reflexivity.
Qed.

Lemma safe_not_escape_char (ch : ascii) : is_safe ch = true -> ch <> "_"%char.
Proof. intros Hs ->. vm_compute in Hs. discriminate. Qed.

Lemma escape_char_high (ch : ascii) :
  (16 <=? N_of_ascii ch)%N = true ->
  exists h l, _escape_char ch _service_escape_char = String "_" (String h (String l ""))
              /\ byte_of_hex h l = Some ch.
Proof.
  intros Hhi. pose proof (escape_char_shape_ok ch) as Hs. unfold escape_char_shape in Hs.
  destruct (_escape_char ch _service_escape_char) as [|e [|h [|l [|x r]]]];
    cbv beta iota in Hs; try discriminate.
  - apply N.leb_le in Hhi. rewrite !andb_true_iff in Hs. destruct Hs as [_ Hlt].
    apply N.ltb_lt in Hlt. lia.
  - rewrite !andb_true_iff in Hs. destruct Hs as [[[He _] _] Hb].
    apply Ascii.eqb_eq in He as ->.
    destruct (byte_of_hex h l) as [ch'|] eqn:Hd; [|discriminate].
    apply Ascii.eqb_eq in Hb as ->. eauto.
Qed.

Lemma escape_char_alphabet (ch : ascii) :
  all_chars (fun x => is_safe x || Ascii.eqb x "_")
    (_escape_char ch _service_escape_char) = true.
Proof.
  pose proof (escape_char_shape_ok ch) as Hs. unfold escape_char_shape in Hs.
  destruct (_escape_char ch _service_escape_char) as [|e [|h [|l [|x r]]]];
    cbv beta iota in Hs; try discriminate;
    rewrite !andb_true_iff in Hs; cbn.
  - destruct Hs as [[-> ->] _]. rewrite !orb_true_r. reflexivity.
  - destruct Hs as [[[-> ->] ->] _]. rewrite !orb_true_r. reflexivity.
Qed.

Lemma all_chars_app (p : ascii -> bool) (a b : string) :
  all_chars p (a ++ b) = all_chars p a && all_chars p b.
Proof.
  induction a as [|ch a IH]; [reflexivity|].
  rewrite append_cons. cbn. rewrite IH, andb_assoc. reflexivity.
Qed.

Lemma escape_alphabet (u : string) :
  all_chars (fun x => is_safe x || Ascii.eqb x "_")
    (escape u _service_safe_chars _service_escape_char) = true.
Proof.
  induction u as [|ch u IH]; [reflexivity|].
  rewrite escape_cons, all_chars_app, IH, andb_true_r.
  destruct (ascii_in ch _service_safe_chars) eqn:Hs.
  - cbn. unfold is_safe. rewrite Hs. reflexivity.
  - apply escape_char_alphabet.
Qed.

Lemma escape_injective_high (u1 u2 : string) :
  no_low_bytes u1 = true -> no_low_bytes u2 = true ->
  escape u1 _service_safe_chars _service_escape_char
  = escape u2 _service_safe_chars _service_escape_char ->
  u1 = u2.
Proof.
  revert u2. induction u1 as [|c1 r1 IH]; intros [|c2 r2] H1 H2 Heq.
  - reflexivity.
  - exfalso. rewrite escape_cons in Heq.
    destruct (ascii_in c2 _service_safe_chars); discriminate.
  - exfalso. rewrite escape_cons in Heq.
    destruct (ascii_in c1 _service_safe_chars); discriminate.
  - unfold no_low_bytes in H1, H2. cbn in H1, H2.
    apply andb_true_iff in H1 as [Hc1 Hr1]. apply andb_true_iff in H2 as [Hc2 Hr2].
    rewrite !escape_cons in Heq.
    destruct (escape_char_high c1 Hc1) as (h1 & l1 & Hesc1 & Hdec1).
    destruct (escape_char_high c2 Hc2) as (h2 & l2 & Hesc2 & Hdec2).
    destruct (ascii_in c1 _service_safe_chars) eqn:Hs1;
      destruct (ascii_in c2 _service_safe_chars) eqn:Hs2.
    + rewrite !append_cons, !append_nil in Heq. injection Heq as -> Heq.
      f_equal. apply IH; assumption.
    + exfalso. rewrite Hesc2, !append_cons, !append_nil in Heq. injection Heq as -> _.
      exact (safe_not_escape_char _ Hs1 eq_refl).
    + exfalso. rewrite Hesc1, !append_cons, !append_nil in Heq. injection Heq as <- _.
      exact (safe_not_escape_char _ Hs2 eq_refl).
    + rewrite Hesc1, Hesc2, !append_cons, !append_nil in Heq.
      injection Heq as -> -> Heq. rewrite Hdec1 in Hdec2. injection Hdec2 as ->.
      f_equal. apply IH; assumption.
Qed.

Section EscapedName.
Context {E : Type} {Eng : Engine E} {Fmt : StrFormat}.

(** C4 as the model of [escape] has it: the escaped name consists of
    safe-alphabet characters and the escape character ['_']; escaping is
    injective on user names that hold no byte below 0x10; and
    [escaped_name], when nothing is cached, is the escape of [user.name]. *)
Theorem escaped_name_alphabet_and_injectivity :
  (forall u, all_chars (fun x => is_safe x || Ascii.eqb x "_")
               (escape u _service_safe_chars _service_escape_char) = true)
  /\ (forall u1 u2,
        no_low_bytes u1 = true -> no_low_bytes u2 = true ->
        escape u1 _service_safe_chars _service_escape_char
        = escape u2 _service_safe_chars _service_escape_char ->
        u1 = u2)
  /\ (forall c (s : State E),
        _escaped_name s = None ->
        fst (escaped_name c s)
        = Ok (escape (user_name c) _service_safe_chars _service_escape_char)).
Proof.
  split; [exact escape_alphabet|]. split; [exact escape_injective_high|].
  intros c s Hc. unfold escaped_name, bindM, get, modify, ret. rewrite Hc. reflexivity.
Qed.

End EscapedName.

(** ** Mounts and persisted state *)

Lemma dict_set_keys {V : Type} (k : string) (v : V) (d : odict V) :
  List.map fst (dict_set k v d) = add_key (List.map fst d) k.
Proof.
  unfold add_key. induction d as [|[k' v'] d IH]; cbn.
  - reflexivity.
  - destruct (String.eqb_spec k' k) as [->|Hne]; cbn.
    + rewrite bool_decide_eq_true_2 by (apply list_elem_of_here). reflexivity.
    + rewrite IH. destruct (decide (k ∈ List.map fst d)) as [Hin|Hnin].
      * rewrite !bool_decide_eq_true_2; auto. apply list_elem_of_further. exact Hin.
      * rewrite !bool_decide_eq_false_2; auto.
        intros Hin. apply elem_of_cons in Hin as [->|Hin]; [congruence | auto].
Qed.

Lemma _volumes_to_binds_keys (_fmt : string -> result string) (vols : odict volval)
    (binds b : odict bindval) (m : string) :
  _volumes_to_binds _fmt vols binds m = Ok b ->
  exists hs, Forall2 (fun kv h => _fmt kv.1 = Ok h) vols hs
             /\ List.map fst b = fold_left add_key hs (List.map fst binds).
Proof.
  revert binds. induction vols as [|[k v] vols IH]; intros binds Hb; cbn in Hb.
  - injection Hb as <-. exists []. split; [constructor | reflexivity].
  - unfold rbind in Hb.
    destruct (match v with
              | VStr b0 => Ok (b0, m)
              | VDict b0 m0 => _
              end) as [[v' m']|]; [|discriminate].
    destruct (_fmt v') as [fv|]; [|discriminate].
    destruct (_fmt k) as [fk|] eqn:Hk; [|discriminate].
    destruct (IH _ Hb) as (hs & Hall & Hkeys).
    exists (fk :: hs). split; [constructor; assumption|].
    rewrite Hkeys, dict_set_keys. reflexivity.
Qed.

Lemma _volumes_to_binds_ext (f g : string -> result string) (vols : odict volval)
    (binds : odict bindval) (m : string) :
  (forall t, f t = g t) ->
  _volumes_to_binds f vols binds m = _volumes_to_binds g vols binds m.
Proof.
  intros Hfg. revert binds. induction vols as [|[k v] vols IH]; intros binds; cbn.
  - reflexivity.
  - unfold rbind.
    destruct (match v with
              | VStr b0 => Ok (b0, m)
              | VDict b0 m0 => _
              end) as [[v' m']|]; [|reflexivity].
    rewrite !Hfg. destruct (g v'); [|reflexivity]. destruct (g k); [|reflexivity].
    apply IH.
Qed.

Lemma fold_add_key_length (hs acc : list string) :
  (List.length acc <= List.length (fold_left add_key hs acc)
   <= List.length acc + List.length hs)%nat
  /\ (hs <> [] -> fold_left add_key hs acc <> []).
Proof.
  revert acc. induction hs as [|h hs IH]; intros acc; cbn.
  - split; [lia | congruence].
  - destruct (IH (add_key acc h)) as [Hlen Hne].
    assert (List.length acc <= List.length (add_key acc h) <= S (List.length acc))%nat
      as Hadd.
    { unfold add_key. destruct (bool_decide (h ∈ acc)); [lia|].
      rewrite length_app. cbn. lia. }
    split; [lia|]. intros _.
    destruct (fold_left add_key hs (add_key acc h)) eqn:Hf; [|congruence].
    exfalso. cbn in Hlen.
    assert (add_key acc h <> []) as Hnn.
    { unfold add_key. destruct (decide (h ∈ acc)) as [Hin|Hnin].
      - rewrite bool_decide_eq_true_2 by exact Hin. intros ->. inversion Hin.
      - rewrite bool_decide_eq_false_2 by exact Hnin. destruct acc; discriminate. }
    destruct (add_key acc h); [congruence | cbn in Hlen; lia].
Qed.

(** A configured entry leaves an entry in [volume_binds]. *)
Lemma volume_binds_nonempty (c : Config) (b : odict bindval) :
  volume_binds c = Ok b ->
  volumes c <> [] \/ read_only_volumes c <> [] ->
  b <> [].
Proof.
  intros Hb Hcfg. unfold volume_binds, rbind in Hb.
  destruct (_volumes_to_binds (format_volume_name c) (volumes c) [] "rw")
    as [b1|] eqn:H1; [|discriminate].
  destruct (_volumes_to_binds_keys _ _ _ _ _ H1) as (hs1 & Hall1 & Hk1).
  destruct (_volumes_to_binds_keys _ _ _ _ _ Hb) as (hs2 & Hall2 & Hk2).
  apply Forall2_length in Hall1. apply Forall2_length in Hall2.
  rewrite Hk1, <- fold_left_app in Hk2.
  assert ((hs1 ++ hs2)%list <> []) as Hne.
  { destruct Hcfg as [Hv|Hr].
    - destruct (volumes c); [congruence|]. destruct hs1; discriminate.
    - destruct (read_only_volumes c); [congruence|].
      destruct hs2; [discriminate|]. destruct hs1; discriminate. }
  apply (proj2 (fold_add_key_length _ [])) in Hne.
  intros ->. cbn in Hk2. congruence.
Qed.

(** The constructor of a bind mount rejects every [DriverConfig], so the
    comprehension of [mounts] ends at its first element. *)
Lemma mount_of_raises (d : DriverConfig) (item : string * bindval) :
  mount_of d item = Raise InvalidArgument.
Proof.
  destruct item as [h v]. unfold mount_of, Mount_bind, DriverConfig_truthy,
    DriverConfig_len. destruct (dc_options d) as [[|o os]|]; reflexivity.
Qed.

Lemma mounts_by_volume_binds (c : Config) :
  mounts c = match volume_binds c with
             | Ok [] => Ok []
             | Ok (_ :: _) => Raise InvalidArgument
             | Raise e => Raise e
             end.
Proof.
  unfold mounts, rbind. destruct (volume_binds c) as [[|x b]|e]; try reflexivity.
  cbn. rewrite mount_of_raises. reflexivity.
Qed.

(** The only list [mounts] ever returns is the empty one. *)
Lemma mounts_returns_nil (c : Config) (ms : list Mount) :
  mounts c = Ok ms -> ms = [] /\ volume_binds c = Ok [].
Proof.
  rewrite mounts_by_volume_binds. destruct (volume_binds c) as [[|x b]|e];
    [|discriminate|discriminate].
  intros [= <-]. split; reflexivity.
Qed.

(** C3 against the code: for a configuration with at least one entry in
    [volumes] or [read_only_volumes] whose paths format, [mounts] builds no
    mount list, sorted or not: [volume_binds] is not empty, the first
    [Mount(type='bind', driver_config=...)] raises [InvalidArgument], and
    [mounts] raises it. *)
Theorem mounts_raises_for_any_volume (c : Config) (b : odict bindval) :
  volume_binds c = Ok b ->
  volumes c <> [] \/ read_only_volumes c <> [] ->
  b <> [] /\ mounts c = Raise InvalidArgument.
Proof.
  intros Hb Hcfg. pose proof (volume_binds_nonempty c b Hb Hcfg) as Hne.
  split; [exact Hne|]. rewrite mounts_by_volume_binds, Hb.
  destruct b; [congruence | reflexivity].
Qed.

Section PersistedState.
Context {E : Type} {Eng : Engine E} {Fmt : StrFormat}.

(** C10: when the inherited state has no [service_id] entry, [get_state]
    has one exactly when [service_id] is not empty, and [load_state] on what
    [get_state] returned gives [service_id] its value back. *)
Theorem state_round_trip (c : Config) (s s0 : State E) :
  inherited_state c !! "service_id" = None ->
  exists st, get_state c s = (Ok st, s)
    /\ (is_Some (st !! "service_id") <-> service_id s <> "")
    /\ exists s1, load_state st s0 = (Ok tt, s1) /\ service_id s1 = service_id s.
Proof.
  intros Hbase. unfold get_state, load_state, bindM, get, modify, ret.
  destruct (String.eqb_spec (service_id s) "") as [Heq|Hne]; cbn.
  - exists (inherited_state c). split; [reflexivity|]. split.
    + rewrite Hbase. split; [intros [x Hx]; discriminate | congruence].
    + eexists. split; [reflexivity|]. cbn. rewrite Hbase. cbn. congruence.
  - eexists. split; [reflexivity|]. split.
    + rewrite lookup_insert_eq. split; [auto | eauto].
    + eexists. split; [reflexivity|]. cbn. rewrite lookup_insert_eq. reflexivity.
Qed.

End PersistedState.

(** ** More on volumes and mounts *)

Lemma _volumes_to_binds_cons (_fmt : string -> result string) (k : string) (v : volval)
    (rest : odict volval) (binds : odict bindval) (m : string) :
  _volumes_to_binds _fmt ((k, v) :: rest) binds m =
  match entry_path v with
  | None => Raise (KeyError "bind")
  | Some p =>
      rbind (_fmt p) (fun fv =>
      rbind (_fmt k) (fun fk =>
      _volumes_to_binds _fmt rest
        (dict_set fk {| bind := fv; mode := entry_mode v m |} binds) m))
  end.
Proof. destruct v as [p|[p|] [m'|]]; reflexivity. Qed.

(** X1: running the loop of [_volumes_to_binds] over two maps one after the
    other, the second on the dict the first returned, is running it over
    their concatenation. *)
Theorem _volumes_to_binds_app (_fmt : string -> result string)
    (vols1 vols2 : odict volval) (binds : odict bindval) (m : string) :
  _volumes_to_binds _fmt (vols1 ++ vols2)%list binds m =
  rbind (_volumes_to_binds _fmt vols1 binds m) (fun b1 =>
  _volumes_to_binds _fmt vols2 b1 m).
Proof.
  revert binds. induction vols1 as [|[k v] vols1 IH]; intros binds.
  - reflexivity.
  - change (((k, v) :: vols1) ++ vols2)%list with ((k, v) :: (vols1 ++ vols2))%list.
    rewrite !_volumes_to_binds_cons.
    destruct (entry_path v) as [p|]; [|reflexivity]. cbn.
    destruct (_fmt p) as [fv|]; [|reflexivity]. cbn.
    destruct (_fmt k) as [fk|]; [|reflexivity]. cbn.
    apply IH.
Qed.

Lemma dict_get_set_eq {V : Type} (k : string) (v : V) (d : odict V) :
  dict_get k (dict_set k v d) = Some v.
Proof.
  induction d as [|[k' v'] d IH]; cbn.
  - rewrite String.eqb_refl. reflexivity.
  - destruct (String.eqb_spec k' k) as [->|Hne]; cbn.
    + rewrite String.eqb_refl. reflexivity.
    + destruct (String.eqb_spec k' k); [congruence | exact IH].
Qed.

Lemma dict_get_set_ne {V : Type} (k k' : string) (v : V) (d : odict V) :
  k <> k' -> dict_get k' (dict_set k v d) = dict_get k' d.
Proof.
  intros Hne. induction d as [|[k0 v0] d IH]; cbn.
  - destruct (String.eqb_spec k k'); [congruence | reflexivity].
  - destruct (String.eqb_spec k0 k) as [->|Hne0]; cbn.
    + destruct (String.eqb_spec k k'); [congruence | reflexivity].
    + destruct (String.eqb_spec k0 k'); [reflexivity | exact IH].
Qed.

(** X27: the host paths of [volume_binds] are the formatted keys of
    [volumes] followed by those of [read_only_volumes], each at the place of
    its first assignment; the dict is not sorted. *)
Theorem volume_binds_insertion_order (c : Config) (b : odict bindval) :
  volume_binds c = Ok b ->
  exists hs1 hs2,
    Forall2 (fun kv h => format_volume_name c kv.1 = Ok h) (volumes c) hs1
    /\ Forall2 (fun kv h => format_volume_name c kv.1 = Ok h) (read_only_volumes c) hs2
    /\ List.map fst b = insertion_order (hs1 ++ hs2).
Proof.
  intros Hb. unfold volume_binds, rbind in Hb.
  destruct (_volumes_to_binds (format_volume_name c) (volumes c) [] "rw")
    as [b1|] eqn:H1; [|discriminate].
  destruct (_volumes_to_binds_keys _ _ _ _ _ H1) as (hs1 & Hall1 & Hk1).
  destruct (_volumes_to_binds_keys _ _ _ _ _ Hb) as (hs2 & Hall2 & Hk2).
  exists hs1, hs2. repeat split; try assumption.
  rewrite Hk2, Hk1. unfold insertion_order. rewrite fold_left_app. reflexivity.
Qed.

Lemma _volumes_to_binds_untouched (_fmt : string -> result string) (vols : odict volval)
    (binds b : odict bindval) (m fk : string) :
  _volumes_to_binds _fmt vols binds m = Ok b ->
  Forall (fun kv => _fmt kv.1 <> Ok fk) vols ->
  dict_get fk b = dict_get fk binds.
Proof.
  revert binds. induction vols as [|[k v] vols IH]; intros binds Hb Hall.
  - cbn in Hb. injection Hb as <-. reflexivity.
  - rewrite _volumes_to_binds_cons in Hb.
    destruct (entry_path v) as [p|]; [|discriminate]. cbn in Hb.
    destruct (_fmt p) as [fv|]; [|discriminate]. cbn in Hb.
    destruct (_fmt k) as [fk'|] eqn:Hk; [|discriminate]. cbn in Hb.
    apply Forall_cons in Hall as [Hne Hall]. cbn in Hne.
    rewrite (IH _ Hb Hall). apply dict_get_set_ne. congruence.
Qed.

Lemma _volumes_to_binds_last (_fmt : string -> result string)
    (pre post : odict volval) (k : string) (v : volval)
    (binds b : odict bindval) (m fk : string) :
  _volumes_to_binds _fmt (pre ++ (k, v) :: post)%list binds m = Ok b ->
  _fmt k = Ok fk ->
  Forall (fun kv => _fmt kv.1 <> Ok fk) post ->
  exists p fp, entry_path v = Some p /\ _fmt p = Ok fp
    /\ dict_get fk b = Some {| bind := fp; mode := entry_mode v m |}.
Proof.
  intros Hb Hk Hpost. rewrite _volumes_to_binds_app in Hb. unfold rbind in Hb.
  destruct (_volumes_to_binds _fmt pre binds m) as [b1|]; [|discriminate].
  rewrite _volumes_to_binds_cons in Hb.
  destruct (entry_path v) as [p|]; [|discriminate]. cbn in Hb.
  destruct (_fmt p) as [fp|] eqn:Hp; [|discriminate]. cbn in Hb.
  rewrite Hk in Hb. cbn in Hb.
  exists p, fp. split; [reflexivity|]. split; [exact Hp|].
  rewrite (_volumes_to_binds_untouched _ _ _ _ _ _ Hb Hpost).
  apply dict_get_set_eq.
Qed.

(** X3: an entry of [read_only_volumes] whose host path no later entry of
    that map formats to decides the binding of that path, whatever [volumes]
    holds for it: the mode is the entry's own ['mode'] when it is a dict with
    one, and ['ro'] otherwise. *)
Theorem read_only_volumes_entry_wins (c : Config) (b : odict bindval)
    (pre post : odict volval) (k : string) (v : volval) (fk : string) :
  volume_binds c = Ok b ->
  read_only_volumes c = (pre ++ (k, v) :: post)%list ->
  format_volume_name c k = Ok fk ->
  Forall (fun kv => format_volume_name c kv.1 <> Ok fk) post ->
  exists p fp,
    entry_path v = Some p /\ format_volume_name c p = Ok fp
    /\ dict_get fk b = Some {| bind := fp; mode := entry_mode v "ro" |}.
Proof.
  intros Hvb Hro Hk Hpost.
  unfold volume_binds, rbind in Hvb.
  destruct (_volumes_to_binds (format_volume_name c) (volumes c) [] "rw")
    as [b1|]; [|discriminate].
  rewrite Hro in Hvb.
  destruct (_volumes_to_binds_last _ _ _ _ _ _ _ _ _ Hvb Hk Hpost)
    as (p & fp & Hp & Hfp & Hget).
  exists p, fp. repeat split; assumption.
Qed.

(** X4: an entry of [volumes] decides the binding of its host path when no
    later entry of [volumes] and no entry of [read_only_volumes] formats to
    that path; its mode is its own ['mode'] or, without one, ['rw']. *)
Theorem volumes_entry_kept (c : Config) (b : odict bindval)
    (pre post : odict volval) (k : string) (v : volval) (fk : string) :
  volume_binds c = Ok b ->
  volumes c = (pre ++ (k, v) :: post)%list ->
  format_volume_name c k = Ok fk ->
  Forall (fun kv => format_volume_name c kv.1 <> Ok fk) post ->
  Forall (fun kv => format_volume_name c kv.1 <> Ok fk) (read_only_volumes c) ->
  exists p fp,
    entry_path v = Some p /\ format_volume_name c p = Ok fp
    /\ dict_get fk b = Some {| bind := fp; mode := entry_mode v "rw" |}.
Proof.
  intros Hvb Hv Hk Hpost Hro. unfold volume_binds, rbind in Hvb.
  destruct (_volumes_to_binds (format_volume_name c) (volumes c) [] "rw")
    as [b1|] eqn:H1; [|discriminate].
  rewrite Hv in H1.
  destruct (_volumes_to_binds_last _ _ _ _ _ _ _ _ _ H1 Hk Hpost)
    as (p & fp & Hp & Hfp & Hget).
  exists p, fp. repeat split; try assumption.
  rewrite (_volumes_to_binds_untouched _ _ _ _ _ _ Hvb Hro). exact Hget.
Qed.

Lemma _volumes_to_binds_needs_bind (_fmt : string -> result string) (vols : odict volval)
    (binds : odict bindval) (m : string) :
  (forall t, exists r, _fmt t = Ok r) ->
  (Forall (fun kv => entry_path kv.2 <> None) vols ->
     exists b, _volumes_to_binds _fmt vols binds m = Ok b)
  /\ (Exists (fun kv => entry_path kv.2 = None) vols ->
     _volumes_to_binds _fmt vols binds m = Raise (KeyError "bind")).
Proof.
  intros Htot. revert binds. induction vols as [|[k v] vols IH]; intros binds.
  - split; [intros _; eexists; reflexivity|]. intros Hex. inversion Hex.
  - rewrite _volumes_to_binds_cons. destruct (entry_path v) as [p|] eqn:Hp.
    + destruct (Htot p) as (fp & ->). destruct (Htot k) as (fk & ->). cbn.
      split.
      * intros Hall. apply Forall_cons in Hall as [_ Hall]. apply IH, Hall.
      * intros Hex. apply Exists_cons in Hex as [Hbad|Hex]; [cbn in Hbad; congruence|].
        apply IH, Hex.
    + split; [|reflexivity].
      intros Hall. apply Forall_cons in Hall as [Hbad _]. cbn in Hbad. congruence.
Qed.

Lemma all_or_some_without_bind (vols : odict volval) :
  Forall (fun kv => entry_path kv.2 <> None) vols
  \/ Exists (fun kv => entry_path kv.2 = None) vols.
Proof.
  induction vols as [|[k v] vols [IH|IH]].
  - left. constructor.
  - destruct (entry_path v) eqn:Hp.
    + left. constructor; [cbn; congruence | exact IH].
    + right. apply Exists_cons_hd. exact Hp.
  - right. apply Exists_cons_tl, IH.
Qed.

(** X5: when the naming function never fails, [volume_binds] returns a dict
    exactly when every dict-valued entry of [volumes] and
    [read_only_volumes] has a ['bind'] key; otherwise it raises
    [KeyError('bind')], and so does [mounts]. *)
Theorem volume_binds_needs_bind (c : Config) :
  (forall t, exists r, format_volume_name c t = Ok r) ->
  (Forall (fun kv => entry_path kv.2 <> None) (volumes c ++ read_only_volumes c)%list ->
     exists b, volume_binds c = Ok b)
  /\ (Exists (fun kv => entry_path kv.2 = None) (volumes c ++ read_only_volumes c)%list ->
     volume_binds c = Raise (KeyError "bind") /\ mounts c = Raise (KeyError "bind")).
Proof.
  intros Htot.
  split.
  - intros Hall. apply Forall_app in Hall as [H1 H2]. unfold volume_binds.
    destruct (proj1 (_volumes_to_binds_needs_bind _ (volumes c) [] "rw" Htot) H1)
      as (b1 & ->). cbn.
    exact (proj1 (_volumes_to_binds_needs_bind _ (read_only_volumes c) b1 "ro" Htot) H2).
  - intros Hex.
    assert (volume_binds c = Raise (KeyError "bind")) as Hvb.
    { unfold volume_binds.
      destruct (all_or_some_without_bind (volumes c)) as [Hgood|Hbad].
      - destruct (proj1 (_volumes_to_binds_needs_bind _ (volumes c) [] "rw" Htot) Hgood)
          as (b1 & ->). cbn.
        apply Exists_app in Hex as [Hex|Hex].
        + exfalso. apply Exists_exists in Hex as (kv & Hin & Hnone).
          rewrite Forall_forall in Hgood. exact (Hgood kv Hin Hnone).
        + exact (proj2 (_volumes_to_binds_needs_bind _ (read_only_volumes c) b1 "ro" Htot)
                   Hex).
      - rewrite (proj2 (_volumes_to_binds_needs_bind _ (volumes c) [] "rw" Htot) Hbad).
        reflexivity. }
    split; [exact Hvb|]. unfold mounts. rewrite Hvb. reflexivity.
Qed.

Lemma insert_sorted_perm (x : string) (l : list string) :
  Permutation (insert_sorted x l) (x :: l).
Proof.
  induction l as [|y l IH]; cbn; [reflexivity|].
  destruct (String.leb x y); [reflexivity|].
  rewrite IH. apply perm_swap.
Qed.

Lemma insert_sorted_sorted (x : string) (l : list string) :
  is_sorted l = true -> is_sorted (insert_sorted x l) = true.
Proof.
  induction l as [|y l IH]; intros Hs; [reflexivity|].
  cbn [insert_sorted]. destruct (String.leb x y) eqn:Hxy.
  - cbn. rewrite Hxy. exact Hs.
  - assert (String.leb y x = true) as Hyx
      by (destruct (String.leb_total x y); congruence).
    assert (is_sorted l = true) as Hl
      by (destruct l; [reflexivity | cbn in Hs; apply andb_true_iff in Hs; tauto]).
    specialize (IH Hl). destruct l as [|z l].
    + cbn. rewrite Hyx. reflexivity.
    + cbn in Hs. apply andb_true_iff in Hs as [Hyz _].
      cbn [insert_sorted] in *. destruct (String.leb x z).
      * cbn [is_sorted] in *. rewrite Hyx. exact IH.
      * cbn [is_sorted] in *. rewrite Hyz. exact IH.
Qed.

(** X6: [volume_mount_points], when [volume_binds] succeeds, is the list of
    the container paths of [volume_binds] rearranged into ascending order: it
    is sorted and a permutation of them. *)
Theorem volume_mount_points_sorted (c : Config) (l : list string) :
  volume_mount_points c = Ok l ->
  is_sorted l = true
  /\ exists b, volume_binds c = Ok b
               /\ Permutation l (List.map (fun kv => bind kv.2) b).
Proof.
  unfold volume_mount_points, rbind. destruct (volume_binds c) as [b|]; [|discriminate].
  intros [= <-]. split.
  - induction (List.map (fun kv => bind kv.2) b) as [|x xs IH]; [reflexivity|].
    cbn. apply insert_sorted_sorted, IH.
  - exists b. split; [reflexivity|].
    induction (List.map (fun kv => bind kv.2) b) as [|x xs IH]; [reflexivity|].
    cbn. rewrite insert_sorted_perm, IH. reflexivity.
Qed.

(** ** The hub address in the arguments *)

Lemma append_assoc' (a b c : string) : (a ++ b) ++ c = a ++ (b ++ c).
Proof.
  induction a as [|ch a IH]; [reflexivity|].
  rewrite !append_cons, IH. reflexivity.
Qed.

Lemma length_append' (a b : string) :
  String.length (a ++ b) = (String.length a + String.length b)%nat.
Proof.
  induction a as [|ch a IH]; [reflexivity|].
  rewrite append_cons. cbn [String.length]. rewrite IH. reflexivity.
Qed.

Lemma prefix_append (p v : string) : String.prefix p (p ++ v) = true.
Proof.
  induction p as [|a p IH]; [apply prefix_empty|].
  rewrite append_cons, prefix_cons. destruct (ascii_dec a a); [exact IH | congruence].
Qed.

Lemma substring_after_prefix (p v : string) :
  String.substring (String.length p) (String.length (p ++ v) - String.length p) (p ++ v) = v.
Proof.
  rewrite length_append'.
  replace (String.length p + String.length v - String.length p)%nat
    with (String.length v) by lia.
  induction p as [|a p IH]; [apply substring_all|].
  rewrite append_cons. exact IH.
Qed.

Lemma split_once_joins (sep s h t : string) :
  split_once sep s = Some (h, t) -> s = h ++ sep ++ t.
Proof.
  revert h t. induction s as [|ch s IH]; intros h t.
  - cbn [split_once]. destruct (String.prefix sep "") eqn:Hp; [|discriminate].
    intros [= <- <-]. apply prefix_split in Hp as (v & Hv).
    destruct sep; [|discriminate]. reflexivity.
  - rewrite split_once_cons. destruct (String.prefix sep (String ch s)) eqn:Hp.
    + intros Heq. apply prefix_split in Hp as (v & Hv).
      rewrite Hv in Heq |- *. rewrite substring_after_prefix in Heq.
      injection Heq as <- <-. reflexivity.
    + destruct (split_once sep s) as [[h' t']|]; [|discriminate].
      intros [= <- <-]. rewrite append_cons. f_equal. apply IH. reflexivity.
Qed.

Lemma split_once_none (sep s : string) :
  split_once sep s = None -> forall h t, s <> h ++ sep ++ t.
Proof.
  induction s as [|ch s IH]; intros Hn h t Heq.
  - cbn [split_once] in Hn. destruct (String.prefix sep "") eqn:Hp; [discriminate|].
    destruct h; [|discriminate]. destruct sep; [|discriminate].
    discriminate.
  - rewrite split_once_cons in Hn.
    destruct (String.prefix sep (String ch s)) eqn:Hp; [discriminate|].
    destruct (split_once sep s) as [[h' t']|] eqn:Hs; [discriminate|].
    destruct h as [|x h].
    + change ("" ++ sep ++ t) with (sep ++ t) in Heq.
      rewrite Heq, prefix_append in Hp. discriminate.
    + rewrite append_cons in Heq. injection Heq as -> Heq.
      exact (IH eq_refl h t Heq).
Qed.

Lemma split_once_first (ch : ascii) (sep' a b : string) :
  ascii_in ch a = false ->
  split_once (String ch sep') (a ++ String ch sep' ++ b) = Some (a, b).
Proof.
  induction a as [|x a IH]; intros Ha.
  - change ("" ++ String ch sep' ++ b) with (String ch (sep' ++ b)).
    rewrite split_once_cons.
    change (String ch (sep' ++ b)) with (String ch sep' ++ b).
    rewrite prefix_append, substring_after_prefix. reflexivity.
  - change (ascii_in ch (String x a)) with (Ascii.eqb ch x || ascii_in ch a) in Ha.
    apply orb_false_iff in Ha as [Hne Ha].
    rewrite append_cons, split_once_cons, (IH Ha).
    change (String ch sep' ++ b) with (String ch (sep' ++ b)).
    destruct a as [|y a].
    + change ("" ++ String ch (sep' ++ b)) with (String ch (sep' ++ b)).
      rewrite prefix_cons. destruct (ascii_dec ch x) as [->|]; [|reflexivity].
      rewrite Ascii.eqb_refl in Hne. discriminate.
    + rewrite append_cons, prefix_cons. destruct (ascii_dec ch x) as [->|]; [|reflexivity].
      rewrite Ascii.eqb_refl in Hne. discriminate.
Qed.

(** X8: [_public_hub_api_url] keeps the protocol and everything after the
    first colon of the address part, and puts [hub_ip_connect] in place of
    the host; it raises [ValueError], and nothing else, when the url has no
    [://] or no colon after it. *)
Theorem _public_hub_api_url_replaces_host (c : Config) :
  (forall proto host rest,
     hub_api_url c = proto ++ "://" ++ host ++ ":" ++ rest ->
     ascii_in ":" proto = false -> ascii_in ":" host = false ->
     _public_hub_api_url c = Ok (proto ++ "://" ++ hub_ip_connect c ++ ":" ++ rest))
  /\ (forall u, _public_hub_api_url c = Ok u ->
        exists proto host rest,
          hub_api_url c = proto ++ "://" ++ host ++ ":" ++ rest
          /\ u = proto ++ "://" ++ hub_ip_connect c ++ ":" ++ rest)
  /\ (forall e, _public_hub_api_url c = Raise e ->
        e = ValueError
        /\ forall proto host rest,
             hub_api_url c <> proto ++ "://" ++ host ++ ":" ++ rest
             \/ ascii_in ":" proto = true \/ ascii_in ":" host = true).
Proof.
  unfold _public_hub_api_url. split; [|split].
  - intros proto host rest Hurl Hp Hh. rewrite Hurl.
    rewrite (split_once_first ":" "//" proto (host ++ ":" ++ rest) Hp).
    rewrite (split_once_first ":" "" host rest Hh). reflexivity.
  - intros u Hu.
    destruct (split_once "://" (hub_api_url c)) as [[proto path]|] eqn:H1; [|discriminate].
    destruct (split_once ":" path) as [[host rest]|] eqn:H2; [|discriminate].
    injection Hu as <-. apply split_once_joins in H1, H2. subst path.
    exists proto, host, rest. split; [exact H1 | reflexivity].
  - intros e He.
    destruct (split_once "://" (hub_api_url c)) as [[proto path]|] eqn:H1.
    + destruct (split_once ":" path) as [[host rest]|] eqn:H2; [discriminate|].
      injection He as <-. split; [reflexivity|]. intros proto' host' rest'.
      destruct (ascii_in ":" proto') eqn:Hp; [auto|].
      destruct (ascii_in ":" host') eqn:Hh; [auto|]. left. intros Hurl.
      rewrite Hurl, (split_once_first ":" "//" proto' (host' ++ ":" ++ rest') Hp) in H1.
      injection H1 as <- <-.
      rewrite (split_once_first ":" "" host' rest' Hh) in H2. discriminate.
    + injection He as <-. split; [reflexivity|]. intros proto' host' rest'. left.
      apply (split_once_none _ _ H1).
Qed.

Lemma pop_hub_api_url_first (pre post : list string) (a : string) :
  Forall (fun x => startswith x "--hub-api-url=" = false) pre ->
  startswith a "--hub-api-url=" = true ->
  pop_hub_api_url (pre ++ a :: post) = (pre ++ post)%list.
Proof.
  intros Hpre Ha. induction pre as [|x pre IH]; cbn [pop_hub_api_url app].
  - rewrite Ha. reflexivity.
  - apply Forall_cons in Hpre as [Hx Hpre]. rewrite Hx, (IH Hpre). reflexivity.
Qed.

Lemma pop_hub_api_url_none (args : list string) :
  Forall (fun x => startswith x "--hub-api-url=" = false) args ->
  pop_hub_api_url args = args.
Proof.
  induction args as [|x args IH]; intros Hall; cbn [pop_hub_api_url]; [reflexivity|].
  apply Forall_cons in Hall as [Hx Hall]. rewrite Hx, (IH Hall). reflexivity.
Qed.

(** X9: without [hub_ip_connect], [get_args] returns the inherited
    arguments; with it, the first inherited argument that starts with
    [--hub-api-url=] is dropped (only the first), the others keep their
    order, and [--hub-api-url=] with the public url is appended; a failure of
    [_public_hub_api_url] is raised. *)
Theorem get_args_hub_api_url (c : Config) :
  (hub_ip_connect c = "" -> get_args c = Ok (inherited_args c))
  /\ (hub_ip_connect c <> "" ->
      (forall e, _public_hub_api_url c = Raise e -> get_args c = Raise e)
      /\ forall u, _public_hub_api_url c = Ok u ->
           (forall pre a post,
              inherited_args c = (pre ++ a :: post)%list ->
              Forall (fun x => startswith x "--hub-api-url=" = false) pre ->
              startswith a "--hub-api-url=" = true ->
              get_args c
              = Ok (pre ++ post ++ [String.append "--hub-api-url=" u])%list)
           /\ (Forall (fun x => startswith x "--hub-api-url=" = false) (inherited_args c) ->
               get_args c
               = Ok (inherited_args c ++ [String.append "--hub-api-url=" u])%list)).
Proof.
  unfold get_args. split.
  - intros ->. reflexivity.
  - intros Hne. destruct (String.eqb_spec (hub_ip_connect c) ""); [congruence|]. cbn.
    split.
    + intros e ->. reflexivity.
    + intros u ->. cbn. split.
      * intros pre a post Hargs Hpre Ha.
        rewrite Hargs, (pop_hub_api_url_first pre post a Hpre Ha), <- app_assoc.
        reflexivity.
      * intros Hall. rewrite (pop_hub_api_url_none _ Hall). reflexivity.
Qed.

(** ** More on identity and discovery *)

Section Identity.
Context {E : Type} {Eng : Engine E} {Fmt : StrFormat}.

(** X10: [escaped_name] never fails and never recomputes: what it returns
    is in the cache afterwards, a second evaluation returns the same and
    changes nothing, and a name that is already cached is returned as it is.
    Nothing but the cache is assigned. *)
Theorem escaped_name_is_cached (c : Config) (s : State E) :
  exists e s1,
    escaped_name c s = (Ok e, s1)
    /\ _escaped_name s1 = Some e
    /\ escaped_name c s1 = (Ok e, s1)
    /\ (forall e0, _escaped_name s = Some e0 -> e = e0 /\ s1 = s)
    /\ (_escaped_name s = None ->
        e = escape (user_name c) _service_safe_chars _service_escape_char)
    /\ service_id s1 = service_id s /\ api_token s1 = api_token s
    /\ engine s1 = engine s /\ calls s1 = calls s.
Proof.
  unfold escaped_name, bindM, get, modify, ret.
  destruct s as [sid tok [e0|] eng log]; cbn.
  - exists e0. eexists. split; [reflexivity|]. cbn. repeat split; congruence.
  - eexists. eexists. split; [reflexivity|]. cbn. repeat split; congruence.
Qed.

(** X11: [service_name] is repeatable: evaluated again in the state it
    left, it gives the same result, name or exception, and leaves that state;
    it assigns nothing but the cache of the escaped name and makes no
    call. *)
Theorem service_name_repeatable (c : Config) (s s1 : State E) (r : result string) :
  service_name c s = (r, s1) ->
  service_name c s1 = (r, s1)
  /\ service_id s1 = service_id s /\ api_token s1 = api_token s
  /\ engine s1 = engine s /\ calls s1 = calls s.
Proof.
  unfold service_name, escaped_name, bindM, get, modify, ret, lift.
  destruct s as [sid tok [e0|] eng log]; cbn; intros [= <- <-]; cbn; auto.
Qed.

End Identity.

Section MoreDiscovery.
Context {E : Type} {Eng : Engine E} {Fmt : StrFormat}.

(** X12: whatever the engine answers, [get_service] makes exactly one call,
    the inspect call for the service name, leaves [api_token] alone, and
    leaves [service_id] in agreement with its result: the ID of the service
    it returns, empty when it returns [None], unchanged when it raises. *)
Theorem get_service_result_and_id (c : Config) (s : State E) (n : string) :
  name_in c s = Ok n ->
  exists r s',
    get_service c s = (r, s')
    /\ calls s' = (calls s ++ [CallInspectService n])%list
    /\ engine s' = snd (inspect_service n (engine s))
    /\ api_token s' = api_token s
    /\ (forall svc, r = Ok (Some svc) ->
          service_id s' = ID svc
          /\ fst (inspect_service n (engine s)) = Ok svc)
    /\ (r = Ok None -> service_id s' = ""
          /\ (fst (inspect_service n (engine s)) = Raise (APIError 404)
              \/ fst (inspect_service n (engine s)) = Raise (APIError 500)))
    /\ (forall e, r = Raise e ->
          service_id s' = service_id s
          /\ fst (inspect_service n (engine s)) = Raise e).
Proof.
  intros Hn.
  destruct (inspect_service n (engine s)) as [[svc|e] e'] eqn:Hi.
  - destruct (get_service_found c s n svc e' Hn Hi) as (s' & -> & Hid & He & Hc & Ht & _).
    exists (Ok (Some svc)), s'. cbn. repeat split; try assumption; try congruence.
    all: intros; congruence.
  - destruct (decide (e = APIError 404 \/ e = APIError 500)) as [Hcode|Hcode].
    + assert (exists code, e = APIError code /\ (code = 404 \/ code = 500)) as (code & -> & Hc')
        by (destruct Hcode as [->| ->]; eexists; split; eauto).
      destruct (get_service_gone c s n code e' Hn Hi Hc') as (s' & -> & Hid & He & Hc & Ht & _).
      exists (Ok None), s'. cbn. repeat split; try assumption; try congruence.
      all: try (intros; congruence).
      destruct Hc' as [->| ->]; auto.
    + assert (e <> APIError 404) as H404 by tauto.
      assert (e <> APIError 500) as H500 by tauto.
      destruct (get_service_raises c s n e e' Hn Hi H404 H500)
        as (s' & -> & Hid & He & Hc & Ht & _).
      exists (Raise e), s'. cbn. repeat split; try assumption; try congruence.
      all: intros; congruence.
Qed.

Lemma get_task_failure (c : Config) (s : State E) (n : string)
    (e : exn) (e2 : E) :
  name_in c s = Ok n ->
  tasks n (snd (inspect_service n (engine s))) = (Raise e, e2) ->
  (e = APIError 404 -> fst (get_task c s) = Ok None)
  /\ (e <> APIError 404 -> fst (get_task c s) = Raise e).
Proof.
  intros Hn Ht.
  destruct (get_task_run c s n Hn) as (s1 & -> & He1 & _ & _ & Hn1).
  rewrite <- He1 in Ht. clear He1. revert Hn1 Ht.
  destruct s1 as [sid tok cache eng log]; destruct cache as [cached|];
    unfold name_in; cbn; intros Hn1 Ht.
  all: unfold list_tasks, try_except, bindM, service_name, escaped_name, bindM, get,
         modify, lift, ret, raise, docker; cbn; rewrite Hn1; cbn; rewrite Ht; cbn.
  all: split; [intros ->; cbn; rewrite Hn1; reflexivity|].
  all: intros Hne; destruct e as [code| | | | | | |]; try reflexivity.
  all: destruct (Z.eqb_spec code 404); [congruence | reflexivity].
Qed.

(** X13: when the task query itself fails, [get_task] returns [None] for
    status 404 and raises every other exception as the engine raised it. *)
Theorem get_task_on_engine_failure (c : Config) (s : State E) (n : string)
    (e : exn) (e2 : E) :
  name_in c s = Ok n ->
  tasks n (snd (inspect_service n (engine s))) = (Raise e, e2) ->
  (e = APIError 404 -> fst (get_task c s) = Ok None)
  /\ (e <> APIError 404 -> fst (get_task c s) = Raise e).
Proof.
  intros Hn Ht. destruct (get_task_failure c s n e e2 Hn Ht) as [H404 Hother].
  split; [exact H404 | exact Hother].
Qed.

Lemma get_task_answer (c : Config) (s : State E) (n : string) (ts : list Task) (e2 : E) :
  name_in c s = Ok n ->
  tasks n (snd (inspect_service n (engine s))) = (Ok ts, e2) ->
  fst (get_task c s) =
  match ts with
  | [] => Ok None
  | [task] => Ok (Some task)
  | _ :: _ :: _ => Raise (RuntimeError (more_than_one_msg n))
  end.
Proof.
  intros Hn Ht.
  destruct (get_task_run c s n Hn) as (s1 & -> & He1 & _ & _ & Hn1).
  rewrite <- He1 in Ht.
  destruct (list_tasks_answer c s1 n ts e2 Hn1 Ht) as (s' & _ & ->). reflexivity.
Qed.

(** X14: a service name that cannot be formatted stops every method before
    it reaches the engine: [get_service], [get_task], [start] and [stop]
    raise the formatting error and make no call. *)
Theorem unformattable_name_makes_no_call (c : Config) (s : State E) (e : exn)
    (image_arg : option string) (extra_arg : option (gmap string kwval)) :
  name_in c s = Raise e ->
  (fst (get_service c s) = Raise e /\ calls (snd (get_service c s)) = calls s)
  /\ (fst (get_task c s) = Raise e /\ calls (snd (get_task c s)) = calls s)
  /\ (fst (start c image_arg extra_arg s) = Raise e
      /\ calls (snd (start c image_arg extra_arg s)) = calls s)
  /\ (fst (stop c s) = Raise e /\ calls (snd (stop c s)) = calls s).
Proof.
  intros Hn. destruct s as [sid tok cache eng log]; destruct cache as [cached|];
    unfold name_in in Hn; cbn in Hn.
  all: unfold start, stop, get_task, get_service, try_except, bindM, service_name,
         escaped_name, bindM, get, modify, lift, ret, raise, docker; cbn.
  all: rewrite Hn; cbn; repeat split; reflexivity.
Qed.

Variable pformat_items : Task -> odict string.

(** X15: [poll] answers from the task query: [0] when it lists no task or
    fails with status 404, [None] when the one task listed is in state
    [running], and that task's printed items otherwise; more than one task
    and every other failure are raised.  It makes the calls of [get_task] and
    no other. *)
Theorem poll_outcomes (c : Config) (s : State E) (n : string) :
  name_in c s = Ok n ->
  let answer := fst (tasks n (snd (inspect_service n (engine s)))) in
  (answer = Ok [] \/ answer = Raise (APIError 404) ->
     fst (poll pformat_items c s) = Ok (PollInt 0))
  /\ (forall task, answer = Ok [task] ->
        fst (poll pformat_items c s)
        = Ok (if String.eqb (Status_State task) "running" then PollNone
              else PollItems (pformat_items task)))
  /\ (forall ts, answer = Ok ts -> (1 < List.length ts)%nat ->
        fst (poll pformat_items c s) = Raise (RuntimeError (more_than_one_msg n)))
  /\ (forall e, answer = Raise e -> e <> APIError 404 ->
        fst (poll pformat_items c s) = Raise e)
  /\ calls (snd (poll pformat_items c s))
     = (calls s ++ [CallInspectService n; CallTasks n])%list.
Proof.
  intros Hn answer. subst answer.
  destruct (tasks n (snd (inspect_service n (engine s)))) as [r e2] eqn:Ht. cbn.
  assert (calls (snd (get_task c s)) = (calls s ++ [CallInspectService n; CallTasks n])%list)
    as Hcalls.
  { destruct (get_task_run c s n Hn) as (s1 & -> & _ & Hc1 & _ & Hn1).
    destruct (list_tasks_calls c s1 n Hn1) as (r' & s' & -> & Hc). cbn.
    rewrite Hc, Hc1, <- app_assoc. reflexivity. }
  assert (calls (snd (poll pformat_items c s)) = calls (snd (get_task c s))) as Hpc.
  { unfold poll, bindM, ret. destruct (get_task c s) as [[[task|]|e] s']; cbn;
      try reflexivity. destruct (String.eqb (Status_State task) "running"); reflexivity. }
  assert (forall g, fst (get_task c s) = g ->
            fst (poll pformat_items c s)
            = match g with
              | Ok None => Ok (PollInt 0)
              | Ok (Some task) =>
                  Ok (if String.eqb (Status_State task) "running" then PollNone
                      else PollItems (pformat_items task))
              | Raise e => Raise e
              end) as Hpoll.
  { intros g <-. unfold poll, bindM, ret.
    destruct (get_task c s) as [[[task|]|e] s']; cbn; try reflexivity.
    destruct (String.eqb (Status_State task) "running"); reflexivity. }
  split; [|split; [|split; [|split]]].
  - intros [-> | ->].
    + exact (Hpoll _ (get_task_answer c s n [] e2 Hn Ht)).
    + exact (Hpoll _ (proj1 (get_task_failure c s n _ e2 Hn Ht) eq_refl)).
  - intros task ->. exact (Hpoll _ (get_task_answer c s n [task] e2 Hn Ht)).
  - intros ts -> Hlen. rewrite (Hpoll _ (get_task_answer c s n ts e2 Hn Ht)).
    destruct ts as [|t [|t' ts]]; cbn in Hlen; [lia | lia | reflexivity].
  - intros e -> Hne. exact (Hpoll _ (proj2 (get_task_failure c s n e e2 Hn Ht) Hne)).
  - rewrite Hpc. exact Hcalls.
Qed.

End MoreDiscovery.

(** ** What the methods leave alone *)

Section Invariants.
Context {E : Type} {Eng : Engine E} {Fmt : StrFormat}.
Context {B : Type} (f : State E -> B) (c : Config).

(** The observation does not change when the escaped name is cached, nor
    with the engine, the call log or [service_id]. *)
Hypothesis f_cache : forall s,
  _escaped_name s = None ->
  f (set_escaped_name
       (Some (escape (user_name c) _service_safe_chars _service_escape_char)) s)
  = f s.
Hypothesis f_engine : forall e s, f (set_engine e s) = f s.
Hypothesis f_log : forall k s, f (log_call k s) = f s.
Hypothesis f_id : forall v s, f (set_service_id v s) = f s.

Lemma keeps_ret {A : Type} (a : A) : keeps f (ret a).
Proof. intros s. reflexivity. Qed.

Lemma keeps_raise {A : Type} (e : exn) : keeps f (raise (A:=A) e).
Proof. intros s. reflexivity. Qed.

Lemma keeps_lift {A : Type} (r : result A) : keeps f (lift r).
Proof. intros s. reflexivity. Qed.

Lemma keeps_get {A : Type} (g : State E -> A) : keeps f (get g).
Proof. intros s. reflexivity. Qed.

Lemma keeps_docker {A : Type} (k : Call) (method : E -> result A * E) :
  keeps f (docker k method).
Proof.
  intros s. unfold docker. destruct (method (engine s)) as [r e']. cbn.
  rewrite f_engine, f_log. reflexivity.
Qed.

Lemma keeps_bind {A A' : Type} (m : State E -> result A * State E)
    (k : A -> State E -> result A' * State E) :
  keeps f m -> (forall a, keeps f (k a)) -> keeps f (bindM m k).
Proof.
  intros Hm Hk s. unfold bindM. specialize (Hm s).
  destruct (m s) as [[a|e] s1]; cbn in *; [|exact Hm].
  rewrite (Hk a s1). exact Hm.
Qed.

Lemma keeps_try {A : Type} (m : State E -> result A * State E)
    (h : exn -> State E -> result A * State E) :
  keeps f m -> (forall e, keeps f (h e)) -> keeps f (try_except m h).
Proof.
  intros Hm Hh s. unfold try_except. specialize (Hm s).
  destruct (m s) as [[a|e] s1]; cbn in *; [exact Hm|].
  rewrite (Hh e s1). exact Hm.
Qed.

Lemma keeps_service_name : keeps f (service_name c).
Proof.
  intros s. unfold service_name, escaped_name, bindM, get, modify, lift, ret.
  destruct (_escaped_name s) eqn:Hc; cbn; [reflexivity | apply f_cache, Hc].
Qed.

Lemma keeps_call_coroutine {A : Type} (m : State E -> result A * State E) :
  keeps f m -> keeps f (call_coroutine m).
Proof.
  intros Hm s. unfold call_coroutine. specialize (Hm s).
  destruct (m s) as [r s1]. exact Hm.
Qed.

Lemma keeps_set_service_id (v : string) : keeps f (modify (set_service_id v)).
Proof. intros s. apply f_id. Qed.

Lemma keeps_log_call (k : Call) : keeps f (modify (log_call k)).
Proof. intros s. apply f_log. Qed.

Ltac keeps_tac :=
  repeat first
    [ apply keeps_ret | apply keeps_raise | apply keeps_lift | apply keeps_get
    | apply keeps_service_name | apply keeps_docker
    | apply keeps_set_service_id | apply keeps_log_call
    | apply keeps_bind; [|intros ?]
    | apply keeps_try; [|intros ?]
    | apply keeps_call_coroutine
    | match goal with
      | |- keeps _ (match ?x with _ => _ end) => destruct x
      | |- keeps _ (if ?x then _ else _) => destruct x
      end ].

Lemma keeps_get_service : keeps f (get_service c).
Proof. unfold get_service. keeps_tac. Qed.

Lemma keeps_get_task : keeps f (get_task c).
Proof. unfold get_task, list_tasks, get_service. keeps_tac. Qed.

Lemma keeps_poll (pformat_items : Task -> odict string) :
  keeps f (poll pformat_items c).
Proof. unfold poll, get_task, list_tasks, get_service. keeps_tac. Qed.

Lemma keeps_create_branch (image_arg : option string)
    (extra_arg : option (gmap string kwval)) :
  keeps f (create_branch c image_arg extra_arg).
Proof. unfold create_branch, build_create_kwargs. keeps_tac. Qed.

(** [start] as well, as soon as the loop of the reuse branch keeps the
    observation. *)
Lemma keeps_start (image_arg : option string) (extra_arg : option (gmap string kwval)) :
  (forall env, keeps f (reuse_api_token env)) ->
  keeps f (start c image_arg extra_arg).
Proof.
  intros Hreuse. unfold start, get_ip_and_port. keeps_tac.
  all: first [apply keeps_get_service | apply keeps_create_branch | apply Hreuse].
Qed.

End Invariants.

Section Repeat.
Context {E : Type} {Eng : Engine E} {Fmt : StrFormat}.

Lemma service_name_repeat (c : Config) (s s1 : State E) (r : result string) :
  service_name c s = (r, s1) -> service_name c s1 = (r, s1).
Proof.
  unfold service_name, escaped_name, bindM, get, modify, ret, lift.
  destruct s as [sid tok [e0|] eng log]; cbn; intros [= <- <-]; reflexivity.
Qed.

End Repeat.

Section WhatStartReturns.
Context {E : Type} {Eng : Engine E} {Fmt : StrFormat}.

Lemma name_in_warm (c : Config) (s : State E) :
  _escaped_name s = None ->
  name_in c (set_escaped_name
               (Some (escape (user_name c) _service_safe_chars _service_escape_char)) s)
  = name_in c s.
Proof.
  intros Hc. unfold name_in, service_name, escaped_name, bindM, get, modify, lift, ret.
  cbn. rewrite Hc. reflexivity.
Qed.

Lemma keeps_name_reuse_api_token (c : Config) (env : list string) :
  keeps (E:=E) (name_in c) (reuse_api_token env).
Proof.
  induction env as [|line env IH]; cbn [reuse_api_token].
  - intros s. reflexivity.
  - destruct (startswith line "JPY_API_TOKEN=" || startswith line "JUPYTERHUB_API_TOKEN=");
      [|exact IH].
    destruct (split_once "=" line) as [[k v]|]; intros s; cbn;
      [apply name_in_ext; reflexivity | reflexivity].
Qed.

Lemma keeps_name_start (c : Config) (image_arg : option string)
    (extra_arg : option (gmap string kwval)) :
  keeps (E:=E) (name_in c) (start c image_arg extra_arg).
Proof.
  apply keeps_start.
  - apply name_in_warm.
  - intros e s. apply name_in_ext. reflexivity.
  - intros k s. apply name_in_ext. reflexivity.
  - intros v s. apply name_in_ext. reflexivity.
  - apply keeps_name_reuse_api_token.
Qed.

(** X20: whenever [start] returns, it returns the service name and the
    configured port, whichever branch it took and whatever the engine
    answered; the name is the one the spawner had before the call and still
    has after it. *)
Theorem start_returns_name_and_port (c : Config) (image_arg : option string)
    (extra_arg : option (gmap string kwval)) (s s' : State E)
    (ip : string) (p : Z) :
  start c image_arg extra_arg s = (Ok (ip, p), s') ->
  p = port c /\ name_in c s = Ok ip /\ name_in c s' = Ok ip.
Proof.
  intros Hstart. pose proof (keeps_name_start c image_arg extra_arg s) as Hkeep.
  rewrite Hstart in Hkeep. cbn in Hkeep. rewrite <- Hkeep.
  revert Hstart. unfold start. unfold bindM at 1.
  destruct (get_service c s) as [[service|] s1]; [|discriminate].
  unfold bindM at 1.
  match goal with
  | |- context [match ?m s1 with _ => _ end] =>
      destruct (m s1) as [[service'|] s2]; [|discriminate]
  end.
  unfold bindM at 1.
  match goal with
  | |- context [match ?m s2 with _ => _ end] =>
      destruct (m s2) as [[u|] s3]; [|discriminate]
  end.
  unfold bindM at 1.
  destruct (service_name c s3) as [[n0|] s4]; [|discriminate].
  unfold get_ip_and_port, bindM, ret.
  destruct (service_name c s4) as [[n1|] s5] eqn:Hs4; [|discriminate].
  intros [= <- <- <-].
  pose proof (service_name_repeat c s4 s5 (Ok n1) Hs4) as Hagain.
  unfold name_in. rewrite Hagain. auto.
Qed.

(** [stop] leaves [api_token] alone when it raises; when it returns, the
    inherited [clear_state] has set it to the empty string. *)
Lemma stop_api_token (c : Config) (s : State E) :
  api_token (snd (stop c s))
  = match fst (stop c s) with
    | Ok _ => ""
    | Raise _ => api_token s
    end.
Proof.
  pose proof (keeps_service_name api_token c ltac:(reflexivity) s) as Hname.
  unfold stop, clear_state, bindM, get, docker, modify.
  destruct (service_name c s) as [[n|e] s1]; cbn in Hname; [|exact Hname].
  destruct (remove_service (service_id s1) (engine s1)) as [[[]|e] e1]; cbn;
    [reflexivity | exact Hname].
Qed.

(** X21: [api_token] is assigned in two places only, the reuse branch of
    [start] and the inherited [clear_state] that [stop] calls:
    [get_service], [get_task], [poll] and the create branch of [start] leave
    it as it is, whether they return or raise; [stop] leaves it as it is
    when it raises and leaves the empty string when it returns. *)
Theorem api_token_assignments (c : Config) (s : State E)
    (pformat_items : Task -> odict string) (image_arg : option string)
    (extra_arg : option (gmap string kwval)) :
  api_token (snd (get_service c s)) = api_token s
  /\ api_token (snd (get_task c s)) = api_token s
  /\ api_token (snd (poll pformat_items c s)) = api_token s
  /\ api_token (snd (create_branch c image_arg extra_arg s)) = api_token s
  /\ api_token (snd (stop c s))
     = match fst (stop c s) with
       | Ok _ => ""
       | Raise _ => api_token s
       end.
Proof.
  repeat split.
  - apply (keeps_get_service api_token c); reflexivity.
  - apply (keeps_get_task api_token c); reflexivity.
  - apply (keeps_poll api_token c); reflexivity.
  - apply (keeps_create_branch api_token c); reflexivity.
  - apply stop_api_token.
Qed.

End WhatStartReturns.

(** ** The create branch of [start] *)

Lemma default_create_kwargs_dom (c : Config) (n : string) (ms : list Mount)
    (args : list string) (cl cr : option Z) :
  let ck := default_create_kwargs c n ms args cl cr in
  remaining_keys ck = ∅ /\ slice _endpoint_spec_keys ck = ∅
  /\ ck !! "name" = Some (KStr n).
Proof.
  cbv zeta. unfold default_create_kwargs.
  assert (forall ck : gmap string kwval, ck !! "ports" = None ->
          slice _endpoint_spec_keys ck = ∅) as Hports.
  { intros ck Hp. apply map_eq. intros k. rewrite lookup_empty.
    destruct (slice _endpoint_spec_keys ck !! k) as [v|] eqn:Hk; [|reflexivity].
    apply slice_lookup in Hk as [Hk Hin].
    apply list_elem_of_singleton in Hin. congruence. }
  destruct (_user_set_cmd c); [destruct (cmd c) as [|x l]|].
  all: split; [|split; [apply Hports|]]; try (simplify_map_eq; reflexivity).
  all: unfold remaining_keys; rewrite !dom_insert_L, dom_empty_L;
    apply (bool_decide_unpack _); vm_compute; exact I.
Qed.

Lemma default_create_kwargs_slices (c : Config) (n : string) (ms : list Mount)
    (args : list string) (cl cr : option Z) :
  let tt := task_template_of (default_create_kwargs c n ms args cl cr) in
  container_spec tt !! "image" = Some (KStr (image c))
  /\ container_spec tt !! "env" = Some (KEnv (inherited_env c))
  /\ container_spec tt !! "mounts" = Some (KMounts ms)
  /\ container_spec tt !! "args" = Some (KStrList args)
  /\ container_spec tt !! "command"
     = (if _user_set_cmd c then
          match cmd c with
          | [] => None
          | x :: l => Some (KStrList (x :: l))
          end
        else None)
  /\ container_spec tt !! "name" = None
  /\ resources tt !! "mem_limit" = Some (kw_of_option_int (mem_limit c))
  /\ resources tt !! "mem_reservation" = Some (kw_of_option_int (mem_guarantee c))
  /\ resources tt !! "cpu_limit" = Some (kw_of_option_int cl)
  /\ resources tt !! "cpu_reservation" = Some (kw_of_option_int cr)
  /\ task_kwargs tt !! "networks"
     = Some (KStrList (if String.eqb (network_name c) "" then [] else [network_name c]))
  /\ force_update tt = 1.
Proof.
  cbv zeta. unfold task_template_of, default_create_kwargs. cbn [container_spec resources
    task_kwargs force_update].
  assert (forall keys (ck : gmap string kwval) k v,
            ck !! k = Some v -> bool_decide (k ∈ keys) = true ->
            slice keys ck !! k = Some v) as Hin.
  { intros keys ck k v Hk Hd. apply slice_lookup. split; [exact Hk|].
    apply bool_decide_eq_true in Hd. exact Hd. }
  assert (forall keys (ck : gmap string kwval) k,
            ck !! k = None \/ bool_decide (k ∈ keys) = false ->
            slice keys ck !! k = None) as Hout.
  { intros keys ck k Hk. destruct (slice keys ck !! k) as [v|] eqn:Hs; [|reflexivity].
    apply slice_lookup in Hs as [Hs Hd]. destruct Hk as [Hk|Hk]; [congruence|].
    apply bool_decide_eq_false in Hk. tauto. }
  destruct (_user_set_cmd c); [destruct (cmd c) as [|x l]|].
  all: repeat split.
  all: try (apply Hin; [simplify_map_eq; reflexivity | vm_compute; reflexivity]).
  all: try (apply Hout; left; simplify_map_eq; reflexivity).
  all: try (apply Hout; right; vm_compute; reflexivity).
Qed.

Section CreateBranch.
Context {E : Type} {Eng : Engine E} {Fmt : StrFormat}.

Lemma build_create_kwargs_default (c : Config) (s : State E) (n : string)
    (ms : list Mount) (args : list string) (cl cr : option Z) :
  name_in c s = Ok n ->
  mounts c = Ok ms -> get_args c = Ok args ->
  cpu_nano (cpu_limit c) = Ok cl -> cpu_nano (cpu_guarantee c) = Ok cr ->
  extra_create_kwargs c = ∅ ->
  exists s1,
    build_create_kwargs c None None s
    = (Ok (default_create_kwargs c n ms args cl cr), s1)
    /\ service_id s1 = service_id s /\ engine s1 = engine s
    /\ calls s1 = calls s /\ api_token s1 = api_token s
    /\ name_in c s1 = Ok n.
Proof.
  intros Hn Hms Hargs Hcl Hcr Hextra.
  destruct (service_name_run c s n Hn) as (s1 & Hs1 & Hid & He & Hc & Ht & Hn1).
  exists s1. split; [|auto].
  unfold build_create_kwargs, bindM, lift, ret. rewrite Hms, Hs1, Hargs, Hcl, Hcr, Hextra.
  unfold default_create_kwargs.
  destruct (_user_set_cmd c); [destruct (cmd c) as [|x l]|];
    rewrite (left_id_L ∅ (∪)); reflexivity.
Qed.

(** What the create branch does once the keyword arguments are the default
    ones: one create call, and [service_id] set from its answer. *)
Lemma create_branch_default (c : Config) (s : State E) (n : string)
    (ms : list Mount) (args : list string) (cl cr : option Z)
    (r : result string) (e2 : E) :
  name_in c s = Ok n ->
  mounts c = Ok ms -> get_args c = Ok args ->
  cpu_nano (cpu_limit c) = Ok cl -> cpu_nano (cpu_guarantee c) = Ok cr ->
  extra_create_kwargs c = ∅ ->
  create_service (task_template_of (default_create_kwargs c n ms args cl cr))
    ∅ (KStr n) (engine s) = (r, e2) ->
  exists s2,
    create_branch c None None s
    = (match r with Ok _ => Ok tt | Raise e => Raise e end, s2)
    /\ service_id s2 = match r with Ok id => id | Raise _ => service_id s end
    /\ engine s2 = e2
    /\ calls s2 = (calls s ++ [CallCreateService
                                 (task_template_of (default_create_kwargs c n ms args cl cr))
                                 ∅ (KStr n)])%list
    /\ api_token s2 = api_token s
    /\ name_in c s2 = Ok n.
Proof.
  intros Hn Hms Hargs Hcl Hcr Hextra Hcreate.
  destruct (build_create_kwargs_default c s n ms args cl cr Hn Hms Hargs Hcl Hcr Hextra)
    as (s1 & Hb & Hid1 & He1 & Hc1 & Ht1 & Hn1).
  destruct (default_create_kwargs_dom c n ms args cl cr) as (Hrem & Hep & Hname).
  cbv zeta in Hrem, Hep, Hname.
  unfold create_branch, bindM at 1. rewrite Hb.
  unfold bindM, modify, ret, docker, raise.
  rewrite Hname, Hep. fold (task_template_of (default_create_kwargs c n ms args cl cr)).
  destruct (decide (remaining_keys (default_create_kwargs c n ms args cl cr) = ∅));
    [|congruence].
  rewrite He1, Hcreate. destruct r as [id|err]; cbn.
  - match goal with
    | |- context [service_name c ?st] =>
        destruct (service_name_run c st n) as (s2 & Hs2 & Hid2 & He2 & Hc2 & Ht2 & Hn2);
          [rewrite <- Hn1; apply name_in_ext; reflexivity|]
    end.
    rewrite Hs2. exists s2. split; [reflexivity|]. cbn in *.
    rewrite Hid2, He2, Hc2, Ht2, Hc1, Ht1. auto.
  - eexists. split; [reflexivity|]. cbn. rewrite Hid1, Hc1, Ht1. repeat split; auto.
    rewrite <- Hn1. apply name_in_ext. reflexivity.
Qed.

Lemma mounts_no_volumes (c : Config) :
  volumes c = [] -> read_only_volumes c = [] -> mounts c = Ok [].
Proof.
  intros Hv Hr. unfold mounts, volume_binds. rewrite Hv, Hr. reflexivity.
Qed.

(** X16: with no volume configured and no extra keyword arguments, on a
    service that is absent (inspect answers 404 or 500), [start] makes one
    create call after the inspect call, named after the service, with an
    empty endpoint spec and no unused key; the container spec carries the
    configured image, the inherited environment, an empty mount list and the
    arguments, the task spec the network, and the key [name] is in no slice.
    [start] then returns the service name and the port, keeps the ID the
    engine answered in [service_id], and leaves [api_token] alone. *)
Theorem start_creates_absent_service (c : Config) (s : State E) (n : string)
    (code : Z) (e1 e2 : E) (args : list string)
    (cl cr : option Z) (id : string) :
  name_in c s = Ok n ->
  inspect_service n (engine s) = (Raise (APIError code), e1) ->
  code = 404 \/ code = 500 ->
  volumes c = [] -> read_only_volumes c = [] ->
  get_args c = Ok args ->
  cpu_nano (cpu_limit c) = Ok cl -> cpu_nano (cpu_guarantee c) = Ok cr ->
  extra_create_kwargs c = ∅ ->
  create_service (task_template_of (default_create_kwargs c n [] args cl cr))
    ∅ (KStr n) e1 = (Ok id, e2) ->
  exists s' task_template,
    start c None None s = (Ok (n, port c), s')
    /\ service_id s' = id /\ engine s' = e2 /\ api_token s' = api_token s
    /\ calls s' = (calls s ++ [CallInspectService n;
                               CallCreateService task_template ∅ (KStr n)])%list
    /\ container_spec task_template !! "image" = Some (KStr (image c))
    /\ container_spec task_template !! "env" = Some (KEnv (inherited_env c))
    /\ container_spec task_template !! "mounts" = Some (KMounts [])
    /\ container_spec task_template !! "args" = Some (KStrList args)
    /\ container_spec task_template !! "name" = None
    /\ resources task_template !! "cpu_limit" = Some (kw_of_option_int cl)
    /\ resources task_template !! "mem_limit" = Some (kw_of_option_int (mem_limit c))
    /\ task_kwargs task_template !! "networks"
       = Some (KStrList (if String.eqb (network_name c) "" then []
                         else [network_name c])).
Proof.
  intros Hn Hi Hcode Hv Hro Hargs Hcl Hcr Hextra Hcreate.
  pose proof (mounts_no_volumes c Hv Hro) as Hms.
  destruct (get_service_gone c s n code e1 Hn Hi Hcode)
    as (s1 & Hg & Hid1 & He1 & Hc1 & Ht1 & Hn1).
  rewrite <- He1 in Hcreate.
  destruct (create_branch_default c s1 n [] args cl cr (Ok id) e2
              Hn1 Hms Hargs Hcl Hcr Hextra Hcreate)
    as (s2 & Hcb & Hid2 & He2 & Hc2 & Ht2 & Hn2).
  destruct (service_name_run c s2 n Hn2) as (s3 & Hs3 & Hid3 & He3 & Hc3 & Ht3 & Hn3).
  destruct (service_name_run c s3 n Hn3) as (s4 & Hs4 & Hid4 & He4 & Hc4 & Ht4 & Hn4).
  destruct (default_create_kwargs_slices c n [] args cl cr)
    as (Himg & Henv & Hmounts & Hargs' & _ & Hname & Hml & _ & Hcpul & _ & Hnet & _).
  cbv zeta in *.
  exists s4, (task_template_of (default_create_kwargs c n [] args cl cr)).
  split; [|repeat split; try assumption; try congruence].
  - unfold start, get_ip_and_port, bindM. rewrite Hg. cbn. rewrite Hcb, Hs3, Hs4.
    reflexivity.
  - rewrite Hc4, Hc3, Hc2, Hc1, <- app_assoc. reflexivity.
Qed.

(** X17: with no volume configured, when that create call raises, [start]
    raises the same exception and [service_id] is left empty, so nothing is
    recorded for a service that was not created. *)
Theorem start_create_failure_leaves_no_id (c : Config) (s : State E) (n : string)
    (code : Z) (e1 e2 : E) (args : list string)
    (cl cr : option Z) (err : exn) :
  name_in c s = Ok n ->
  inspect_service n (engine s) = (Raise (APIError code), e1) ->
  code = 404 \/ code = 500 ->
  volumes c = [] -> read_only_volumes c = [] ->
  get_args c = Ok args ->
  cpu_nano (cpu_limit c) = Ok cl -> cpu_nano (cpu_guarantee c) = Ok cr ->
  extra_create_kwargs c = ∅ ->
  create_service (task_template_of (default_create_kwargs c n [] args cl cr))
    ∅ (KStr n) e1 = (Raise err, e2) ->
  exists s',
    start c None None s = (Raise err, s')
    /\ service_id s' = "" /\ api_token s' = api_token s
    /\ calls s' = (calls s ++ [CallInspectService n;
                               CallCreateService
                                 (task_template_of
                                    (default_create_kwargs c n [] args cl cr))
                                 ∅ (KStr n)])%list.
Proof.
  intros Hn Hi Hcode Hv Hro Hargs Hcl Hcr Hextra Hcreate.
  pose proof (mounts_no_volumes c Hv Hro) as Hms.
  destruct (get_service_gone c s n code e1 Hn Hi Hcode)
    as (s1 & Hg & Hid1 & He1 & Hc1 & Ht1 & Hn1).
  rewrite <- He1 in Hcreate.
  destruct (create_branch_default c s1 n [] args cl cr (Raise err) e2
              Hn1 Hms Hargs Hcl Hcr Hextra Hcreate)
    as (s2 & Hcb & Hid2 & He2 & Hc2 & Ht2 & Hn2).
  exists s2. split; [|repeat split; try congruence].
  - unfold start, bindM. rewrite Hg. cbn. rewrite Hcb. reflexivity.
  - rewrite Hc2, Hc1, <- app_assoc. reflexivity.
Qed.

(** X28: with a volume configured whose paths format, [start] on an absent
    service never reaches the engine's create call: building the mounts
    raises [InvalidArgument] right after the inspect call, and [service_id]
    is left empty. *)
Theorem start_with_volume_never_creates (c : Config) (image_arg : option string)
    (extra_arg : option (gmap string kwval)) (s : State E) (n : string)
    (code : Z) (e1 : E) (b : odict bindval) :
  name_in c s = Ok n ->
  inspect_service n (engine s) = (Raise (APIError code), e1) ->
  code = 404 \/ code = 500 ->
  volume_binds c = Ok b ->
  volumes c <> [] \/ read_only_volumes c <> [] ->
  exists s', start c image_arg extra_arg s = (Raise InvalidArgument, s')
    /\ service_id s' = ""
    /\ calls s' = (calls s ++ [CallInspectService n])%list.
Proof.
  intros Hn Hi Hcode Hb Hcfg.
  destruct (get_service_gone c s n code e1 Hn Hi Hcode)
    as (s1 & Hg & Hid1 & He1 & Hc1 & Ht1 & Hn1).
  assert (mounts c = Raise InvalidArgument) as Hms.
  { pose proof (volume_binds_nonempty c b Hb Hcfg) as Hne.
    rewrite mounts_by_volume_binds, Hb. destruct b; [congruence | reflexivity]. }
  exists s1. split; [|split; congruence].
  unfold start, bindM at 1. rewrite Hg. cbn. unfold bindM at 1.
  unfold create_branch, bindM at 1.
  unfold build_create_kwargs, bindM at 1. unfold lift. rewrite Hms. reflexivity.
Qed.

(** X18: with [remove_services] on, a service that [start] finds is removed
    by the ID the inspect call just answered, not by the ID stored before.
    When that remove call raises, [start] raises the same exception without
    a create call; when it returns, [start] goes on to create the service and
    does not take over the old service's token. *)
Theorem start_removes_found_service (c : Config) (s : State E) (n : string)
    (svc : Service) (e1 e2 : E) (r : result unit) :
  name_in c s = Ok n ->
  inspect_service n (engine s) = (Ok svc, e1) ->
  remove_services c = true ->
  remove_service (ID svc) e1 = (r, e2) ->
  (forall err, r = Raise err ->
     exists s', start c None None s = (Raise err, s')
       /\ service_id s' = ID svc
       /\ calls s' = (calls s ++ [CallInspectService n;
                                  CallRemoveService (ID svc)])%list)
  /\ (forall ms args cl cr id e3,
        r = Ok tt ->
        mounts c = Ok ms -> get_args c = Ok args ->
        cpu_nano (cpu_limit c) = Ok cl -> cpu_nano (cpu_guarantee c) = Ok cr ->
        extra_create_kwargs c = ∅ ->
        create_service (task_template_of (default_create_kwargs c n ms args cl cr))
          ∅ (KStr n) e2 = (Ok id, e3) ->
        exists s', start c None None s = (Ok (n, port c), s')
          /\ service_id s' = id /\ api_token s' = api_token s
          /\ calls s' = (calls s ++ [CallInspectService n;
                                     CallRemoveService (ID svc);
                                     CallCreateService
                                       (task_template_of
                                          (default_create_kwargs c n ms args cl cr))
                                       ∅ (KStr n)])%list).
Proof.
  intros Hn Hi Hrm Hr.
  destruct (get_service_found c s n svc e1 Hn Hi)
    as (s1 & Hg & Hid1 & He1 & Hc1 & Ht1 & Hn1).
  destruct (service_name_run c s1 n Hn1) as (s2 & Hs2 & Hid2 & He2 & Hc2 & Ht2 & Hn2).
  split.
  - intros err ->. eexists. split.
    + unfold start, bindM, get, docker. rewrite Hg, Hrm. cbn. rewrite Hs2.
      rewrite Hid2, Hid1, He2, He1, Hr. reflexivity.
    + cbn. split; [congruence|]. rewrite Hc2, Hc1, <- app_assoc. reflexivity.
  - intros ms args cl cr id e3 -> Hms Hargs Hcl Hcr Hextra Hcreate.
    set (s3 := set_engine e2 (log_call (CallRemoveService (ID svc)) s2)).
    assert (name_in c s3 = Ok n) as Hn3
      by (rewrite <- Hn2; apply name_in_ext; reflexivity).
    assert (engine s3 = e2) as He3 by reflexivity.
    rewrite <- He3 in Hcreate.
    destruct (create_branch_default c s3 n ms args cl cr (Ok id) e3
                Hn3 Hms Hargs Hcl Hcr Hextra Hcreate)
      as (s4 & Hcb & Hid4 & He4 & Hc4 & Ht4 & Hn4).
    destruct (service_name_run c s4 n Hn4) as (s5 & Hs5 & Hid5 & He5 & Hc5 & Ht5 & Hn5).
    destruct (service_name_run c s5 n Hn5) as (s6 & Hs6 & Hid6 & He6 & Hc6 & Ht6 & Hn6).
    exists s6. split; [|repeat split].
    + unfold start, get_ip_and_port, bindM, get, docker. rewrite Hg, Hrm. cbn.
      rewrite Hs2. rewrite Hid2, Hid1, He2, He1, Hr. cbn.
      fold s3. rewrite Hcb, Hs5, Hs6. reflexivity.
    + congruence.
    + rewrite Ht6, Ht5, Ht4. subst s3. cbn. congruence.
    + rewrite Hc6, Hc5, Hc4. subst s3. cbn. rewrite Hc2, Hc1, <- !app_assoc. reflexivity.
Qed.

(** X19: a service record without ['Config'], or whose ['Config'] has no
    ['Env'], makes the reuse branch of [start] raise the [KeyError] of the
    missing key -- ['Config'] in the first case, ['Env'] in the second --
    after the inspect call; no other call is made and [api_token] is
    unchanged. *)
Theorem start_reuse_needs_config_env (c : Config) (image_arg : option string)
    (extra_arg : option (gmap string kwval)) (s : State E) (n : string)
    (svc : Service) (e1 : E) :
  name_in c s = Ok n ->
  inspect_service n (engine s) = (Ok svc, e1) ->
  remove_services c = false ->
  Config_Env svc = None ->
  exists s',
    start c image_arg extra_arg s
    = (Raise (KeyError (match Service_Config svc with
                        | Some _ => "Env"
                        | None => "Config"
                        end)), s')
    /\ service_id s' = ID svc /\ api_token s' = api_token s
    /\ calls s' = (calls s ++ [CallInspectService n])%list.
Proof.
  intros Hn Hi Hrm Henv.
  destruct (get_service_found c s n svc e1 Hn Hi)
    as (s1 & Hg & Hid1 & He1 & Hc1 & Ht1 & Hn1).
  destruct (service_name_run c s1 n Hn1) as (s2 & Hs2 & Hid2 & He2 & Hc2 & Ht2 & Hn2).
  exists s2. split; [|repeat split; congruence].
  unfold start, bindM, raise. rewrite Hg, Hrm. cbn. rewrite Hs2.
  unfold Config_Env in Henv. destruct (Service_Config svc) as [config|];
    [rewrite Henv|]; reflexivity.
Qed.

(** X26: an error in what [start] computes for the create call -- the
    mounts, the arguments, a CPU value that cannot be converted -- is raised
    after the inspect call and before any create call, and leaves
    [service_id] empty. *)
Theorem start_config_error_before_create (c : Config) (image_arg : option string)
    (extra_arg : option (gmap string kwval)) (s : State E) (n : string)
    (code : Z) (e1 : E) (err : exn) :
  name_in c s = Ok n ->
  inspect_service n (engine s) = (Raise (APIError code), e1) ->
  code = 404 \/ code = 500 ->
  mounts c = Raise err
  \/ (exists ms, mounts c = Ok ms /\ get_args c = Raise err)
  \/ (exists ms args, mounts c = Ok ms /\ get_args c = Ok args
        /\ cpu_nano (cpu_limit c) = Raise err)
  \/ (exists ms args cl, mounts c = Ok ms /\ get_args c = Ok args
        /\ cpu_nano (cpu_limit c) = Ok cl /\ cpu_nano (cpu_guarantee c) = Raise err) ->
  exists s', start c image_arg extra_arg s = (Raise err, s')
    /\ service_id s' = ""
    /\ calls s' = (calls s ++ [CallInspectService n])%list.
Proof.
  intros Hn Hi Hcode Herr.
  destruct (get_service_gone c s n code e1 Hn Hi Hcode)
    as (s1 & Hg & Hid1 & He1 & Hc1 & Ht1 & Hn1).
  destruct (service_name_run c s1 n Hn1) as (s2 & Hs2 & Hid2 & He2 & Hc2 & Ht2 & Hn2).
  assert (exists s', build_create_kwargs c image_arg extra_arg s1 = (Raise err, s')
                     /\ service_id s' = service_id s1 /\ calls s' = calls s1)
    as (s' & Hb & Hid & Hc).
  { unfold build_create_kwargs, bindM, lift, ret.
    destruct Herr as [Hm | [(ms & Hm & Ha) | [(ms & args & Hm & Ha & Hl)
                                            | (ms & args & cl & Hm & Ha & Hl & Hr)]]].
    - rewrite Hm. eexists. split; [reflexivity|]. auto.
    - rewrite Hm, Hs2, Ha. eexists. split; [reflexivity|]. auto.
    - rewrite Hm, Hs2, Ha, Hl. eexists. split; [reflexivity|]. auto.
    - rewrite Hm, Hs2, Ha, Hl, Hr. eexists. split; [reflexivity|]. auto. }
  exists s'. split; [|split; congruence].
  unfold start, bindM at 1. rewrite Hg. cbn. unfold bindM at 1.
  unfold create_branch, bindM at 1. rewrite Hb. reflexivity.
Qed.

End CreateBranch.

(** ** Extra keyword arguments, the command, and the persisted state *)

Section ExtraKwargs.
Context {E : Type} {Eng : Engine E} {Fmt : StrFormat}.

(** The shape of what [build_create_kwargs] returns: the two updates on top
    of a dict whose key [command] is there exactly when the user set a
    non-empty command. *)
Lemma build_create_kwargs_shape (c : Config) (image_arg : option string)
    (extra_arg : option (gmap string kwval)) (s s' : State E)
    (ck : gmap string kwval) :
  build_create_kwargs c image_arg extra_arg s = (Ok ck, s') ->
  exists base : gmap string kwval,
    ck = match extra_arg with
         | Some extra => if decide (extra = ∅) then extra_create_kwargs c ∪ base
                         else extra ∪ (extra_create_kwargs c ∪ base)
         | None => extra_create_kwargs c ∪ base
         end
    /\ base !! "command"
       = (if _user_set_cmd c then
            match cmd c with
            | [] => None
            | x :: l => Some (KStrList (x :: l))
            end
          else None).
Proof.
  unfold build_create_kwargs, bindM, lift, ret. intros Hb.
  destruct (mounts c) as [ms|]; [|discriminate].
  destruct (service_name c s) as [[n|] s1]; [|discriminate].
  destruct (get_args c) as [args|]; [|discriminate].
  destruct (cpu_nano (cpu_limit c)) as [cl|]; [|discriminate].
  destruct (cpu_nano (cpu_guarantee c)) as [cr|]; [|discriminate].
  injection Hb as <- _.
  eexists. split; [reflexivity|].
  destruct (_user_set_cmd c); [destruct (cmd c) as [|x l]|].
  all: simplify_map_eq; reflexivity.
Qed.

(** X22: keyword arguments passed to [start] take precedence over the
    configured [extra_create_kwargs], and both over what [start] computes:
    a key of the per-call dict has its value there; a key of
    [extra_create_kwargs] that the per-call dict lacks has the configured
    value. *)
Theorem extra_create_kwargs_precedence (c : Config) (image_arg : option string)
    (extra_arg : option (gmap string kwval)) (s s' : State E)
    (ck : gmap string kwval) :
  build_create_kwargs c image_arg extra_arg s = (Ok ck, s') ->
  (forall extra k v, extra_arg = Some extra -> extra !! k = Some v -> ck !! k = Some v)
  /\ (forall k v,
        extra_create_kwargs c !! k = Some v ->
        (forall extra, extra_arg = Some extra -> extra !! k = None) ->
        ck !! k = Some v).
Proof.
  intros Hb. destruct (build_create_kwargs_shape c image_arg extra_arg s s' ck Hb)
    as (base & -> & _).
  split.
  - intros extra k v -> Hk. destruct (decide (extra = ∅)) as [->|Hne].
    + rewrite lookup_empty in Hk. discriminate.
    + apply lookup_union_Some_l. exact Hk.
  - intros k v Hk Hnone. destruct extra_arg as [extra|].
    + destruct (decide (extra = ∅)).
      * apply lookup_union_Some_l. exact Hk.
      * rewrite lookup_union_r by (apply Hnone; reflexivity).
        apply lookup_union_Some_l. exact Hk.
    + apply lookup_union_Some_l. exact Hk.
Qed.

(** X23: unless an extra keyword argument sets it, [command] is among the
    keyword arguments exactly when the user set a non-empty [cmd], and then
    it is that command; the image's own command is used otherwise. *)
Theorem command_only_when_user_set (c : Config) (image_arg : option string)
    (extra_arg : option (gmap string kwval)) (s s' : State E)
    (ck : gmap string kwval) :
  build_create_kwargs c image_arg extra_arg s = (Ok ck, s') ->
  extra_create_kwargs c !! "command" = None ->
  (forall extra, extra_arg = Some extra -> extra !! "command" = None) ->
  (_user_set_cmd c = true -> cmd c <> [] ->
     ck !! "command" = Some (KStrList (cmd c))
     /\ slice _container_spec_keys ck !! "command" = Some (KStrList (cmd c)))
  /\ (_user_set_cmd c = false \/ cmd c = [] ->
     ck !! "command" = None
     /\ slice _container_spec_keys ck !! "command" = None).
Proof.
  intros Hb Hx Hy. destruct (build_create_kwargs_shape c image_arg extra_arg s s' ck Hb)
    as (base & -> & Hcmd).
  assert (forall o, base !! "command" = o ->
            match extra_arg with
            | Some extra => if decide (extra = ∅) then extra_create_kwargs c ∪ base
                            else extra ∪ (extra_create_kwargs c ∪ base)
            | None => extra_create_kwargs c ∪ base
            end !! "command" = o) as Hlook.
  { intros o Ho. destruct extra_arg as [extra|].
    - destruct (decide (extra = ∅)).
      + rewrite lookup_union_r by exact Hx. exact Ho.
      + rewrite lookup_union_r by (apply Hy; reflexivity).
        rewrite lookup_union_r by exact Hx. exact Ho.
    - rewrite lookup_union_r by exact Hx. exact Ho. }
  split.
  - intros Hset Hne. rewrite Hset in Hcmd. destruct (cmd c) as [|x l]; [congruence|].
    pose proof (Hlook _ Hcmd) as Hck. split; [exact Hck|].
    apply slice_lookup. split; [exact Hck|].
    apply (bool_decide_unpack _). vm_compute. exact I.
  - intros Hno.
    assert (base !! "command" = None) as Hnone.
    { destruct Hno as [Hno|Hno]; rewrite Hno in Hcmd; [exact Hcmd|].
      destruct (_user_set_cmd c); exact Hcmd. }
    pose proof (Hlook _ Hnone) as Hck. split; [exact Hck|].
    destruct (slice _container_spec_keys _ !! "command") as [v|] eqn:Hs; [|reflexivity].
    apply slice_lookup in Hs as [Hs _]. congruence.
Qed.

(** X24: [get_state] reads the spawner without changing it, hands on every
    inherited entry other than [service_id], and puts a non-empty
    [service_id] in place of an inherited one. *)
Theorem get_state_keeps_inherited (c : Config) (s : State E) :
  exists st, get_state c s = (Ok st, s)
    /\ (forall k, k <> "service_id" -> st !! k = inherited_state c !! k)
    /\ (service_id s <> "" -> st !! "service_id" = Some (service_id s))
    /\ (service_id s = "" -> st = inherited_state c).
Proof.
  unfold get_state, bindM, get, ret.
  destruct (String.eqb_spec (service_id s) "") as [Heq|Hne]; cbn.
  - exists (inherited_state c). repeat split; auto. congruence.
  - eexists. split; [reflexivity|]. repeat split.
    + intros k Hk. apply lookup_insert_ne. congruence.
    + intros _. apply lookup_insert_eq.
    + congruence.
Qed.

End ExtraKwargs.

(** X25: a CPU value that is NaN makes [cpu_nano] raise [ValueError], an
    infinite one or one whose product with [1e9] overflows [OverflowError];
    [cpu_nano] returns [None] only for an absent value or a zero. *)
Theorem cpu_nano_non_finite (x : float) :
  (x = S754_nan -> cpu_nano (Some x) = Raise ValueError)
  /\ (forall sgn, x = S754_infinity sgn -> cpu_nano (Some x) = Raise OverflowError)
  /\ (forall sgn, float_truthy x = true ->
        float_mul x float_1e9 = S754_infinity sgn ->
        cpu_nano (Some x) = Raise OverflowError)
  /\ (cpu_nano (Some x) = Ok None <-> exists sgn, x = S754_zero sgn).
Proof.
  split; [intros ->; reflexivity|]. split; [intros sgn ->; reflexivity|]. split.
  - intros sgn Hx Hmul. unfold cpu_nano. rewrite Hx, Hmul. reflexivity.
  - split.
    + unfold cpu_nano. destruct x as [sgn| | |sgn m e]; cbn.
      * eauto.
      * discriminate.
      * discriminate.
      * destruct (float_to_int _); discriminate.
    + intros (sgn & ->). reflexivity.
Qed.

(** ** Runs on the concrete collaborators *)

#[local] Existing Instance scripted_Engine.
#[local] Existing Instance placeholder_StrFormat.

Example stop_after_remove :
  stop alice (initial_state "svc1" script_running)
  = (Ok tt, {| service_id := "svc1"; api_token := "";
               _escaped_name := Some "alice"; engine := script_running;
               calls := [CallRemoveService "svc1"; CallClearState] |}).
Proof. vm_compute. reflexivity. Qed.

Example start_reuse_run :
  start alice None None (initial_state "" script_running)
  = (Ok ("jupyter-alice", 8888),
     {| service_id := "svc0123456789"; api_token := "abc123";
        _escaped_name := Some "alice"; engine := script_running;
        calls := [CallInspectService "jupyter-alice"] |}).
Proof. vm_compute. reflexivity. Qed.

Example start_create_run :
  fst (start alice None None (initial_state "" script_gone))
  = Ok ("jupyter-alice", 8888)
  /\ service_id (snd (start alice None None (initial_state "" script_gone))) = "svc-new"
  /\ List.length (calls (snd (start alice None None (initial_state "" script_gone)))) = 2%nat.
Proof. vm_compute. repeat split; reflexivity. Qed.

(** Witness of C1's theorem. *)
Lemma stop_clears_after_remove_returns_witness :
  name_in alice (initial_state "svc1" script_running) = Ok "jupyter-alice"
  /\ remove_service "svc1" script_running = (Ok tt, script_running)
  /\ exists s', stop alice (initial_state "svc1" script_running) = (Ok tt, s')
       /\ calls s' = [CallRemoveService "svc1"; CallClearState].
Proof.
  split; [vm_compute; reflexivity|]. split; [reflexivity|].
  destruct (stop_clears_after_remove_returns (Eng:=scripted_Engine) (Fmt:=placeholder_StrFormat) alice (initial_state "svc1" script_running)
              "jupyter-alice" (Ok tt) script_running)
    as (s' & Hs & _ & Hc); [vm_compute; reflexivity | reflexivity |].
  exists s'. split; [exact Hs | exact Hc].
Defined.

(** C1 as stated fails: when the remove call answers 404, [stop] raises and
    [clear_state] is not among the calls made. *)
Lemma stop_not_found_skips_clear_state :
  fst (stop alice (initial_state "svc1" script_gone)) = Raise (APIError 404)
  /\ calls (snd (stop alice (initial_state "svc1" script_gone)))
     = [CallRemoveService "svc1"]
  /\ ~ In CallClearState (calls (snd (stop alice (initial_state "svc1" script_gone)))).
Proof.
  vm_compute. repeat split. intros [H|[]]. discriminate H.
Qed.

(** Witness of C2's theorem: 0.5 CPU becomes 500000000 nano-units. *)
Lemma cpu_nano_absent_zero_truncated_witness :
  float_truthy float_half = true
  /\ float_mul float_half float_1e9 = S754_finite false 8388608000000000 (-24)
  /\ exists n, cpu_nano (Some float_half) = Ok (Some n)
       /\ Z.abs n * mag_den (-24) <= mag_num 8388608000000000 (-24)
          < (Z.abs n + 1) * mag_den (-24).
Proof.
  split; [reflexivity|]. split; [vm_compute; reflexivity|].
  destruct (proj1 (proj2 (proj2 (cpu_nano_absent_zero_truncated (E:=Script))))
              float_half false 8388608000000000%positive (-24))
    as (n & Hn & Hb & _); [reflexivity | vm_compute; reflexivity |].
  exists n. split; [exact Hn | exact Hb].
Defined.

(** C2 as stated fails: a CPU limit of zero gives the same result as no
    limit. *)
Lemma cpu_zero_same_as_unset :
  cpu_nano (Some (S754_zero false)) = cpu_nano None.
Proof. reflexivity. Qed.

(** Witness of C3's theorem: with [volumes = {'/a': '/z', '/b': '/y'}],
    [volume_binds] has its two entries and [mounts] raises. *)
Lemma mounts_raises_for_any_volume_witness :
  volume_binds alice_two_volumes
  = Ok [("/a", {| bind := "/z"; mode := "rw" |});
        ("/b", {| bind := "/y"; mode := "rw" |})]
  /\ mounts alice_two_volumes = Raise InvalidArgument.
Proof.
  split; [vm_compute; reflexivity|].
  exact (proj2 (mounts_raises_for_any_volume alice_two_volumes
                  [("/a", {| bind := "/z"; mode := "rw" |});
                   ("/b", {| bind := "/y"; mode := "rw" |})]
                  ltac:(vm_compute; reflexivity)
                  ltac:(left; vm_compute; discriminate))).
Defined.

Example mounts_without_volumes : mounts alice = Ok [].
Proof. vm_compute. reflexivity. Qed.

(** Witness of C4's theorem. *)
Lemma escaped_name_alphabet_and_injectivity_witness :
  no_low_bytes "a.b" = true /\ no_low_bytes "a.b" = true
  /\ escape "a.b" _service_safe_chars _service_escape_char
     = escape "a.b" _service_safe_chars _service_escape_char
  /\ "a.b" = "a.b".
Proof.
  split; [reflexivity|]. split; [reflexivity|]. split; [reflexivity|].
  exact (proj1 (proj2 (escaped_name_alphabet_and_injectivity (E:=Script)))
           "a.b" "a.b" eq_refl eq_refl eq_refl).
Defined.

(** C4 as stated fails: two distinct user names with unsafe bytes share
    their escaped name, and the escaped name of [a.b] holds ['_'], which is
    outside the safe alphabet. *)
Lemma escape_collides_and_leaves_alphabet :
  username_control <> username_nbsp
  /\ all_chars is_safe username_control = false
  /\ all_chars is_safe username_nbsp = false
  /\ escape username_control _service_safe_chars _service_escape_char = "_C2_A0"
  /\ escape username_nbsp _service_safe_chars _service_escape_char = "_C2_A0"
  /\ escape "a.b" _service_safe_chars _service_escape_char = "a_2Eb"
  /\ all_chars is_safe "a_2Eb" = false.
Proof. repeat split; try (vm_compute; reflexivity). discriminate. Qed.

(** Witness of C5's theorem. *)
Lemma partition_places_each_key_once_witness :
  "ulimits" ∈ dom name_and_ulimits /\ "ulimits" <> "name"
  /\ count_true (placements name_and_ulimits "ulimits") = 1%nat.
Proof.
  assert ("ulimits" ∈ dom name_and_ulimits) as Hdom
    by (apply (bool_decide_unpack _); vm_compute; exact I).
  split; [exact Hdom|]. split; [discriminate|].
  apply (proj1 (partition_places_each_key_once (E:=Script) name_and_ulimits)
           "ulimits" Hdom).
  discriminate.
Defined.

(** C5 as stated fails: the key ["name"] is in none of the four slices and
    not among the remaining keys. *)
Lemma name_key_in_no_slice :
  only_name !! "name" = Some (KStr "jupyter-alice")
  /\ placements only_name "name" = [false; false; false; false; false].
Proof. split; vm_compute; reflexivity. Qed.

(** Witness of C6's theorem. *)
Lemma get_task_by_number_of_tasks_witness :
  name_in alice (initial_state "" script_two_tasks) = Ok "jupyter-alice"
  /\ tasks "jupyter-alice"
       (snd (inspect_service "jupyter-alice" (engine (initial_state "" script_two_tasks))))
     = (Ok [a_task "t1"; a_task "t2"], script_two_tasks)
  /\ (1 < List.length [a_task "t1"; a_task "t2"])%nat
  /\ fst (get_task alice (initial_state "" script_two_tasks))
     = Raise (RuntimeError (more_than_one_msg "jupyter-alice")).
Proof.
  split; [vm_compute; reflexivity|]. split; [reflexivity|]. split; [cbn; lia|].
  apply (proj1 (get_task_by_number_of_tasks (Eng:=scripted_Engine) (Fmt:=placeholder_StrFormat) alice (initial_state "" script_two_tasks)
                  "jupyter-alice" [a_task "t1"; a_task "t2"] script_two_tasks
                  ltac:(vm_compute; reflexivity) eq_refl)).
  cbn. lia.
Defined.

(** Witness of C7's theorem. *)
Lemma get_service_on_engine_failure_witness :
  name_in alice (initial_state "svc1" script_gone) = Ok "jupyter-alice"
  /\ inspect_service "jupyter-alice" (engine (initial_state "svc1" script_gone))
     = (Raise (APIError 404), script_gone)
  /\ exists s', get_service alice (initial_state "svc1" script_gone) = (Ok None, s')
                /\ service_id s' = "".
Proof.
  split; [vm_compute; reflexivity|]. split; [reflexivity|].
  apply (proj1 (get_service_on_engine_failure (Eng:=scripted_Engine) (Fmt:=placeholder_StrFormat) alice (initial_state "svc1" script_gone)
                  "jupyter-alice" (APIError 404) script_gone
                  ltac:(vm_compute; reflexivity) eq_refl)).
  left. reflexivity.
Defined.

Example get_service_forbidden :
  fst (get_service alice (initial_state "svc1" script_forbidden)) = Raise (APIError 403)
  /\ service_id (snd (get_service alice (initial_state "svc1" script_forbidden))) = "svc1".
Proof. vm_compute. split; reflexivity. Qed.

(** Witness of C8's theorem: the service is gone, the task query is made
    all the same. *)
Lemma get_task_always_lists_tasks_witness :
  name_in alice (initial_state "" script_gone) = Ok "jupyter-alice"
  /\ exists r s', get_task alice (initial_state "" script_gone) = (r, s')
       /\ calls s' = [CallInspectService "jupyter-alice"; CallTasks "jupyter-alice"].
Proof.
  split; [vm_compute; reflexivity|].
  apply (proj2 (get_task_always_lists_tasks (Eng:=scripted_Engine) (Fmt:=placeholder_StrFormat) alice (initial_state "" script_gone))
           "jupyter-alice").
  vm_compute. reflexivity.
Defined.

Example get_task_when_service_gone :
  fst (get_task alice (initial_state "" script_gone)) = Ok (Some (a_task "t1")).
Proof. vm_compute. reflexivity. Qed.

(** Witness of C9's theorem. *)
Lemma start_reuses_api_token_witness :
  name_in alice (initial_state "" script_running) = Ok "jupyter-alice"
  /\ inspect_service "jupyter-alice" (engine (initial_state "" script_running))
     = (Ok (a_service token_env), script_running)
  /\ remove_services alice = false
  /\ Config_Env (a_service token_env) = Some token_env
  /\ exists s', start alice None None (initial_state "" script_running)
                = (Ok ("jupyter-alice", 8888), s')
       /\ calls s' = [CallInspectService "jupyter-alice"].
Proof.
  split; [vm_compute; reflexivity|]. split; [reflexivity|].
  split; [reflexivity|]. split; [reflexivity|].
  destruct (start_reuses_api_token (Eng:=scripted_Engine) (Fmt:=placeholder_StrFormat) alice None None (initial_state "" script_running)
              "jupyter-alice" (a_service token_env) script_running token_env
              ltac:(vm_compute; reflexivity) eq_refl eq_refl eq_refl)
    as (s' & Hs & Hc & _).
  exists s'. split; [exact Hs | exact Hc].
Defined.

(** Witness of C10's theorem. *)
Lemma state_round_trip_witness :
  inherited_state alice !! "service_id" = None
  /\ exists st, get_state alice (initial_state "svc1" script_running)
                = (Ok st, initial_state "svc1" script_running)
       /\ exists s1, load_state st (initial_state "" script_running) = (Ok tt, s1)
                     /\ service_id s1 = "svc1".
Proof.
  split; [reflexivity|].
  destruct (state_round_trip (E:=Script) alice (initial_state "svc1" script_running)
              (initial_state "" script_running) eq_refl)
    as (st & Hg & _ & s1 & Hl & Hid).
  exists st. split; [exact Hg|]. exists s1. split; [exact Hl | exact Hid].
Defined.

(** ** Runs for the further properties *)

(** Witness of [volume_binds_insertion_order]. *)
Lemma volume_binds_insertion_order_witness :
  volume_binds bob_layered
  = Ok [("/data", {| bind := "/ro"; mode := "ro" |});
        ("/work", {| bind := "/w"; mode := "z" |})]
  /\ exists hs1 hs2,
       Forall2 (fun kv h => format_volume_name bob_layered kv.1 = Ok h)
         (volumes bob_layered) hs1
       /\ Forall2 (fun kv h => format_volume_name bob_layered kv.1 = Ok h)
            (read_only_volumes bob_layered) hs2
       /\ ["/data"; "/work"] = insertion_order (hs1 ++ hs2).
Proof.
  split; [vm_compute; reflexivity|].
  exact (volume_binds_insertion_order bob_layered
           [("/data", {| bind := "/ro"; mode := "ro" |});
            ("/work", {| bind := "/w"; mode := "z" |})]
           ltac:(vm_compute; reflexivity)).
Defined.

(** Witness of [read_only_volumes_entry_wins]. *)
Lemma read_only_volumes_entry_wins_witness :
  read_only_volumes bob_layered = ([] ++ ("/data", VStr "/ro") :: [])%list
  /\ format_volume_name bob_layered "/data" = Ok "/data"
  /\ exists p fp,
       entry_path (VStr "/ro") = Some p /\ format_volume_name bob_layered p = Ok fp
       /\ dict_get "/data"
            [("/data", {| bind := "/ro"; mode := "ro" |});
             ("/work", {| bind := "/w"; mode := "z" |})]
          = Some {| bind := fp; mode := "ro" |}.
Proof.
  split; [reflexivity|]. split; [reflexivity|].
  destruct (read_only_volumes_entry_wins bob_layered _ [] [] "/data" (VStr "/ro") "/data"
              eq_refl eq_refl eq_refl (List.Forall_nil _))
    as (p & fp & Hp & Hfp & Hget).
  exists p, fp. split; [exact Hp|]. split; [exact Hfp | exact Hget].
Defined.

(** Witness of [volumes_entry_kept]. *)
Lemma volumes_entry_kept_witness :
  volumes bob_layered
  = ([("/data", VStr "/d")] ++ ("/work", VDict (Some "/w") (Some "z")) :: [])%list
  /\ exists p fp,
       entry_path (VDict (Some "/w") (Some "z")) = Some p
       /\ format_volume_name bob_layered p = Ok fp
       /\ dict_get "/work"
            [("/data", {| bind := "/ro"; mode := "ro" |});
             ("/work", {| bind := "/w"; mode := "z" |})]
          = Some {| bind := fp; mode := "z" |}.
Proof.
  split; [reflexivity|].
  apply (volumes_entry_kept bob_layered _ [("/data", VStr "/d")] [] "/work"
           (VDict (Some "/w") (Some "z")) "/work" eq_refl eq_refl eq_refl (List.Forall_nil _)).
  constructor; [discriminate | constructor].
Defined.

(** Witness of [volume_binds_needs_bind]. *)
Lemma volume_binds_needs_bind_witness :
  (forall t, exists r, format_volume_name bob_no_bind t = Ok r)
  /\ Exists (fun kv => entry_path kv.2 = None)
       (volumes bob_no_bind ++ read_only_volumes bob_no_bind)%list
  /\ volume_binds bob_no_bind = Raise (KeyError "bind")
  /\ mounts bob_no_bind = Raise (KeyError "bind").
Proof.
  assert (forall t, exists r, format_volume_name bob_no_bind t = Ok r) as Htot
    by (intros t; exists t; reflexivity).
  assert (Exists (fun kv : string * volval => entry_path kv.2 = None)
            (volumes bob_no_bind ++ read_only_volumes bob_no_bind)%list) as Hex
    by (apply Exists_cons_tl, Exists_cons_hd; reflexivity).
  split; [exact Htot|]. split; [exact Hex|].
  exact (proj2 (volume_binds_needs_bind bob_no_bind Htot) Hex).
Defined.

(** Witness of [volume_mount_points_sorted]. *)
Lemma volume_mount_points_sorted_witness :
  volume_mount_points alice_two_volumes = Ok ["/y"; "/z"]
  /\ is_sorted ["/y"; "/z"] = true.
Proof.
  split; [vm_compute; reflexivity|].
  exact (proj1 (volume_mount_points_sorted alice_two_volumes ["/y"; "/z"]
                  ltac:(vm_compute; reflexivity))).
Defined.

(** Witness of [_public_hub_api_url_replaces_host]. *)
Lemma _public_hub_api_url_replaces_host_witness :
  hub_api_url bob_hub = "http" ++ "://" ++ "127.0.0.1" ++ ":" ++ "8081/hub/api"
  /\ ascii_in ":" "http" = false /\ ascii_in ":" "127.0.0.1" = false
  /\ _public_hub_api_url bob_hub
     = Ok ("http" ++ "://" ++ hub_ip_connect bob_hub ++ ":" ++ "8081/hub/api").
Proof.
  split; [reflexivity|]. split; [reflexivity|]. split; [reflexivity|].
  exact (proj1 (_public_hub_api_url_replaces_host bob_hub)
           "http" "127.0.0.1" "8081/hub/api" eq_refl eq_refl eq_refl).
Defined.

(** Witness of [get_args_hub_api_url]. *)
Lemma get_args_hub_api_url_witness :
  hub_ip_connect bob_hub <> ""
  /\ _public_hub_api_url bob_hub = Ok "http://hub.internal:8081/hub/api"
  /\ get_args bob_hub
     = Ok ["--port=8888"; "--debug"; "--hub-api-url=http://hub.internal:8081/hub/api"].
Proof.
  assert (hub_ip_connect bob_hub <> "") as Hne by discriminate.
  split; [exact Hne|]. split; [vm_compute; reflexivity|].
  apply (proj1 (proj2 (proj2 (get_args_hub_api_url bob_hub) Hne)
                  "http://hub.internal:8081/hub/api" ltac:(vm_compute; reflexivity))
           ["--port=8888"] "--hub-api-url=http://127.0.0.1:8081/hub/api" ["--debug"]).
  - reflexivity.
  - constructor; [reflexivity | constructor].
  - reflexivity.
Defined.

(** Witness of [escaped_name_is_cached]. *)
Lemma escaped_name_is_cached_witness :
  exists e s1,
    escaped_name (E:=Script) (default_config "a.b") (initial_state "" script_gone)
    = (Ok e, s1)
    /\ _escaped_name s1 = Some e
    /\ (_escaped_name (initial_state "" script_gone) = None -> e = "a_2Eb").
Proof.
  destruct (escaped_name_is_cached (default_config "a.b") (initial_state "" script_gone))
    as (e & s1 & He & Hc & _ & _ & Hfresh & _).
  exists e, s1. split; [exact He|]. split; [exact Hc|].
  intros Hn. rewrite (Hfresh Hn). vm_compute. reflexivity.
Defined.

(** Witness of [service_name_repeatable]. *)
Lemma service_name_repeatable_witness :
  service_name bob (initial_state "" script_gone)
  = (Ok "jupyter-bob", set_escaped_name (Some "bob") (initial_state "" script_gone))
  /\ service_name bob (set_escaped_name (Some "bob") (initial_state "" script_gone))
     = (Ok "jupyter-bob", set_escaped_name (Some "bob") (initial_state "" script_gone)).
Proof.
  split; [vm_compute; reflexivity|].
  exact (proj1 (service_name_repeatable bob (initial_state "" script_gone) _ _
                  ltac:(vm_compute; reflexivity))).
Defined.

(** Witness of [get_service_result_and_id]. *)
Lemma get_service_result_and_id_witness :
  name_in bob (initial_state "stale" script_running) = Ok "jupyter-bob"
  /\ exists r s', get_service bob (initial_state "stale" script_running) = (r, s')
       /\ calls s' = [CallInspectService "jupyter-bob"]
       /\ api_token s' = "hub-token".
Proof.
  split; [vm_compute; reflexivity|].
  destruct (get_service_result_and_id (Eng:=scripted_Engine) (Fmt:=placeholder_StrFormat)
              bob (initial_state "stale" script_running) "jupyter-bob"
              ltac:(vm_compute; reflexivity))
    as (r & s' & Hg & Hc & _ & Ht & _).
  exists r, s'. split; [exact Hg|]. split; [exact Hc | exact Ht].
Defined.

(** Witness of [get_task_on_engine_failure]. *)
Lemma get_task_on_engine_failure_witness :
  name_in bob (initial_state "" script_tasks_gone) = Ok "jupyter-bob"
  /\ tasks "jupyter-bob"
       (snd (inspect_service "jupyter-bob" (engine (initial_state "" script_tasks_gone))))
     = (Raise (APIError 404), script_tasks_gone)
  /\ fst (get_task bob (initial_state "" script_tasks_gone)) = Ok None.
Proof.
  split; [vm_compute; reflexivity|]. split; [reflexivity|].
  exact (proj1 (get_task_on_engine_failure (Eng:=scripted_Engine)
                  (Fmt:=placeholder_StrFormat) bob (initial_state "" script_tasks_gone)
                  "jupyter-bob" (APIError 404) script_tasks_gone
                  ltac:(vm_compute; reflexivity) eq_refl) eq_refl).
Defined.

(** Witness of [unformattable_name_makes_no_call]. *)
Lemma unformattable_name_makes_no_call_witness :
  name_in bob_bad_template (initial_state "svc1" script_running) = Raise (KeyError "user")
  /\ fst (stop bob_bad_template (initial_state "svc1" script_running))
     = Raise (KeyError "user")
  /\ calls (snd (stop bob_bad_template (initial_state "svc1" script_running))) = [].
Proof.
  split; [vm_compute; reflexivity|].
  exact (proj2 (proj2 (proj2
           (unformattable_name_makes_no_call (Eng:=scripted_Engine)
              (Fmt:=placeholder_StrFormat) bob_bad_template
              (initial_state "svc1" script_running) (KeyError "user") None None
              ltac:(vm_compute; reflexivity))))).
Defined.

(** Witness of [poll_outcomes]. *)
Lemma poll_outcomes_witness :
  name_in bob (initial_state "" script_stopped_task) = Ok "jupyter-bob"
  /\ fst (poll print_state bob (initial_state "" script_stopped_task))
     = Ok (PollItems [("ID", "t1"); ("Status", "shutdown")]).
Proof.
  split; [vm_compute; reflexivity|].
  exact (proj1 (proj2 (poll_outcomes (Eng:=scripted_Engine) (Fmt:=placeholder_StrFormat)
                         print_state bob (initial_state "" script_stopped_task)
                         "jupyter-bob" ltac:(vm_compute; reflexivity)))
           {| task_ID := "t1"; Status_State := "shutdown" |} eq_refl).
Defined.

(** Witness of [start_creates_absent_service]. *)
Lemma start_creates_absent_service_witness :
  name_in bob_no_volumes (initial_state "stale" script_gone) = Ok "jupyter-bob"
  /\ volumes bob_no_volumes = [] /\ read_only_volumes bob_no_volumes = []
  /\ get_args bob_no_volumes = Ok ["--port=8888"]
  /\ cpu_nano (cpu_limit bob_no_volumes) = Ok (Some 500000000)
  /\ cpu_nano (cpu_guarantee bob_no_volumes) = Ok None
  /\ exists s' task_template,
       start bob_no_volumes None None (initial_state "stale" script_gone)
       = (Ok ("jupyter-bob", 8888), s')
       /\ service_id s' = "svc-new"
       /\ calls s' = [CallInspectService "jupyter-bob";
                      CallCreateService task_template ∅ (KStr "jupyter-bob")]
       /\ container_spec task_template !! "image"
          = Some (KStr "jupyterhub/singleuser:1.0")
       /\ container_spec task_template !! "mounts" = Some (KMounts [])
       /\ task_kwargs task_template !! "networks" = Some (KStrList ["net1"]).
Proof.
  split; [vm_compute; reflexivity|]. split; [reflexivity|]. split; [reflexivity|].
  split; [reflexivity|]. split; [vm_compute; reflexivity|]. split; [reflexivity|].
  destruct (start_creates_absent_service (Eng:=scripted_Engine)
              (Fmt:=placeholder_StrFormat) bob_no_volumes
              (initial_state "stale" script_gone)
              "jupyter-bob" 404 script_gone script_gone ["--port=8888"]
              (Some 500000000) None "svc-new"
              ltac:(vm_compute; reflexivity) eq_refl (or_introl eq_refl)
              eq_refl eq_refl eq_refl
              ltac:(vm_compute; reflexivity) eq_refl eq_refl eq_refl)
    as (s' & tpl & Hs & Hid & _ & _ & Hc & Himg & _ & Hmounts & _ & _ & _ & _ & Hnet).
  exists s', tpl. repeat split; assumption.
Defined.

(** Witness of [start_create_failure_leaves_no_id]. *)
Lemma start_create_failure_leaves_no_id_witness :
  name_in bob_no_volumes (initial_state "stale" script_create_fails) = Ok "jupyter-bob"
  /\ volumes bob_no_volumes = [] /\ read_only_volumes bob_no_volumes = []
  /\ exists s', start bob_no_volumes None None (initial_state "stale" script_create_fails)
                = (Raise (APIError 409), s')
       /\ service_id s' = "".
Proof.
  split; [vm_compute; reflexivity|]. split; [reflexivity|]. split; [reflexivity|].
  destruct (start_create_failure_leaves_no_id (Eng:=scripted_Engine)
              (Fmt:=placeholder_StrFormat) bob_no_volumes
              (initial_state "stale" script_create_fails)
              "jupyter-bob" 404 script_create_fails script_create_fails
              ["--port=8888"] (Some 500000000) None (APIError 409)
              ltac:(vm_compute; reflexivity) eq_refl (or_introl eq_refl)
              eq_refl eq_refl eq_refl
              ltac:(vm_compute; reflexivity) eq_refl eq_refl eq_refl)
    as (s' & Hs & Hid & _).
  exists s'. split; assumption.
Defined.

(** Witness of [start_with_volume_never_creates]: [bob] has
    [volumes = {'/data': '/d'}]. *)
Lemma start_with_volume_never_creates_witness :
  name_in bob (initial_state "stale" script_gone) = Ok "jupyter-bob"
  /\ volume_binds bob = Ok [("/data", {| bind := "/d"; mode := "rw" |})]
  /\ exists s', start bob None None (initial_state "stale" script_gone)
                = (Raise InvalidArgument, s')
       /\ service_id s' = ""
       /\ calls s' = [CallInspectService "jupyter-bob"].
Proof.
  split; [vm_compute; reflexivity|]. split; [vm_compute; reflexivity|].
  exact (start_with_volume_never_creates (Eng:=scripted_Engine)
           (Fmt:=placeholder_StrFormat) bob None None
           (initial_state "stale" script_gone) "jupyter-bob" 404 script_gone
           [("/data", {| bind := "/d"; mode := "rw" |})]
           ltac:(vm_compute; reflexivity) eq_refl (or_introl eq_refl)
           ltac:(vm_compute; reflexivity) ltac:(left; vm_compute; discriminate)).
Defined.

(** Witness of [start_removes_found_service]. *)
Lemma start_removes_found_service_witness :
  name_in bob_removing (initial_state "stale" script_no_env) = Ok "jupyter-bob"
  /\ remove_services bob_removing = true
  /\ remove_service "svc0123456789" script_no_env = (Raise (APIError 500), script_no_env)
  /\ exists s', start bob_removing None None (initial_state "stale" script_no_env)
                = (Raise (APIError 500), s')
       /\ calls s' = [CallInspectService "jupyter-bob";
                      CallRemoveService "svc0123456789"].
Proof.
  split; [vm_compute; reflexivity|]. split; [reflexivity|]. split; [reflexivity|].
  destruct (proj1 (start_removes_found_service (Eng:=scripted_Engine)
                     (Fmt:=placeholder_StrFormat) bob_removing
                     (initial_state "stale" script_no_env) "jupyter-bob"
                     service_no_env
                     script_no_env script_no_env (Raise (APIError 500))
                     ltac:(vm_compute; reflexivity) eq_refl eq_refl eq_refl)
              (APIError 500) eq_refl)
    as (s' & Hs & _ & Hc).
  exists s'. split; assumption.
Defined.

(** Witness of [start_reuse_needs_config_env]: the service has a
    ['Config'] without ['Env']. *)
Lemma start_reuse_needs_config_env_witness :
  name_in bob (initial_state "" script_no_env) = Ok "jupyter-bob"
  /\ remove_services bob = false
  /\ Config_Env service_no_env = None
  /\ exists s', start bob None None (initial_state "" script_no_env)
                = (Raise (KeyError "Env"), s')
       /\ calls s' = [CallInspectService "jupyter-bob"].
Proof.
  split; [vm_compute; reflexivity|]. split; [reflexivity|]. split; [reflexivity|].
  destruct (start_reuse_needs_config_env (Eng:=scripted_Engine)
              (Fmt:=placeholder_StrFormat) bob None None (initial_state "" script_no_env)
              "jupyter-bob" service_no_env script_no_env
              ltac:(vm_compute; reflexivity) eq_refl eq_refl eq_refl)
    as (s' & Hs & _ & _ & Hc).
  exists s'. split; assumption.
Defined.

Example start_reuse_without_config :
  fst (start bob None None (initial_state "" script_no_config))
  = Raise (KeyError "Config").
Proof. vm_compute. reflexivity. Qed.

(** Witness of [start_config_error_before_create]. *)
Lemma start_config_error_before_create_witness :
  name_in bob_no_bind (initial_state "stale" script_gone) = Ok "jupyter-bob"
  /\ mounts bob_no_bind = Raise (KeyError "bind")
  /\ exists s', start bob_no_bind None None (initial_state "stale" script_gone)
                = (Raise (KeyError "bind"), s')
       /\ service_id s' = ""
       /\ calls s' = [CallInspectService "jupyter-bob"].
Proof.
  split; [vm_compute; reflexivity|]. split; [vm_compute; reflexivity|].
  apply (start_config_error_before_create (Eng:=scripted_Engine)
           (Fmt:=placeholder_StrFormat) bob_no_bind None None
           (initial_state "stale" script_gone) "jupyter-bob" 404 script_gone
           (KeyError "bind") ltac:(vm_compute; reflexivity) eq_refl (or_introl eq_refl)).
  left. vm_compute. reflexivity.
Defined.

(** Witness of [start_returns_name_and_port]. *)
Lemma start_returns_name_and_port_witness :
  start bob None None (initial_state "" script_running)
  = (Ok ("jupyter-bob", 8888),
     {| service_id := "svc0123456789"; api_token := "abc123";
        _escaped_name := Some "bob"; engine := script_running;
        calls := [CallInspectService "jupyter-bob"] |})
  /\ 8888 = port bob
  /\ name_in bob (initial_state "" script_running) = Ok "jupyter-bob".
Proof.
  split; [vm_compute; reflexivity|].
  destruct (start_returns_name_and_port (Eng:=scripted_Engine)
              (Fmt:=placeholder_StrFormat) bob None None
              (initial_state "" script_running) _ "jupyter-bob" 8888
              ltac:(vm_compute; reflexivity))
    as (Hp & Hn & _).
  split; [exact Hp | exact Hn].
Defined.

(** Witness of [extra_create_kwargs_precedence]. *)
Lemma extra_create_kwargs_precedence_witness :
  extra_create_kwargs bob_extra !! "image" = Some (KStr "other:2")
  /\ exists ck s',
       build_create_kwargs bob_extra None None (initial_state "" script_gone)
       = (Ok ck, s')
       /\ ck !! "image" = Some (KStr "other:2").
Proof.
  split; [reflexivity|].
  pose (ck := extra_create_kwargs bob_extra
              ∪ default_create_kwargs bob_extra "jupyter-bob" [] [] (Some 500000000) None).
  pose (s' := set_escaped_name (Some "bob") (initial_state "" script_gone)).
  assert (build_create_kwargs (Fmt:=placeholder_StrFormat) bob_extra None None
            (initial_state "" script_gone) = (Ok ck, s')) as Hb
    by (vm_compute; reflexivity).
  exists ck, s'. split; [exact Hb|].
  apply (proj2 (extra_create_kwargs_precedence (Fmt:=placeholder_StrFormat) bob_extra
                  None None (initial_state "" script_gone) s' ck Hb) "image").
  - reflexivity.
  - intros extra Hx. discriminate Hx.
Defined.

(** Witness of [command_only_when_user_set]. *)
Lemma command_only_when_user_set_witness :
  _user_set_cmd bob_extra = true /\ cmd bob_extra <> []
  /\ extra_create_kwargs bob_extra !! "command" = None
  /\ exists ck s',
       build_create_kwargs bob_extra None None (initial_state "" script_gone)
       = (Ok ck, s')
       /\ ck !! "command" = Some (KStrList ["start.sh"]).
Proof.
  assert (cmd bob_extra <> []) as Hne by discriminate.
  split; [reflexivity|]. split; [exact Hne|]. split; [reflexivity|].
  pose (ck := extra_create_kwargs bob_extra
              ∪ default_create_kwargs bob_extra "jupyter-bob" [] [] (Some 500000000) None).
  pose (s' := set_escaped_name (Some "bob") (initial_state "" script_gone)).
  assert (build_create_kwargs (Fmt:=placeholder_StrFormat) bob_extra None None
            (initial_state "" script_gone) = (Ok ck, s')) as Hb
    by (vm_compute; reflexivity).
  exists ck, s'. split; [exact Hb|].
  apply (proj1 (command_only_when_user_set (Fmt:=placeholder_StrFormat) bob_extra
                  None None (initial_state "" script_gone) s' ck Hb eq_refl
                  ltac:(intros extra Hx; discriminate Hx)) eq_refl Hne).
Defined.

(** Witness of [get_state_keeps_inherited]. *)
Lemma get_state_keeps_inherited_witness :
  exists st, get_state bob (initial_state "svc1" script_running)
             = (Ok st, initial_state "svc1" script_running)
    /\ st !! "pid" = Some "0" /\ st !! "service_id" = Some "svc1".
Proof.
  destruct (get_state_keeps_inherited bob (initial_state "svc1" script_running))
    as (st & Hg & Hother & Hid & _).
  exists st. split; [exact Hg|]. split.
  - rewrite (Hother "pid" ltac:(discriminate)). reflexivity.
  - apply Hid. discriminate.
Defined.

(** Witness of [cpu_nano_non_finite]. *)
Lemma cpu_nano_non_finite_witness :
  cpu_nano (Some S754_nan) = Raise ValueError
  /\ cpu_nano (Some (S754_infinity false)) = Raise OverflowError.
Proof.
  split.
  - exact (proj1 (cpu_nano_non_finite S754_nan) eq_refl).
  - exact (proj1 (proj2 (cpu_nano_non_finite (S754_infinity false))) false eq_refl).
Defined.
